(** * Coach: iteration control, model gating and batched inference

    A shallow embedding of [alphazero/Coach.py].  The [Coach] object, the
    files it reads and writes and a log of the calls it makes to its
    collaborators are threaded through a small state-and-exception monad.
    The worker processes, the arena and the network are collaborators that
    live outside this file: what they answer is passed in, what they are
    asked is logged. *)

From Stdlib Require Import ZArith QArith Lia List Sorted.
From stdpp Require Import base option list gmap strings.

Local Open Scope Z_scope.

(** ** Python values *)

Module Py.

(** [range(a, b)] *)
Definition range (a b : Z) : list Z :=
  map (fun k => a + Z.of_nat k) (seq 0 (Z.to_nat (b - a))).

(** [l[i]]: a negative index counts from the end, anything outside
    [-len(l) .. len(l)-1] is an [IndexError] ([None] here). *)
Definition index {A} (l : list A) (i : Z) : option A :=
  let n := Z.of_nat (length l) in
  if 0 <=? i then l !! Z.to_nat i
  else if - n <=? i then l !! Z.to_nat (n + i)
  else None.

(** [l[i] = x], the position [index] reads. *)
Definition store {A} (l : list A) (i : Z) (x : A) : option (list A) :=
  let n := Z.of_nat (length l) in
  if 0 <=? i then
    if i <? n then Some (<[Z.to_nat i := x]> l) else None
  else if - n <=? i then Some (<[Z.to_nat (n + i) := x]> l)
  else None.

(** [del l[0]] *)
Definition del_first {A} (l : list A) : option (list A) :=
  match l with
  | [] => None
  | _ :: l' => Some l'
  end.

(** Truth value of an optional integer ([None] and [0] are false). *)
Definition truthy (o : option Z) : bool :=
  match o with
  | Some z => negb (z =? 0)
  | None => false
  end.

(** [x < y] on two finite floats, read as the rationals they denote. *)
Definition lt (x y : Q) : bool := negb (Qle_bool y x).

End Py.

(** ** Exceptions and outcomes *)

Inductive exn : Type :=
| UserWarning
| ZeroDivisionError
| IndexError
| AssertionError
| FileNotFoundError
| RuntimeError
| ValueError.

(** A call returns, raises, or never returns because it waits for a
  worker that has nothing more to say. *)
Inductive result (A : Type) : Type :=
| Ok (a : A)
| Raise (e : exn)
| Blocked.
Arguments Ok {A} a.
Arguments Raise {A} e.
Arguments Blocked {A}.

(** ** Configuration *)

Record ExpertValueWeight : Type := {
evw_start : Q;
evw_end : Q;
evw_iterations : Z;
evw_current : Q
}.

Record Args : Type := {
workers : Z;
startIter : Z;
numIters : Z;
process_batch_size : Z;
train_batch_size : Z;
train_steps_per_iteration : Z;
numItersForTrainExamplesHistory : Z;
numWarmupIters : Z;
skipSelfPlayIters : Z;
compareWithRandom : bool;
arenaCompareRandom : Z;
arenaCompare : Z;
arenaMCTS : bool;
arenaBatched : bool;
randomCompareFreq : Z;
compareWithPast : bool;
pastCompareFreq : Z;
model_gating : bool;
max_gating_iters : option Z;
min_next_model_winrate : Q;
expertValueWeight : ExpertValueWeight
}.

Definition set_arenaMCTS (b : bool) (a : Args) : Args :=
{| workers := workers a; startIter := startIter a; numIters := numIters a;
   process_batch_size := process_batch_size a;
   train_batch_size := train_batch_size a;
   train_steps_per_iteration := train_steps_per_iteration a;
   numItersForTrainExamplesHistory := numItersForTrainExamplesHistory a;
   numWarmupIters := numWarmupIters a;
   skipSelfPlayIters := skipSelfPlayIters a;
   compareWithRandom := compareWithRandom a;
   arenaCompareRandom := arenaCompareRandom a;
   arenaCompare := arenaCompare a;
   arenaMCTS := b;
   arenaBatched := arenaBatched a;
   randomCompareFreq := randomCompareFreq a;
   compareWithPast := compareWithPast a;
   pastCompareFreq := pastCompareFreq a;
   model_gating := model_gating a;
   max_gating_iters := max_gating_iters a;
   min_next_model_winrate := min_next_model_winrate a;
   expertValueWeight := expertValueWeight a |}.

Definition set_expert_current (q : Q) (a : Args) : Args :=
{| workers := workers a; startIter := startIter a; numIters := numIters a;
   process_batch_size := process_batch_size a;
   train_batch_size := train_batch_size a;
   train_steps_per_iteration := train_steps_per_iteration a;
   numItersForTrainExamplesHistory := numItersForTrainExamplesHistory a;
   numWarmupIters := numWarmupIters a;
   skipSelfPlayIters := skipSelfPlayIters a;
   compareWithRandom := compareWithRandom a;
   arenaCompareRandom := arenaCompareRandom a;
   arenaCompare := arenaCompare a;
   arenaMCTS := arenaMCTS a;
   arenaBatched := arenaBatched a;
   randomCompareFreq := randomCompareFreq a;
   compareWithPast := compareWithPast a;
   pastCompareFreq := pastCompareFreq a;
   model_gating := model_gating a;
   max_gating_iters := max_gating_iters a;
   min_next_model_winrate := min_next_model_winrate a;
   expertValueWeight :=
     {| evw_start := evw_start (expertValueWeight a);
        evw_end := evw_end (expertValueWeight a);
        evw_iterations := evw_iterations (expertValueWeight a);
        evw_current := q |} |}.

Definition set_startIter (n : Z) (a : Args) : Args :=
  {| workers := workers a; startIter := n; numIters := numIters a;
     process_batch_size := process_batch_size a;
     train_batch_size := train_batch_size a;
     train_steps_per_iteration := train_steps_per_iteration a;
     numItersForTrainExamplesHistory := numItersForTrainExamplesHistory a;
     numWarmupIters := numWarmupIters a;
     skipSelfPlayIters := skipSelfPlayIters a;
     compareWithRandom := compareWithRandom a;
     arenaCompareRandom := arenaCompareRandom a;
     arenaCompare := arenaCompare a;
     arenaMCTS := arenaMCTS a;
     arenaBatched := arenaBatched a;
     randomCompareFreq := randomCompareFreq a;
     compareWithPast := compareWithPast a;
     pastCompareFreq := pastCompareFreq a;
     model_gating := model_gating a;
     max_gating_iters := max_gating_iters a;
     min_next_model_winrate := min_next_model_winrate a;
     expertValueWeight := expertValueWeight a |}.

(** [DEFAULT_ARGS], the fields above. *)
Definition DEFAULT_ARGS (cpu_count : Z) : Args :=
{| workers := cpu_count; startIter := 0; numIters := 1000;
   process_batch_size := 128; train_batch_size := 512;
   train_steps_per_iteration := 512;
   numItersForTrainExamplesHistory := 10;
   numWarmupIters := 1;
   skipSelfPlayIters := 0;
   compareWithRandom := true;
   arenaCompareRandom := 16;
   arenaCompare := 32 * 4;
   arenaMCTS := true;
   arenaBatched := true;
   randomCompareFreq := 1;
   compareWithPast := true;
   pastCompareFreq := 1;
   model_gating := true;
   max_gating_iters := Some 3;
   min_next_model_winrate := (52 # 100)%Q;
   expertValueWeight :=
     {| evw_start := 0%Q; evw_end := 0%Q; evw_iterations := 35;
        evw_current := 0%Q |} |}.

(** ** [get_args] *)

Section GetArgs.

(** Whatever an attribute of the arguments holds. *)
Context {value : Type}.

(** [get_args] on its keywords.  [args] is one more name for the object
    [DEFAULT_ARGS] names, so every [setattr] lands on that object: given
    the keywords in order and the attributes of [DEFAULT_ARGS], the
    attributes of the object returned and those [DEFAULT_ARGS] is left
    with. *)
Definition get_args (kwargs : list (string * value))
    (defaults : gmap string value) : gmap string value * gmap string value :=
  let obj := foldl (fun obj kv => <[fst kv := snd kv]> obj) defaults kwargs in
  (obj, obj).

End GetArgs.

(** ** Collaborators: what is logged of the calls made to them *)

Inductive net : Type := Live | Past.

Inductive player : Type :=
| NetProcess (n : net)
| MCTSPlayer (n : net)
| NNPlayer (n : net)
| RandomPlayer.

Inductive tag : Type :=
| WinRatePlayer (i : Z)
| WinRateDraws
| WinRateModelVersion
| WinRatePast
| WinRateRandom
| LossPolicy
| LossValue
| LossTotal.

Inductive event : Type :=
| LoadCheckpoint (n : net) (i : Z)
| SaveCheckpoint (i : Z)
| RemoveCheckpoint (i : Z)
| LoadShard (i : Z)
| SaveShard (i : Z)
| PlayGames (players : list player) (batched : bool) (count : Z)
| NetEval (id : Z)
| BatchReady (id : Z)
| StartAgent (id : Z)
| JoinAgent (id : Z)
| AddScalar (t : tag) (value : Q) (step : Z).

(** What [Arena.play_games] returns. *)
Record ArenaResult : Type := {
arena_wins : list Z;
arena_draws : Z;
arena_winrates : list Q
}.

(** ** The coach, its files and the monad *)

(** What the coach asks of the network, of torch and of the game.
    [weights] are network parameters, [tensor] a tensor, and [data_t],
    [policy_t], [value_t] and [outcome] what a worker puts on the sample
    and result queues. *)
Class Collaborators (weights tensor data_t policy_t value_t outcome : Type)
  : Type := {
  (** [nnet.process]: one forward pass, giving policy and value. *)
  nnet_process : weights -> tensor -> tensor * tensor;
  (** [torch.zeros] at the three shapes of a worker slot and of a row of
      each of the three arrays of a shard. *)
  zeros_input : tensor;
  zeros_policy : tensor;
  zeros_value : tensor;
  zero_data_row : tensor;
  zero_policy_row : tensor;
  zero_value_row : tensor;
  (** [torch.from_numpy(data.astype(np.float32))], [torch.tensor(policy)]
      and the float32 cell a value is stored in. *)
  from_numpy_f32 : data_t -> tensor;
  torch_tensor : policy_t -> tensor;
  value_cell : value_t -> tensor;
  (** [get_game_results]: wins per player and draws of the queued games. *)
  get_game_results : list outcome -> list Z * Z;
  (** [len(game.getPlayers())] *)
  num_players : Z;
  (** Whether the host has a CUDA device, as [torch.cuda.is_available()]
      tells: without one, [Tensor.pin_memory()] raises. *)
  cuda_available : bool
}.

Section CoachModel.

Context `{K : Collaborators weights tensor data_t policy_t value_t outcome}.

Definition sample : Type := data_t * policy_t * value_t.
(** One element of a [TensorDataset]. *)
Definition triple : Type := tensor * tensor * tensor.

Record Coach : Type := {
  args : Args;
  nnet : weights;
  pnet : weights;
  current_iter : Z;
  gating_counter : Z;
  warmup : bool;
  agents : list Z;
  input_tensors : list tensor;
  policy_tensors : list tensor;
  value_tensors : list tensor;
  batch_ready : list bool;
  file_queue : list sample;
  result_queue : list outcome
}.

(** Checkpoints and shards, by iteration number ([get_iter_file] names
    one file per iteration). *)
Record Disk : Type := {
  checkpoints : gmap Z weights;
  data_files : gmap Z (list tensor);
  policy_files : gmap Z (list tensor);
  value_files : gmap Z (list tensor)
}.

Record World : Type := {
  self : Coach;
  disk : Disk;
  log : list event
}.

(** Field updates. *)
Definition with_args (f : Args -> Args) (c : Coach) : Coach :=
  {| args := f (args c); nnet := nnet c; pnet := pnet c;
     current_iter := current_iter c; gating_counter := gating_counter c;
     warmup := warmup c; agents := agents c;
     input_tensors := input_tensors c; policy_tensors := policy_tensors c;
     value_tensors := value_tensors c; batch_ready := batch_ready c;
     file_queue := file_queue c; result_queue := result_queue c |}.

Definition with_nnet (v : weights) (c : Coach) : Coach :=
  {| args := args c; nnet := v; pnet := pnet c;
     current_iter := current_iter c; gating_counter := gating_counter c;
     warmup := warmup c; agents := agents c;
     input_tensors := input_tensors c; policy_tensors := policy_tensors c;
     value_tensors := value_tensors c; batch_ready := batch_ready c;
     file_queue := file_queue c; result_queue := result_queue c |}.

Definition with_pnet (v : weights) (c : Coach) : Coach :=
  {| args := args c; nnet := nnet c; pnet := v;
     current_iter := current_iter c; gating_counter := gating_counter c;
     warmup := warmup c; agents := agents c;
     input_tensors := input_tensors c; policy_tensors := policy_tensors c;
     value_tensors := value_tensors c; batch_ready := batch_ready c;
     file_queue := file_queue c; result_queue := result_queue c |}.

Definition with_current_iter (v : Z) (c : Coach) : Coach :=
  {| args := args c; nnet := nnet c; pnet := pnet c;
     current_iter := v; gating_counter := gating_counter c;
     warmup := warmup c; agents := agents c;
     input_tensors := input_tensors c; policy_tensors := policy_tensors c;
     value_tensors := value_tensors c; batch_ready := batch_ready c;
     file_queue := file_queue c; result_queue := result_queue c |}.

Definition with_gating_counter (v : Z) (c : Coach) : Coach :=
  {| args := args c; nnet := nnet c; pnet := pnet c;
     current_iter := current_iter c; gating_counter := v;
     warmup := warmup c; agents := agents c;
     input_tensors := input_tensors c; policy_tensors := policy_tensors c;
     value_tensors := value_tensors c; batch_ready := batch_ready c;
     file_queue := file_queue c; result_queue := result_queue c |}.

Definition with_warmup (v : bool) (c : Coach) : Coach :=
  {| args := args c; nnet := nnet c; pnet := pnet c;
     current_iter := current_iter c; gating_counter := gating_counter c;
     warmup := v; agents := agents c;
     input_tensors := input_tensors c; policy_tensors := policy_tensors c;
     value_tensors := value_tensors c; batch_ready := batch_ready c;
     file_queue := file_queue c; result_queue := result_queue c |}.

(** The five per-worker lists change together. *)
Definition with_slots (ag : list Z) (inp pol val : list tensor)
    (rdy : list bool) (c : Coach) : Coach :=
  {| args := args c; nnet := nnet c; pnet := pnet c;
     current_iter := current_iter c; gating_counter := gating_counter c;
     warmup := warmup c; agents := ag;
     input_tensors := inp; policy_tensors := pol;
     value_tensors := val; batch_ready := rdy;
     file_queue := file_queue c; result_queue := result_queue c |}.

Definition with_file_queue (v : list sample) (c : Coach) : Coach :=
  {| args := args c; nnet := nnet c; pnet := pnet c;
     current_iter := current_iter c; gating_counter := gating_counter c;
     warmup := warmup c; agents := agents c;
     input_tensors := input_tensors c; policy_tensors := policy_tensors c;
     value_tensors := value_tensors c; batch_ready := batch_ready c;
     file_queue := v; result_queue := result_queue c |}.

Definition with_result_queue (v : list outcome) (c : Coach) : Coach :=
  {| args := args c; nnet := nnet c; pnet := pnet c;
     current_iter := current_iter c; gating_counter := gating_counter c;
     warmup := warmup c; agents := agents c;
     input_tensors := input_tensors c; policy_tensors := policy_tensors c;
     value_tensors := value_tensors c; batch_ready := batch_ready c;
     file_queue := file_queue c; result_queue := v |}.

Definition with_checkpoints (f : gmap Z weights -> gmap Z weights)
    (d : Disk) : Disk :=
  {| checkpoints := f (checkpoints d); data_files := data_files d;
     policy_files := policy_files d; value_files := value_files d |}.

(** The state-and-exception monad. *)
Definition M (A : Type) : Type := World -> result A * World.

Definition ret {A} (a : A) : M A := fun w => (Ok a, w).

Definition bind {A B} (m : M A) (k : A -> M B) : M B :=
  fun w =>
    match m w with
    | (Ok a, w') => k a w'
    | (Raise e, w') => (Raise e, w')
    | (Blocked, w') => (Blocked, w')
    end.

Definition raise {A} (e : exn) : M A := fun w => (Raise e, w).
Definition block {A} : M A := fun w => (Blocked, w).

(** Read a field of [self]. *)
Definition get {A} (f : Coach -> A) : M A := fun w => (Ok (f (self w)), w).
(** Update [self]. *)
Definition upd (f : Coach -> Coach) : M unit :=
  fun w => (Ok tt, {| self := f (self w); disk := disk w; log := log w |}).
Definition get_disk {A} (f : Disk -> A) : M A :=
  fun w => (Ok (f (disk w)), w).
Definition upd_disk (f : Disk -> Disk) : M unit :=
  fun w => (Ok tt, {| self := self w; disk := f (disk w); log := log w |}).
(** Append a call to the log. *)
Definition emit (e : event) : M unit :=
  fun w => (Ok tt, {| self := self w; disk := disk w; log := log w ++ [e] |}).

(** An optional value that raises [e] when absent. *)
Definition or_raise {A} (e : exn) (o : option A) : M A :=
  match o with
  | Some a => ret a
  | None => raise e
  end.


Declare Scope coach_scope.
Delimit Scope coach_scope with coach.
Bind Scope coach_scope with M.
Notation "x <- y ;; z" := (bind y (fun x => z))
  (at level 20, y at level 99, z at level 200, only parsing) : coach_scope.
Notation "x ;; z" := (bind x (fun _ => z))
  (at level 100, z at level 200, only parsing, right associativity)
  : coach_scope.
Local Open Scope coach_scope.

(** [for x in l: body(x)] *)
Fixpoint for_each {A} (l : list A) (body : A -> M unit) : M unit :=
  match l with
  | [] => ret tt
  | x :: l' => body x ;; for_each l' body
  end.

(** [[f(x) for x in l]], with effects. *)
Fixpoint map_each {A B} (l : list A) (f : A -> M B) : M (list B) :=
  match l with
  | [] => ret []
  | x :: l' => y <- f x ;; ys <- map_each l' f ;; ret (y :: ys)
  end.

(** A loop that carries local variables [s]. *)
Fixpoint fold_each {A S} (l : list A) (s : S) (body : S -> A -> M S) : M S :=
  match l with
  | [] => ret s
  | x :: l' => s' <- body s x ;; fold_each l' s' body
  end.

(** *** The checkpoint store *)

(** Modelled from the spec: [load_checkpoint] of the network wrapper is
    not in this file.  The checkpoint store loads the snapshot of an
    iteration into a network, and a missing checkpoint is fatal. *)
Definition load_checkpoint (n : net) (i : Z) : M unit :=
  emit (LoadCheckpoint n i) ;;
  found <- get_disk (fun d => checkpoints d !! i) ;;
  w <- or_raise FileNotFoundError found ;;
  upd (match n with Live => with_nnet w | Past => with_pnet w end).

(** Modelled from the spec: [save_checkpoint] of the network wrapper
    writes the live parameters as the snapshot of an iteration. *)
Definition save_checkpoint (i : Z) : M unit :=
  emit (SaveCheckpoint i) ;;
  w <- get nnet ;;
  upd_disk (with_checkpoints (insert i w)).

(** [os.remove] of the checkpoint file of an iteration. *)
Definition os_remove (i : Z) : M unit :=
  emit (RemoveCheckpoint i) ;;
  found <- get_disk (fun d => checkpoints d !! i) ;;
  _ <- or_raise FileNotFoundError found ;;
  upd_disk (with_checkpoints (delete i)).

(** *** The arena *)

(** [Arena(players, ...).play_games(count)]: the games are played
    elsewhere, [r] is what they gave. *)
Definition play_games (r : ArenaResult) (players : list player)
    (batched : bool) (count : Z) : M ArenaResult :=
  emit (PlayGames players batched count) ;;
  ret r.

(** [[first] + [other] * (len(game.getPlayers()) - 1)] *)
Definition line_up (first other : player) : list player :=
  [first] ++ repeat other (Z.to_nat (num_players - 1)).

(** The condition of the gating [if]; [and] stops at the first false
    operand, so the bound is compared only when it is truthy. *)
Definition gate_rejects (a : Args) (winrate : Q) (counter : Z) : bool :=
  model_gating a
  && Py.lt winrate (min_next_model_winrate a)
  && Py.truthy (max_gating_iters a)
  && match max_gating_iters a with
     | Some m => counter <=? m
     | None => false
     end.

Definition compareToPast (arena : ArenaResult) (iteration : Z) : M unit :=
  a <- get args ;;
  let past := Z.max 0 (iteration - pastCompareFreq a) in
  load_checkpoint Past past ;;
  pair <-
    (if arenaBatched a then
       (if negb (arenaMCTS a) then
          upd (with_args (set_arenaMCTS true)) ;;
          raise UserWarning
        else ret tt) ;;
       ret (NetProcess Live, NetProcess Past)
     else
       let cls := if arenaMCTS a then MCTSPlayer else NNPlayer in
       ret (cls Live, cls Past)) ;;
  let players := line_up (fst pair) (snd pair) in
  a <- get args ;;
  r <- play_games arena players (arenaBatched a) (arenaCompare a) ;;
  winrate <- or_raise IndexError (Py.index (arena_winrates r) 0) ;;
  _ <- or_raise IndexError (Py.index (arena_wins r) 0) ;;
  emit (AddScalar WinRatePast winrate iteration) ;;
  counter <- get gating_counter ;;
  if gate_rejects a winrate counter then
    load_checkpoint Live past ;;
    os_remove iteration ;;
    upd (with_current_iter past) ;;
    counter <- get gating_counter ;;
    upd (with_gating_counter (counter + 1))
  else
    upd (with_gating_counter 0).

Definition compareToRandom (arena : ArenaResult) (iteration : Z) : M unit :=
  a <- get args ;;
  let cls := if arenaMCTS a then MCTSPlayer else NNPlayer in
  let players := line_up (cls Live) RandomPlayer in
  r <- play_games arena players false (arenaCompareRandom a) ;;
  winrate <- or_raise IndexError (Py.index (arena_winrates r) 0) ;;
  _ <- or_raise IndexError (Py.index (arena_wins r) 0) ;;
  emit (AddScalar WinRateRandom winrate iteration).

(** *** The self-play phase *)

(** What the ready queue hands over: the id of a worker, which by then
    has written the positions it wants evaluated into its input tensor. *)
Record notification : Type := {
  worker_id : Z;
  worker_input : tensor
}.

(** What the coordinator sees in one turn of its loop: the counter of
    finished workers, what the ready queue gives within the timeout
    (a notification, or nothing), and the counter of finished games. *)
Record turn : Type := {
  seen_completed : Z;
  popped : option notification;
  seen_games_played : Z
}.

(** [torch.zeros([process_batch_size, ...])]: the tensor [t] of zeros at
    the shape of a slot, and a [RuntimeError] for a negative size. *)
Definition torch_zeros (t : tensor) : M tensor :=
  a <- get args ;;
  if process_batch_size a <? 0 then raise RuntimeError else ret t.

(** [t.pin_memory()]: a page-locked copy of [t], which is dropped; on a
    host without a CUDA device the call raises [RuntimeError]. *)
Definition pin_memory (t : tensor) : M unit :=
  if cuda_available then ret tt else raise RuntimeError.

(** The body of the [for] of [generateSelfPlayAgents], for worker [i]. *)
Definition start_worker (i : Z) : M unit :=
  c <- get (fun c => c) ;;
  z <- torch_zeros zeros_input ;;
  let inp := input_tensors c ++ [z] in
  upd (with_slots (agents c) inp (policy_tensors c) (value_tensors c)
         (batch_ready c)) ;;
  t <- or_raise IndexError (Py.index inp i) ;;
  pin_memory t ;;
  z <- torch_zeros zeros_policy ;;
  let pol := policy_tensors c ++ [z] in
  upd (with_slots (agents c) inp pol (value_tensors c) (batch_ready c)) ;;
  t <- or_raise IndexError (Py.index pol i) ;;
  pin_memory t ;;
  z <- torch_zeros zeros_value ;;
  let val := value_tensors c ++ [z] in
  upd (with_slots (agents c) inp pol val (batch_ready c)) ;;
  t <- or_raise IndexError (Py.index val i) ;;
  pin_memory t ;;
  let rdy := batch_ready c ++ [false] in
  upd (with_slots (agents c) inp pol val rdy) ;;
  _ <- or_raise IndexError (Py.index rdy i) ;;
  let ags := agents c ++ [i] in
  upd (with_slots ags inp pol val rdy) ;;
  started <- or_raise IndexError (Py.index ags i) ;;
  emit (StartAgent started).

Definition generateSelfPlayAgents : M unit :=
  a <- get args ;;
  for_each (Py.range 0 (workers a)) start_worker.

(** Modelled from the spec: the self-play worker is not in this file.
    A worker writes into its own slot of the shared input buffers and
    then signals readiness; the coordinator reads that same memory. *)
Definition shared_write (n : notification) : M unit :=
  c <- get (fun c => c) ;;
  match Py.store (input_tensors c) (worker_id n) (worker_input n) with
  | Some inp =>
      upd (with_slots (agents c) inp (policy_tensors c) (value_tensors c)
             (batch_ready c))
  | None => ret tt
  end.

(** The body of the [try] once [ready_queue.get] has given [id]. *)
Definition serve (id : Z) : M unit :=
  c <- get (fun c => c) ;;
  input <- or_raise IndexError (Py.index (input_tensors c) id) ;;
  emit (NetEval id) ;;
  let '(policy, value) := nnet_process (nnet c) input in
  pol <- or_raise IndexError (Py.store (policy_tensors c) id policy) ;;
  upd (with_slots (agents c) (input_tensors c) pol (value_tensors c)
         (batch_ready c)) ;;
  val <- or_raise IndexError (Py.store (value_tensors c) id value) ;;
  upd (with_slots (agents c) (input_tensors c) pol val (batch_ready c)) ;;
  rdy <- or_raise IndexError (Py.store (batch_ready c) id true) ;;
  upd (with_slots (agents c) (input_tensors c) pol val rdy) ;;
  emit (BatchReady id).

(** The [while] loop, one turn per element of [turns].  The progress bar
    only reads [seen_games_played].  When the turns run out before the
    counter of finished workers reaches [workers] the loop is still
    waiting. *)
Fixpoint processSelfPlayBatches (turns : list turn) : M unit :=
  match turns with
  | [] => block
  | t :: turns' =>
      a <- get args ;;
      if negb (seen_completed t =? workers a) then
        match popped t with
        | Some n => shared_write n ;; serve (worker_id n)
        | None => ret tt
        end ;;
        processSelfPlayBatches turns'
      else ret tt
  end.

(** [join] returns once the worker has ended: [learn] calls this only
    after the batching loop has seen every worker finished. *)
Definition killSelfPlayAgents : M unit :=
  a <- get args ;;
  for_each (Py.range 0 (workers a)) (fun i =>
    c <- get (fun c => c) ;;
    joined <- or_raise IndexError (Py.index (agents c) i) ;;
    emit (JoinAgent joined) ;;
    inp <- or_raise IndexError (Py.del_first (input_tensors c)) ;;
    upd (with_slots (agents c) inp (policy_tensors c) (value_tensors c)
           (batch_ready c)) ;;
    pol <- or_raise IndexError (Py.del_first (policy_tensors c)) ;;
    upd (with_slots (agents c) inp pol (value_tensors c) (batch_ready c)) ;;
    val <- or_raise IndexError (Py.del_first (value_tensors c)) ;;
    upd (with_slots (agents c) inp pol val (batch_ready c)) ;;
    rdy <- or_raise IndexError (Py.del_first (batch_ready c)) ;;
    upd (with_slots (agents c) inp pol val rdy)) ;;
  upd (with_slots [] [] [] [] []).

(** *** Shards *)

(** [file_queue.get()]: with nothing queued the call waits. *)
Definition file_queue_get : M sample :=
  q <- get file_queue ;;
  match q with
  | [] => block
  | x :: q' => upd (with_file_queue q') ;; ret x
  end.

(** [torch.save] of the three arrays of an iteration. *)
Definition save_shard (i : Z) (data policy value : list tensor) : M unit :=
  emit (SaveShard i) ;;
  upd_disk (fun d =>
    {| checkpoints := checkpoints d;
       data_files := <[i := data]> (data_files d);
       policy_files := <[i := policy]> (policy_files d);
       value_files := <[i := value]> (value_files d) |}).

Definition saveIterationSamples (iteration : Z) : M unit :=
  q <- get file_queue ;;
  let num_samples := Z.of_nat (length q) in
  let data_tensor := replicate (Z.to_nat num_samples) zero_data_row in
  let policy_tensor := replicate (Z.to_nat num_samples) zero_policy_row in
  let value_tensor := replicate (Z.to_nat num_samples) zero_value_row in
  filled <-
    fold_each (Py.range 0 num_samples)
      (data_tensor, policy_tensor, value_tensor)
      (fun '(dt, pt, vt) i =>
         item <- file_queue_get ;;
         let '(data, policy, value) := item in
         dt' <- or_raise IndexError (Py.store dt i (from_numpy_f32 data)) ;;
         pt' <- or_raise IndexError (Py.store pt i (torch_tensor policy)) ;;
         vt' <- or_raise IndexError (Py.store vt i (value_cell value)) ;;
         ret (dt', pt', vt')) ;;
  let '(dt, pt, vt) := filled in
  save_shard iteration dt pt vt.

(** [torch.load] of the three arrays of an iteration, then
    [TensorDataset], which asserts that the three have the same number
    of rows and pairs them up row by row. *)
Definition load_shard (i : Z) : M (list triple) :=
  emit (LoadShard i) ;;
  d <- get_disk (fun d => d) ;;
  data_tensor <- or_raise FileNotFoundError (data_files d !! i) ;;
  policy_tensor <- or_raise FileNotFoundError (policy_files d !! i) ;;
  value_tensor <- or_raise FileNotFoundError (value_files d !! i) ;;
  if (length data_tensor =? length policy_tensor)%nat
     && (length data_tensor =? length value_tensor)%nat
  then ret (zip (zip data_tensor policy_tensor) value_tensor)
  else raise AssertionError.

(** [get_game_results] takes the queued outcomes off the result queue
    and tallies them; the scalars are float divisions by the number of
    games, read as rationals. *)
Definition processGameResults (iteration : Z) : M unit :=
  q <- get result_queue ;;
  let num_games := Z.of_nat (length q) in
  let '(wins, draws) := get_game_results q in
  upd (with_result_queue []) ;;
  for_each (Py.range 0 (Z.of_nat (length wins))) (fun i =>
    w <- or_raise IndexError (Py.index wins i) ;;
    if num_games =? 0 then raise ZeroDivisionError
    else emit (AddScalar (WinRatePlayer i)
                 ((inject_Z w + (1 # 2) * inject_Z draws)
                  / inject_Z num_games)%Q iteration)) ;;
  if num_games =? 0 then raise ZeroDivisionError
  else emit (AddScalar WinRateDraws
               (inject_Z draws / inject_Z num_games)%Q iteration).

(** *** Training *)

Definition currentHistorySize (a : Args) (iteration : Z) : Z :=
  Z.min (Z.max 4 ((iteration + 4) / 2)) (numItersForTrainExamplesHistory a).

(** The iterations whose shards [train] reads, in reading order. *)
Definition train_window (a : Args) (iteration : Z) : list Z :=
  Py.range (Z.max 1 (iteration - currentHistorySize a iteration))
           (iteration + 1).

(** [DataLoader(dataset, batch_size=train_batch_size, shuffle=True,
    num_workers=workers, pin_memory=True)]: the constructor raises
    [ValueError] for a negative number of workers, for a batch size that
    is not positive and, since it shuffles, for a dataset without rows. *)
Definition data_loader (a : Args) (dataset : list triple) : M unit :=
  if (workers a <? 0) || (train_batch_size a <=? 0)
     || (length dataset =? 0)%nat
  then raise ValueError
  else ret tt.

(** [nnet_train] is [nnet.train] on the loader of the concatenated
    datasets: the parameters it leaves in the network and the two
    losses. [ConcatDataset] asserts that it is given a dataset. *)
Definition train
    (nnet_train : weights -> list triple -> Z -> weights * (Q * Q))
    (iteration : Z) : M unit :=
  a <- get args ;;
  datasets <- map_each (train_window a iteration) load_shard ;;
  (if (length datasets =? 0)%nat then raise AssertionError else ret tt) ;;
  let dataset := concat datasets in
  data_loader a dataset ;;
  w <- get nnet ;;
  let '(w', (l_pi, l_v)) :=
    nnet_train w dataset (train_steps_per_iteration a) in
  upd (with_nnet w') ;;
  emit (AddScalar LossPolicy l_pi iteration) ;;
  emit (AddScalar LossValue l_v iteration) ;;
  emit (AddScalar LossTotal (l_pi + l_v)%Q iteration) ;;
  save_checkpoint iteration.

(** *** The outer loop *)

(** What the collaborators do during one turn of [learn]. *)
Record Env : Type := {
  env_turns : list turn;
  env_samples : list sample;
  env_results : list outcome;
  env_train : weights -> list triple -> Z -> weights * (Q * Q);
  env_vs_random : ArenaResult;
  env_vs_past : ArenaResult
}.

(** Modelled from the spec: the self-play worker is not in this file.
    By the time all workers have finished they have pushed their
    samples and the outcomes of their games to the two sinks. *)
Definition agents_emit (e : Env) : M unit :=
  c <- get (fun c => c) ;;
  upd (with_file_queue (file_queue c ++ env_samples e)) ;;
  upd (with_result_queue (result_queue c ++ env_results e)).

(** [a % b == 0], raising on [b = 0]. *)
Definition divides (b a : Z) : M bool :=
  if b =? 0 then raise ZeroDivisionError else ret (a mod b =? 0).

(** The body of the [while] of [learn]. *)
Definition learn_body (e : Env) (const_i : Z) : M unit :=
  i <- get current_iter ;;
  a <- get args ;;
  (if const_i <=? numWarmupIters a then upd (with_warmup true)
   else
     wu <- get warmup ;;
     if wu then upd (with_warmup false) else ret tt) ;;
  (if skipSelfPlayIters a <? const_i then
     generateSelfPlayAgents ;;
     processSelfPlayBatches (env_turns e) ;;
     agents_emit e ;;
     saveIterationSamples i ;;
     processGameResults const_i ;;
     killSelfPlayAgents
   else ret tt) ;;
  train (env_train e) i ;;
  wu <- get warmup ;;
  due <- (if negb wu && compareWithRandom a
          then divides (randomCompareFreq a) (const_i - 1)
          else ret false) ;;
  (if due then compareToRandom (env_vs_random e) i else ret tt) ;;
  wu <- get warmup ;;
  due <- (if negb wu && compareWithPast a
          then divides (pastCompareFreq a) (const_i - 1)
          else ret false) ;;
  (if due then compareToPast (env_vs_past e) i else ret tt) ;;
  a <- get args ;;
  let z := expertValueWeight a in
  (if evw_iterations z =? 0 then raise ZeroDivisionError
   else
     upd (with_args (set_expert_current
            (inject_Z (Z.min const_i (evw_iterations z))
             / inject_Z (evw_iterations z)
             * (evw_end z - evw_start z) + evw_start z)%Q))) ;;
  now <- get current_iter ;;
  emit (AddScalar WinRateModelVersion (inject_Z now) const_i) ;;
  upd (with_current_iter (now + 1)).

(** The [while] loop from a given [const_i], one [Env] per turn. *)
Fixpoint learn_from (envs : list Env) (const_i : Z) : M unit :=
  i <- get current_iter ;;
  a <- get args ;;
  if i <=? numIters a then
    match envs with
    | [] => block
    | e :: envs' => learn_body e const_i ;; learn_from envs' (const_i + 1)
    end
  else ret tt.

Definition learn (envs : list Env) : M unit :=
  a <- get args ;;
  learn_from envs (startIter a).

(** *** The constructor *)

(** [Coach.__init__], run on a world that holds the arguments, the
    network given as [nnet] and the fresh network of its class as
    [pnet].  [load_model] is [args.load_model], and the files [glob]
    finds in the checkpoint folder are the checkpoints stored. *)
Definition init (load_model : bool) : M unit :=
  (if load_model then
     n <- get_disk (fun d => Z.of_nat (size (checkpoints d))) ;;
     upd (with_args (set_startIter n)) ;;
     (if n =? 0 then
        save_checkpoint 0 ;;
        upd (with_args (set_startIter 1))
      else ret tt) ;;
     a <- get args ;;
     load_checkpoint Live (startIter a - 1)
   else ret tt) ;;
  a <- get args ;;
  upd (with_current_iter (startIter a)) ;;
  upd (with_gating_counter 0) ;;
  upd (with_warmup false) ;;
  upd (with_slots [] [] [] [] []) ;;
  upd (with_file_queue []) ;;
  upd (with_result_queue []) ;;
  upd (with_args
         (fun a => set_expert_current (evw_start (expertValueWeight a)) a)).

(** *** Runs and what they leave alone *)

(** Every run of [m], whatever its outcome, relates the world it starts
    in to the world it leaves. *)
Definition Pres (R : World -> World -> Prop) {A} (m : M A) : Prop :=
  forall w r w', m w = (r, w') -> R w w'.

(** The variables of the gate are untouched. *)
Definition gate_frame (w w' : World) : Prop :=
  args (self w') = args (self w)
  /\ current_iter (self w') = current_iter (self w)
  /\ gating_counter (self w') = gating_counter (self w)
  /\ warmup (self w') = warmup (self w).

(** Moreover the live network and the checkpoint store are untouched. *)
Definition frame (w w' : World) : Prop :=
  gate_frame w w'
  /\ nnet (self w') = nnet (self w)
  /\ checkpoints (disk w') = checkpoints (disk w).

(** The gating counter is within its bound [m + 1]. *)
Definition gate_bounded (m : Z) (w : World) : Prop :=
  max_gating_iters (args (self w)) = Some m
  /\ 0 <= gating_counter (self w) <= m + 1.

Definition keeps_bounded (m : Z) (w w' : World) : Prop :=
  gate_bounded m w -> gate_bounded m w'.

(** A call of the self-play phase: an agent started or joined, a batch
    evaluated or signalled, a shard written. *)
Definition is_selfplay (e : event) : bool :=
  match e with
  | StartAgent _ | JoinAgent _ | NetEval _ | BatchReady _ | SaveShard _ => true
  | _ => false
  end.

(** The run has made no call of the self-play phase. *)
Definition no_selfplay (w w' : World) : Prop :=
  exists l, log w' = log w ++ l /\ forallb (fun e => negb (is_selfplay e)) l = true.

(** *** The two ways the gate can leave the world *)

(** The line-up of the games against the past network. *)
Definition gate_players (a : Args) : list player :=
  if arenaBatched a then line_up (NetProcess Live) (NetProcess Past)
  else if arenaMCTS a then line_up (MCTSPlayer Live) (MCTSPlayer Past)
  else line_up (NNPlayer Live) (NNPlayer Past).

(** The calls [compareToPast] logs up to the gate. *)
Definition gate_calls (a : Args) (iteration : Z) (winrate : Q) : list event :=
  [ LoadCheckpoint Past (Z.max 0 (iteration - pastCompareFreq a));
    PlayGames (gate_players a) (arenaBatched a) (arenaCompare a);
    AddScalar WinRatePast winrate iteration ].

(** The new network is kept: only the counter is reset.  [pw] are the
    parameters of the past checkpoint. *)
Definition accepted (iteration : Z) (winrate : Q) (pw : weights)
    (w : World) : World :=
  {| self := with_gating_counter 0 (with_pnet pw (self w));
     disk := disk w;
     log := log w ++ gate_calls (args (self w)) iteration winrate |}.

(** The new network is dropped: the past checkpoint is loaded back, the
    checkpoint of [iteration] removed, the iteration rewound and the
    counter incremented. *)
Definition rejected (iteration : Z) (winrate : Q) (pw : weights)
    (w : World) : World :=
  let past := Z.max 0 (iteration - pastCompareFreq (args (self w))) in
  {| self :=
       with_gating_counter (gating_counter (self w) + 1)
         (with_current_iter past (with_nnet pw (with_pnet pw (self w))));
     disk := with_checkpoints (delete iteration) (disk w);
     log := log w ++ gate_calls (args (self w)) iteration winrate
              ++ [LoadCheckpoint Live past; RemoveCheckpoint iteration] |}.

(** What [compareToPast] needs in order to reach the gate: the past
    checkpoint, a configuration it does not reject, and an arena result
    with a first player. *)
Definition gate_reached (arena : ArenaResult) (iteration : Z) (winrate : Q)
    (pw : weights) (w : World) : Prop :=
  let a := args (self w) in
  checkpoints (disk w) !! Z.max 0 (iteration - pastCompareFreq a) = Some pw
  /\ (arenaBatched a = true -> arenaMCTS a = true)
  /\ Py.index (arena_winrates arena) 0 = Some winrate
  /\ arena_wins arena <> [].

(** *** One turn of [learn], around the gate *)

(** The comparison with the past network takes place in the turn
    [const_i]. *)
Definition past_due (a : Args) (const_i : Z) : bool :=
  (numWarmupIters a <? const_i)
  && compareWithPast a
  && negb (pastCompareFreq a =? 0)
  && ((const_i - 1) mod pastCompareFreq a =? 0).

(** From the start of a turn to the gate: the iteration has been trained
    and its checkpoint written from the live network. *)
Definition trained (w w1 : World) : Prop :=
  args (self w1) = args (self w)
  /\ current_iter (self w1) = current_iter (self w)
  /\ gating_counter (self w1) = gating_counter (self w)
  /\ checkpoints (disk w1) =
       <[current_iter (self w) := nnet (self w1)]> (checkpoints (disk w)).

(** From the gate to the end of a turn: the iteration counter is
    incremented, the rest of the gate's world is as the gate left it. *)
Definition advanced (w2 w' : World) : Prop :=
  current_iter (self w') = current_iter (self w2) + 1
  /\ gating_counter (self w') = gating_counter (self w2)
  /\ nnet (self w') = nnet (self w2)
  /\ disk w' = disk w2.

(** *** Shards, as the spec words them *)

(** [clamp(lo, x, hi)] *)
Definition clamp (lo x hi : Z) : Z := Z.min (Z.max lo x) hi.

(** The iterations whose shards a log shows being read, in order. *)
Definition shard_loads (l : list event) : list Z :=
  flat_map (fun e => match e with LoadShard i => [i] | _ => [] end) l.

(** The three arrays of iteration [i] are on disk, with as many rows
    each. *)
Definition shard_on_disk (d : Disk) (i : Z) : Prop :=
  exists dt pt vt,
    data_files d !! i = Some dt
    /\ policy_files d !! i = Some pt
    /\ value_files d !! i = Some vt
    /\ length dt = length pt
    /\ length dt = length vt.

(** The rows of the shard of iteration [i] on disk, row [k] of the three
    arrays side by side; where a file is missing there are none. *)
Definition shard_rows (d : Disk) (i : Z) : list triple :=
  match data_files d !! i, policy_files d !! i, value_files d !! i with
  | Some dt, Some pt, Some vt => zip (zip dt pt) vt
  | _, _, _ => []
  end.

(** A queued sample as the row it becomes in each of the three arrays. *)
Definition stored (s : sample) : triple :=
  let '(data, policy, value) := s in
  (from_numpy_f32 data, torch_tensor policy, value_cell value).

(** *** The batching loop, as the spec words it *)

(** The notifications the coordinator pops before the first turn in which
    it sees every worker finished. *)
Fixpoint served (n_workers : Z) (turns : list turn) : list notification :=
  match turns with
  | [] => []
  | t :: turns' =>
      if seen_completed t =? n_workers then []
      else match popped t with
           | Some n => n :: served n_workers turns'
           | None => served n_workers turns'
           end
  end.

(** Some turn sees every worker finished. *)
Definition finishes (n_workers : Z) (turns : list turn) : bool :=
  existsb (fun t => seen_completed t =? n_workers) turns.

(** One evaluation on the input of the worker of [n], answered into the
    policy and value tensors of that worker, whose event is set. *)
Definition answered (n : notification) (c : Coach) : Coach :=
  let id := Z.to_nat (worker_id n) in
  let '(policy, value) := nnet_process (nnet c) (worker_input n) in
  with_slots (agents c)
    (<[id := worker_input n]> (input_tensors c))
    (<[id := policy]> (policy_tensors c))
    (<[id := value]> (value_tensors c))
    (<[id := true]> (batch_ready c)) c.

(** The worker ids a log shows being evaluated, and being signalled. *)
Definition net_evals (l : list event) : list Z :=
  flat_map (fun e => match e with NetEval id => [id] | _ => [] end) l.

Definition signals (l : list event) : list Z :=
  flat_map (fun e => match e with BatchReady id => [id] | _ => [] end) l.

(** The coach holds [n] worker slots. *)
Definition has_slots (n : nat) (c : Coach) : Prop :=
  length (input_tensors c) = n
  /\ length (policy_tensors c) = n
  /\ length (value_tensors c) = n
  /\ length (batch_ready c) = n.

(** The notification names one of [n] slots. *)
Definition names_slot (n : nat) (x : notification) : Prop :=
  0 <= worker_id x < Z.of_nat n.

(** What the log shows for the notifications [ns]. *)
Definition service_log (ns : list notification) : list event :=
  flat_map (fun x => [NetEval (worker_id x); BatchReady (worker_id x)]) ns.

End CoachModel.

(** ** A small concrete run

    Integers stand for parameters and tensors; training adds one to the
    parameters.  Two workers, three samples, two finished games. *)

Module Demo.

#[global] Instance collaborators : Collaborators Z Z Z Z Z bool := {
  nnet_process w x := (x + w, x - w);
  zeros_input := 0;
  zeros_policy := 0;
  zeros_value := 0;
  zero_data_row := 0;
  zero_policy_row := 0;
  zero_value_row := 0;
  from_numpy_f32 d := d;
  torch_tensor p := p;
  value_cell v := v;
  get_game_results q :=
    ([Z.of_nat (count_occ bool_dec q true);
      Z.of_nat (count_occ bool_dec q false)], 0);
  num_players := 2;
  cuda_available := true
}.

(** The same collaborators on a host without a CUDA device. *)
Definition cpu_only : Collaborators Z Z Z Z Z bool :=
  {| nnet_process := fun w x => (x + w, x - w);
     zeros_input := 0;
     zeros_policy := 0;
     zeros_value := 0;
     zero_data_row := 0;
     zero_policy_row := 0;
     zero_value_row := 0;
     from_numpy_f32 := fun d => d;
     torch_tensor := fun p => p;
     value_cell := fun v => v;
     get_game_results := fun q =>
       ([Z.of_nat (count_occ bool_dec q true);
         Z.of_nat (count_occ bool_dec q false)], 0);
     num_players := 2;
     cuda_available := false |}.

(** [DEFAULT_ARGS] on two workers, resuming at iteration 2, with the
    arena MCTS switch and the gating bound left open. *)
Definition config (mcts : bool) (bound : option Z) : Args :=
  {| workers := 2; startIter := 2; numIters := 1000;
     process_batch_size := 128; train_batch_size := 512;
     train_steps_per_iteration := 512;
     numItersForTrainExamplesHistory := 10;
     numWarmupIters := 1;
     skipSelfPlayIters := 0;
     compareWithRandom := true;
     arenaCompareRandom := 16;
     arenaCompare := 32 * 4;
     arenaMCTS := mcts;
     arenaBatched := true;
     randomCompareFreq := 1;
     compareWithPast := true;
     pastCompareFreq := 1;
     model_gating := true;
     max_gating_iters := bound;
     min_next_model_winrate := (52 # 100)%Q;
     expertValueWeight :=
       {| evw_start := 0%Q; evw_end := 0%Q; evw_iterations := 35;
          evw_current := 0%Q |} |}.

Definition defaults : Args := config true (Some 3).

(** A coach about to run iteration 2, with the parameters of checkpoint 1
    loaded. *)
Definition coach (a : Args) (counter : Z) : @Coach Z Z Z Z Z bool :=
  {| args := a; nnet := 101; pnet := 0;
     current_iter := 2; gating_counter := counter; warmup := false;
     agents := []; input_tensors := []; policy_tensors := [];
     value_tensors := []; batch_ready := [];
     file_queue := []; result_queue := [] |}.

(** Checkpoints 0 and 1 and the shard of iteration 1. *)
Definition files : @Disk Z Z :=
  {| checkpoints := <[1 := 101]> (<[0 := 100]> ∅);
     data_files := <[1 := [7; 8]]> ∅;
     policy_files := <[1 := [17; 18]]> ∅;
     value_files := <[1 := [1; -1]]> ∅ |}.

(** The same once iteration 2 has been played and trained. *)
Definition files_trained : @Disk Z Z :=
  {| checkpoints := <[2 := 102]> (checkpoints files);
     data_files := <[2 := [1; 4; 7]]> (data_files files);
     policy_files := <[2 := [2; 5; 8]]> (policy_files files);
     value_files := <[2 := [3; 6; 9]]> (value_files files) |}.

(** At the start of a turn of [learn]. *)
Definition world (a : Args) (counter : Z) : @World Z Z Z Z Z bool :=
  {| self := coach a counter; disk := files; log := [] |}.

(** At the gate: iteration 2 is trained, its parameters are live. *)
Definition world_trained (a : Args) (counter : Z) : @World Z Z Z Z Z bool :=
  {| self := with_nnet 102 (coach a counter); disk := files_trained;
     log := [] |}.

(** In the self-play phase, with the slots of the two workers. *)
Definition world_playing : @World Z Z Z Z Z bool :=
  {| self := with_slots [0; 1] [0; 0] [0; 0] [0; 0] [false; false]
               (coach defaults 0);
     disk := files; log := [] |}.

Definition turns : list (@turn Z) :=
  [ {| seen_completed := 0;
       popped := Some {| worker_id := 0; worker_input := 5 |};
       seen_games_played := 0 |};
    {| seen_completed := 1; popped := None; seen_games_played := 1 |};
    {| seen_completed := 1;
       popped := Some {| worker_id := 1; worker_input := 9 |};
       seen_games_played := 1 |};
    {| seen_completed := 2; popped := None; seen_games_played := 2 |} ].

(** What the games against the past network gave when the new network
    won the share [winrate] of them. *)
Definition vs_past (winrate : Q) : ArenaResult :=
  {| arena_wins := [50; 78]; arena_draws := 0;
     arena_winrates := [winrate; (1 - winrate)%Q] |}.

(** One turn of [learn] with that result at the gate. *)
Definition env (winrate : Q) : @Env Z Z Z Z Z bool :=
  {| env_turns := turns;
     env_samples := [(1, 2, 3); (4, 5, 6); (7, 8, 9)];
     env_results := [true; false];
     env_train := fun w _ _ => (w + 1, (1 # 2, 1 # 4)%Q);
     env_vs_random :=
       {| arena_wins := [10; 6]; arena_draws := 0;
          arena_winrates := [10 # 16; 6 # 16]%Q |};
     env_vs_past := vs_past winrate |}.

(** A training step that folds the observations of the rows it is given
    into the parameters, in the order it is given them. *)
Definition train_on_rows (w : Z) (rows : list (Z * Z * Z)) (steps : Z)
  : Z * (Q * Q) :=
  (fold_left (fun acc r => 10 * acc + fst (fst r)) rows w,
   (1 # 2, 1 # 4)%Q).

(** The world after one turn of [learn] from a given gating counter. *)
Definition after_turn (counter : Z) (winrate : Q) : @World Z Z Z Z Z bool :=
  snd (learn_body (env winrate) 2 (world defaults counter)).

(** The same configuration with gating on or off, a comparison every
    [freq] iterations, [iters] iterations to run and self-play skipped
    in the first [skip] turns. *)
Definition config_with (gating : bool) (freq iters skip : Z) : Args :=
  {| workers := 2; startIter := 2; numIters := iters;
     process_batch_size := 128; train_batch_size := 512;
     train_steps_per_iteration := 512;
     numItersForTrainExamplesHistory := 10;
     numWarmupIters := 1;
     skipSelfPlayIters := skip;
     compareWithRandom := true;
     arenaCompareRandom := 16;
     arenaCompare := 32 * 4;
     arenaMCTS := true;
     arenaBatched := true;
     randomCompareFreq := 1;
     compareWithPast := true;
     pastCompareFreq := freq;
     model_gating := gating;
     max_gating_iters := Some 3;
     min_next_model_winrate := (52 # 100)%Q;
     expertValueWeight :=
       {| evw_start := 0%Q; evw_end := 0%Q; evw_iterations := 35;
          evw_current := 0%Q |} |}.

(** The default configuration with an expert value weight scheduled
    over 0 iterations. *)
Definition config_unscheduled : Args :=
  {| workers := 2; startIter := 2; numIters := 1000;
     process_batch_size := 128; train_batch_size := 512;
     train_steps_per_iteration := 512;
     numItersForTrainExamplesHistory := 10;
     numWarmupIters := 1;
     skipSelfPlayIters := 0;
     compareWithRandom := true;
     arenaCompareRandom := 16;
     arenaCompare := 32 * 4;
     arenaMCTS := true;
     arenaBatched := true;
     randomCompareFreq := 1;
     compareWithPast := true;
     pastCompareFreq := 1;
     model_gating := true;
     max_gating_iters := Some 3;
     min_next_model_winrate := (52 # 100)%Q;
     expertValueWeight :=
       {| evw_start := 0%Q; evw_end := 0%Q; evw_iterations := 0;
          evw_current := 0%Q |} |}.

(** A checkpoint folder with nothing in it, and one in which checkpoint
    1 is missing between 0 and 2. *)
Definition files_empty : @Disk Z Z :=
  {| checkpoints := ∅; data_files := ∅; policy_files := ∅;
     value_files := ∅ |}.

Definition files_gap : @Disk Z Z :=
  {| checkpoints := <[2 := 102]> (<[0 := 100]> ∅);
     data_files := ∅; policy_files := ∅; value_files := ∅ |}.

(** The world a coach is constructed in, over given files. *)
Definition world_over (d : @Disk Z Z) : @World Z Z Z Z Z bool :=
  {| self := coach defaults 0; disk := d; log := [] |}.

End Demo.

(** ** Reasoning about runs *)

Section CoachProofs.

Context `{K : Collaborators weights tensor data_t policy_t value_t outcome}.

Local Abbreviation World := (@World weights tensor data_t policy_t value_t outcome).
Local Abbreviation M := (@M weights tensor data_t policy_t value_t outcome).
Local Abbreviation Pres := (@Pres weights tensor data_t policy_t value_t outcome).

Lemma bind_inv {A B} (m : M A) (k : A -> M B) (w w2 : World) (r : result B) :
  bind m k w = (r, w2) ->
  (exists a w1, m w = (Ok a, w1) /\ k a w1 = (r, w2))
  \/ (exists e, m w = (Raise e, w2) /\ r = Raise e)
  \/ (m w = (Blocked, w2) /\ r = Blocked).
Proof.
  unfold bind. destruct (m w) as [[a | e |] w1]; intros H.
  - left. eauto.
  - right. left. inversion H; subst. eauto.
  - right. right. inversion H; subst. eauto.
Qed.

Lemma bind_ok_inv {A B} (m : M A) (k : A -> M B) (w w2 : World) (b : B) :
  bind m k w = (Ok b, w2) ->
  exists a w1, m w = (Ok a, w1) /\ k a w1 = (Ok b, w2).
Proof.
  intros H. apply bind_inv in H as [H | [(e & _ & H) | (_ & H)]];
    [assumption | discriminate | discriminate].
Qed.

Lemma bind_ok {A B} (m : M A) (k : A -> M B) (w w1 : World) (a : A) :
  m w = (Ok a, w1) -> bind m k w = k a w1.
Proof. unfold bind. intros ->. reflexivity. Qed.

Lemma bind_get {A B} (f : Coach -> A) (k : A -> M B) (w : World) :
  bind (get f) k w = k (f (self w)) w.
Proof. reflexivity. Qed.

(** *** Relations kept by every run *)

Section Preserving.

Variable R : World -> World -> Prop.
Hypothesis R_refl : forall w, R w w.
Hypothesis R_trans : forall w1 w2 w3, R w1 w2 -> R w2 w3 -> R w1 w3.

Lemma pres_ret {A} (a : A) : Pres R (ret a).
Proof. intros w r w' H. inversion H; subst. apply R_refl. Qed.

Lemma pres_raise {A} (e : exn) : Pres R (@raise _ _ _ _ _ _ A e).
Proof. intros w r w' H. inversion H; subst. apply R_refl. Qed.

Lemma pres_block {A} : Pres R (@block _ _ _ _ _ _ A).
Proof. intros w r w' H. inversion H; subst. apply R_refl. Qed.

Lemma pres_get {A} (f : Coach -> A) : Pres R (get f).
Proof. intros w r w' H. inversion H; subst. apply R_refl. Qed.

Lemma pres_get_disk {A} (f : Disk -> A) : Pres R (get_disk f).
Proof. intros w r w' H. inversion H; subst. apply R_refl. Qed.

Lemma pres_or_raise {A} (e : exn) (o : option A) : Pres R (or_raise e o).
Proof. destruct o; [apply pres_ret | apply pres_raise]. Qed.

Lemma pres_bind {A B} (m : M A) (k : A -> M B) :
  Pres R m -> (forall a, Pres R (k a)) -> Pres R (bind m k).
Proof.
  intros Hm Hk w r w' H.
  apply bind_inv in H as [(a & w1 & H1 & H2) | [(e & H1 & _) | (H1 & _)]].
  - eapply R_trans; [eapply Hm | eapply Hk]; eassumption.
  - eapply Hm; eassumption.
  - eapply Hm; eassumption.
Qed.

Lemma pres_for_each {A} (l : list A) (body : A -> M unit) :
  (forall x, Pres R (body x)) -> Pres R (for_each l body).
Proof.
  intros Hb. induction l as [| x l IH]; simpl.
  - apply pres_ret.
  - apply pres_bind; [apply Hb | intros _; apply IH].
Qed.

Lemma pres_map_each {A B} (l : list A) (f : A -> M B) :
  (forall x, Pres R (f x)) -> Pres R (map_each l f).
Proof.
  intros Hf. induction l as [| x l IH]; simpl.
  - apply pres_ret.
  - apply pres_bind; [apply Hf | intros y].
    apply pres_bind; [apply IH | intros ys; apply pres_ret].
Qed.

Lemma pres_fold_each {A S} (l : list A) (s : S) (body : S -> A -> M S) :
  (forall s x, Pres R (body s x)) -> Pres R (fold_each l s body).
Proof.
  intros Hb. revert s. induction l as [| x l IH]; intros s; simpl.
  - apply pres_ret.
  - apply pres_bind; [apply Hb | intros s'; apply IH].
Qed.

Lemma pres_upd (f : Coach -> Coach) :
  (forall w, R w {| self := f (self w); disk := disk w; log := log w |}) ->
  Pres R (upd f).
Proof. intros Hf w r w' H. inversion H; subst. apply Hf. Qed.

Lemma pres_upd_disk (f : Disk -> Disk) :
  (forall w, R w {| self := self w; disk := f (disk w); log := log w |}) ->
  Pres R (upd_disk f).
Proof. intros Hf w r w' H. inversion H; subst. apply Hf. Qed.

Lemma pres_emit (e : event) :
  (forall w, R w {| self := self w; disk := disk w; log := log w ++ [e] |}) ->
  Pres R (emit e).
Proof. intros Hf w r w' H. inversion H; subst. apply Hf. Qed.

End Preserving.

Lemma gate_frame_refl (w : World) : gate_frame w w.
Proof. unfold gate_frame. auto. Qed.

Lemma gate_frame_trans (w1 w2 w3 : World) :
  gate_frame w1 w2 -> gate_frame w2 w3 -> gate_frame w1 w3.
Proof. unfold gate_frame. intuition congruence. Qed.

Lemma frame_refl (w : World) : frame w w.
Proof. unfold frame, gate_frame. auto. Qed.

Lemma frame_trans (w1 w2 w3 : World) :
  frame w1 w2 -> frame w2 w3 -> frame w1 w3.
Proof. unfold frame, gate_frame. intuition congruence. Qed.

Lemma keeps_bounded_refl (m : Z) (w : World) : keeps_bounded m w w.
Proof. unfold keeps_bounded. auto. Qed.

Lemma keeps_bounded_trans (m : Z) (w1 w2 w3 : World) :
  keeps_bounded m w1 w2 -> keeps_bounded m w2 w3 -> keeps_bounded m w1 w3.
Proof. unfold keeps_bounded. auto. Qed.

Lemma frame_gate_frame (w w' : World) : frame w w' -> gate_frame w w'.
Proof. intros [H _]. exact H. Qed.

Lemma gate_frame_keeps_bounded (m : Z) (w w' : World) :
  gate_frame w w' -> keeps_bounded m w w'.
Proof.
  unfold gate_frame, keeps_bounded, gate_bounded.
  intros (Ha & _ & Hc & _). rewrite Ha, Hc. auto.
Qed.

Lemma pres_weaken (R R' : World -> World -> Prop) {A} (m : M A) :
  (forall w w', R w w' -> R' w w') -> Pres R m -> Pres R' m.
Proof. intros HR Hm w r w' H. apply HR. eapply Hm. eassumption. Qed.

Create HintDb pres.

(** Closes a goal [R w w'] in which [w'] is [w] with fields that [R] does
    not look at rewritten. *)
Ltac same_world :=
  intros; unfold frame, gate_frame; simpl; tauto.

(** Walks through a monadic program, one construct at a time. *)
Ltac pres_with refl trans :=
  repeat first
    [ apply (pres_ret _ refl)
    | apply (pres_raise _ refl)
    | apply (pres_block _ refl)
    | apply (pres_get _ refl)
    | apply (pres_get_disk _ refl)
    | apply (pres_or_raise _ refl)
    | apply pres_upd; same_world
    | apply pres_upd_disk; same_world
    | apply pres_emit; same_world
    | apply (pres_bind _ trans); [ | intros ]
    | apply (pres_for_each _ refl trans); intros
    | apply (pres_map_each _ refl trans); intros
    | apply (pres_fold_each _ refl trans); intros
    | solve [ auto with pres ]
    | match goal with
      | |- Pres _ (if ?b then _ else _) => destruct b
      | |- Pres _ (match ?x with _ => _ end) => destruct x
      | |- Pres _ ((match ?x with _ => _ end) _) => destruct x
      end ].

Ltac pres_frame := pres_with frame_refl frame_trans.
Ltac pres_gate := pres_with gate_frame_refl gate_frame_trans.

Lemma frame_generateSelfPlayAgents : Pres frame generateSelfPlayAgents.
Proof.
  unfold generateSelfPlayAgents, start_worker, torch_zeros, pin_memory.
  pres_frame.
Qed.

Lemma frame_shared_write (n : notification) : Pres frame (shared_write n).
Proof. unfold shared_write. pres_frame. Qed.

Lemma frame_serve (id : Z) : Pres frame (serve id).
Proof. unfold serve. pres_frame. Qed.

#[local] Hint Resolve frame_shared_write frame_serve : pres.

Lemma frame_processSelfPlayBatches (turns : list turn) :
  Pres frame (processSelfPlayBatches turns).
Proof. induction turns as [| t turns IH]; simpl; pres_frame. Qed.

Lemma frame_agents_emit (e : Env) : Pres frame (agents_emit e).
Proof. unfold agents_emit. pres_frame. Qed.

Lemma frame_file_queue_get : Pres frame file_queue_get.
Proof. unfold file_queue_get. pres_frame. Qed.

#[local] Hint Resolve frame_file_queue_get : pres.

Lemma frame_saveIterationSamples (iteration : Z) :
  Pres frame (saveIterationSamples iteration).
Proof. unfold saveIterationSamples, save_shard. pres_frame. Qed.

Lemma frame_processGameResults (iteration : Z) :
  Pres frame (processGameResults iteration).
Proof. unfold processGameResults. pres_frame. Qed.

Lemma frame_killSelfPlayAgents : Pres frame killSelfPlayAgents.
Proof. unfold killSelfPlayAgents. pres_frame. Qed.

Lemma frame_load_shard (i : Z) : Pres frame (load_shard i).
Proof. unfold load_shard. pres_frame. Qed.

Lemma frame_compareToRandom (arena : ArenaResult) (iteration : Z) :
  Pres frame (compareToRandom arena iteration).
Proof. unfold compareToRandom, play_games. pres_frame. Qed.

Lemma frame_divides (b a : Z) : Pres frame (divides b a).
Proof. unfold divides. pres_frame. Qed.

(** *** The gate *)

Lemma index_0 {A} (l : list A) : Py.index l 0 = head l.
Proof. destruct l; reflexivity. Qed.

Lemma lt_spec (x y : Q) : Py.lt x y = false <-> (y <= x)%Q.
Proof.
  unfold Py.lt. rewrite negb_false_iff. apply Qle_bool_iff.
Qed.

Ltac run_gate :=
  unfold compareToPast, load_checkpoint, os_remove, play_games, bind, get,
    get_disk, upd, upd_disk, emit, or_raise, ret, raise;
  simpl.

Lemma compareToPast_accepts arena i wr pw (w : World) :
  gate_reached arena i wr pw w ->
  gate_rejects (args (self w)) wr (gating_counter (self w)) = false ->
  compareToPast arena i w = (Ok tt, accepted i wr pw w).
Proof.
  intros (Hpw & Hcfg & Hwr & Hwins) Hgate.
  run_gate. rewrite Hpw. simpl.
  unfold accepted, gate_calls, gate_players.
  destruct (arenaBatched (args (self w))) eqn:Hb; simpl.
  - rewrite (Hcfg eq_refl). simpl. rewrite Hb, Hwr. simpl.
    rewrite index_0. destruct (arena_wins arena); [congruence |]. simpl.
    rewrite Hgate. rewrite <- !app_assoc. reflexivity.
  - rewrite Hb, Hwr. simpl.
    rewrite index_0. destruct (arena_wins arena); [congruence |]. simpl.
    rewrite Hgate. rewrite <- !app_assoc.
    destruct (arenaMCTS (args (self w))); reflexivity.
Qed.

Lemma compareToPast_rejects arena i wr pw (w : World) :
  gate_reached arena i wr pw w ->
  gate_rejects (args (self w)) wr (gating_counter (self w)) = true ->
  is_Some (checkpoints (disk w) !! i) ->
  compareToPast arena i w = (Ok tt, rejected i wr pw w).
Proof.
  intros (Hpw & Hcfg & Hwr & Hwins) Hgate [cw Hcw].
  run_gate. rewrite Hpw. simpl.
  unfold rejected, gate_calls, gate_players.
  destruct (arenaBatched (args (self w))) eqn:Hb; simpl.
  - rewrite (Hcfg eq_refl). simpl. rewrite Hb, Hwr. simpl.
    rewrite index_0. destruct (arena_wins arena); [congruence |]. simpl.
    rewrite Hgate. simpl. rewrite Hpw. simpl. rewrite Hcw. simpl.
    rewrite <- !app_assoc. reflexivity.
  - rewrite Hb, Hwr. simpl.
    rewrite index_0. destruct (arena_wins arena); [congruence |]. simpl.
    rewrite Hgate. simpl. rewrite Hpw. simpl. rewrite Hcw. simpl.
    rewrite <- !app_assoc.
    destruct (arenaMCTS (args (self w))); reflexivity.
Qed.

(** A misconfigured batched arena: the setting is corrected, and then the
    warning is raised as an exception. *)
Lemma compareToPast_warns arena i pw (w : World) :
  checkpoints (disk w) !! Z.max 0 (i - pastCompareFreq (args (self w)))
    = Some pw ->
  arenaBatched (args (self w)) = true ->
  arenaMCTS (args (self w)) = false ->
  compareToPast arena i w =
    (Raise UserWarning,
     {| self := with_args (set_arenaMCTS true) (with_pnet pw (self w));
        disk := disk w;
        log := log w ++ [LoadCheckpoint Past
                 (Z.max 0 (i - pastCompareFreq (args (self w))))] |}).
Proof.
  intros Hpw Hb Hm. run_gate. rewrite Hpw. simpl. rewrite Hb, Hm. reflexivity.
Qed.

(** Every run of [compareToPast] that returns is one of the two above. *)
Lemma compareToPast_returns arena i (w w' : World) :
  compareToPast arena i w = (Ok tt, w') ->
  exists wr pw,
    gate_reached arena i wr pw w
    /\ ((gate_rejects (args (self w)) wr (gating_counter (self w)) = false
         /\ w' = accepted i wr pw w)
        \/ (gate_rejects (args (self w)) wr (gating_counter (self w)) = true
            /\ is_Some (checkpoints (disk w) !! i)
            /\ w' = rejected i wr pw w)).
Proof.
  intros H.
  destruct (checkpoints (disk w) !! Z.max 0 (i - pastCompareFreq (args (self w))))
    as [pw |] eqn:Hpw;
    [| revert H; run_gate; rewrite Hpw; discriminate].
  assert (Hcfg : arenaBatched (args (self w)) = true ->
                 arenaMCTS (args (self w)) = true).
  { intros Hb. destruct (arenaMCTS (args (self w))) eqn:Hm; [reflexivity |].
    rewrite (compareToPast_warns arena i pw w Hpw Hb Hm) in H. discriminate. }
  destruct (Py.index (arena_winrates arena) 0) as [wr |] eqn:Hwr.
  2:{ revert H. run_gate. rewrite Hpw. simpl.
      destruct (arenaBatched (args (self w))) eqn:Hb; simpl.
      - rewrite (Hcfg eq_refl). simpl. rewrite Hwr. discriminate.
      - rewrite Hwr. discriminate. }
  assert (Hwins : arena_wins arena <> []).
  { intros Hnil. revert H. run_gate. rewrite Hpw. simpl.
    destruct (arenaBatched (args (self w))) eqn:Hb; simpl.
    - rewrite (Hcfg eq_refl). simpl. rewrite Hwr. simpl.
      rewrite Hnil. discriminate.
    - rewrite Hwr. simpl. rewrite Hnil. discriminate. }
  assert (Hreach : gate_reached arena i wr pw w) by (repeat split; assumption).
  exists wr, pw. split; [exact Hreach |].
  destruct (gate_rejects (args (self w)) wr (gating_counter (self w))) eqn:Hg.
  - right. split; [reflexivity |].
    destruct (checkpoints (disk w) !! i) as [cw |] eqn:Hcw.
    + split; [eauto |].
      rewrite (compareToPast_rejects arena i wr pw w Hreach Hg) in H by eauto.
      congruence.
    + exfalso. revert H. run_gate. rewrite Hpw. simpl.
      destruct (arenaBatched (args (self w))) eqn:Hb; simpl.
      * rewrite (Hcfg eq_refl). simpl. rewrite Hb, Hwr. simpl.
        rewrite index_0. destruct (arena_wins arena); [congruence |]. simpl.
        rewrite Hg. simpl. rewrite Hpw. simpl. rewrite Hcw. discriminate.
      * rewrite Hb, Hwr. simpl.
        rewrite index_0. destruct (arena_wins arena); [congruence |]. simpl.
        rewrite Hg. simpl. rewrite Hpw. simpl. rewrite Hcw. discriminate.
  - left. split; [reflexivity |].
    rewrite (compareToPast_accepts arena i wr pw w Hreach Hg) in H. congruence.
Qed.

(** *** One turn of [learn] *)

Tactic Notation "inv_bind" hyp(H) "as" ident(a) ident(w1) ident(H1) :=
  apply bind_ok_inv in H as (a & w1 & H1 & H).

Ltac inv_get H := unfold get, ret in H; injection H as <- <-.

Lemma frame_load_all (l : list Z) : Pres frame (map_each l load_shard).
Proof. pres_frame. Qed.

(** A run of [train] that returns has written the checkpoint of the
    iteration from the parameters it leaves in the live network. *)
Lemma train_returns f i (w w' : World) :
  train f i w = (Ok tt, w') ->
  gate_frame w w'
  /\ checkpoints (disk w') = <[i := nnet (self w')]> (checkpoints (disk w)).
Proof.
  intros H. unfold train in H.
  inv_bind H as a w0 Ha. inv_get Ha.
  inv_bind H as ds w1 Hload.
  apply frame_load_all in Hload as (Hg & Hn & Hc).
  inv_bind H as u w2 Hne.
  assert (w2 = w1) as ->.
  { destruct (length ds =? 0)%nat; [discriminate | inv_get Hne; reflexivity]. }
  clear Hne. inv_bind H as u' w2 Hdl.
  assert (w2 = w1) as ->.
  { unfold data_loader in Hdl.
    destruct ((workers (args (self w)) <? 0)
              || (train_batch_size (args (self w)) <=? 0)
              || (length (concat ds) =? 0)%nat);
      [discriminate | inv_get Hdl; reflexivity]. }
  clear Hdl. inv_bind H as wn w3 Hw. inv_get Hw.
  destruct (f (nnet (self w1)) (concat ds) (train_steps_per_iteration (args (self w))))
    as [wt [l_pi l_v]].
  unfold save_checkpoint, bind, get, upd, upd_disk, emit, ret in H.
  simpl in H. injection H as <-. simpl.
  split; [| rewrite Hc; reflexivity].
  revert Hg. unfold gate_frame. simpl. tauto.
Qed.

Lemma frame_selfplay e ci i :
  Pres frame
    (bind generateSelfPlayAgents (fun _ =>
     bind (processSelfPlayBatches (env_turns e)) (fun _ =>
     bind (agents_emit e) (fun _ =>
     bind (saveIterationSamples i) (fun _ =>
     bind (processGameResults ci) (fun _ => killSelfPlayAgents)))))).
Proof.
  repeat (apply (pres_bind _ frame_trans); [| intros _]).
  - apply frame_generateSelfPlayAgents.
  - apply frame_processSelfPlayBatches.
  - apply frame_agents_emit.
  - apply frame_saveIterationSamples.
  - apply frame_processGameResults.
  - apply frame_killSelfPlayAgents.
Qed.

(** A turn of [learn] that returns went through training, then through
    the gate when it was due, then incremented the iteration. *)
Lemma learn_body_returns e ci (w w' : World) :
  learn_body e ci w = (Ok tt, w') ->
  exists w1 w2 : World,
    trained w w1
    /\ (if past_due (args (self w)) ci
        then compareToPast (env_vs_past e) (current_iter (self w)) w1
             = (Ok tt, w2)
        else w2 = w1)
    /\ advanced w2 w'.
Proof.
  intros H. unfold learn_body in H.
  inv_bind H as i w0 Hi. inv_get Hi.
  inv_bind H as a w0 Ha. inv_get Ha.
  inv_bind H as u0 w0 Hwarm.
  assert (Hw0 : args (self w0) = args (self w)
                /\ current_iter (self w0) = current_iter (self w)
                /\ gating_counter (self w0) = gating_counter (self w)
                /\ nnet (self w0) = nnet (self w)
                /\ checkpoints (disk w0) = checkpoints (disk w)
                /\ warmup (self w0) = (ci <=? numWarmupIters (args (self w)))).
  { revert Hwarm. unfold bind, get, upd, ret.
    destruct (ci <=? numWarmupIters (args (self w)));
      [| destruct (warmup (self w)) eqn:Hwu];
      intros Hwarm; injection Hwarm as _ <-; simpl; auto 10. }
  destruct Hw0 as (Ha0 & Hi0 & Hc0 & Hn0 & Hk0 & Hwu0). clear Hwarm.
  inv_bind H as u1 w1 Hplay.
  assert (Hw1 : frame w0 w1).
  { destruct (skipSelfPlayIters (args (self w)) <? ci).
    - eapply frame_selfplay. eassumption.
    - inv_get Hplay. apply frame_refl. }
  destruct Hw1 as [(Ha1 & Hi1 & Hc1 & Hwu1) [Hn1 Hk1]]. clear Hplay.
  inv_bind H as u2 w2 Htrain. destruct u2.
  apply train_returns in Htrain as [(Ha2 & Hi2 & Hc2 & Hwu2) Hk2].
  inv_bind H as wu w3 Hwu. inv_get Hwu.
  inv_bind H as due w3 Hdue.
  assert (w3 = w2) as ->.
  { destruct (negb (warmup (self w2)) && compareWithRandom (args (self w)));
      [| inv_get Hdue; reflexivity].
    unfold divides in Hdue.
    destruct (randomCompareFreq (args (self w)) =? 0);
      [discriminate | inv_get Hdue; reflexivity]. }
  clear Hdue.
  inv_bind H as u3 w4 Hrand.
  assert (Hw4 : frame w2 w4).
  { destruct due.
    - eapply frame_compareToRandom. eassumption.
    - inv_get Hrand. apply frame_refl. }
  destruct Hw4 as [(Ha4 & Hi4 & Hc4 & Hwu4) [Hn4 Hk4]]. clear Hrand.
  inv_bind H as wu' w5 Hwu. inv_get Hwu.
  inv_bind H as due' w5 Hdue'.
  assert (Hd : w5 = w4 /\ due' = past_due (args (self w)) ci).
  { revert Hdue'. unfold past_due, divides.
    rewrite Hwu4, Hwu2, Hwu1, Hwu0, Z.leb_antisym.
    destruct (numWarmupIters (args (self w)) <? ci); simpl.
    - destruct (compareWithPast (args (self w))); simpl.
      + destruct (pastCompareFreq (args (self w)) =? 0); simpl;
          [discriminate |].
        intros Hd. inv_get Hd. auto.
      + intros Hd. inv_get Hd. auto.
    - intros Hd. inv_get Hd. auto. }
  destruct Hd as [-> ->]. clear Hdue'.
  inv_bind H as u4 w6 Hgate. destruct u4.
  exists w4, w6. split; [| split].
  - unfold trained. repeat split; try congruence.
  - destruct (past_due (args (self w)) ci);
      [exact Hgate | unfold ret in Hgate; congruence].
  - clear Hgate. revert H. unfold bind, get, upd, emit, raise, advanced.
    destruct (evw_iterations (expertValueWeight (args (self w6))) =? 0);
      [discriminate |].
    simpl. intros H. injection H as <-. simpl. auto.
Qed.

(** *** What the gate decides *)

Lemma gate_accepts_winrate (a : Args) (wr : Q) (c : Z) :
  (min_next_model_winrate a <= wr)%Q -> gate_rejects a wr c = false.
Proof.
  intros H. apply lt_spec in H. unfold gate_rejects. rewrite H.
  destruct (model_gating a); reflexivity.
Qed.

Lemma gate_accepts_falsy_bound (a : Args) (wr : Q) (c : Z) :
  Py.truthy (max_gating_iters a) = false -> gate_rejects a wr c = false.
Proof.
  intros H. unfold gate_rejects. rewrite H.
  destruct (model_gating a), (Py.lt wr (min_next_model_winrate a)); reflexivity.
Qed.

Lemma gate_accepts_beyond_bound (a : Args) (wr : Q) (c m : Z) :
  max_gating_iters a = Some m -> m < c -> gate_rejects a wr c = false.
Proof.
  intros Hm Hc. unfold gate_rejects. rewrite Hm.
  replace (c <=? m) with false by (symmetry; apply Z.leb_gt; exact Hc).
  rewrite andb_false_r. reflexivity.
Qed.

Lemma gate_rejects_within_bound (a : Args) (wr : Q) (c m : Z) :
  model_gating a = true ->
  Py.lt wr (min_next_model_winrate a) = true ->
  max_gating_iters a = Some m -> m <> 0 -> c <= m ->
  gate_rejects a wr c = true.
Proof.
  intros Hg Hlt Hm Hm0 Hc. unfold gate_rejects. rewrite Hg, Hlt, Hm. simpl.
  apply andb_true_intro. split.
  - apply negb_true_iff, Z.eqb_neq. exact Hm0.
  - apply Z.leb_le. exact Hc.
Qed.

Lemma gate_rejects_bound (a : Args) (wr : Q) (c : Z) :
  gate_rejects a wr c = true ->
  exists m, max_gating_iters a = Some m /\ m <> 0 /\ c <= m.
Proof.
  unfold gate_rejects. intros H.
  apply andb_prop in H as [H Hc]. apply andb_prop in H as [_ Ht].
  destruct (max_gating_iters a) as [m |]; [| discriminate].
  exists m. split; [reflexivity |]. split.
  - apply negb_true_iff, Z.eqb_neq in Ht. exact Ht.
  - apply Z.leb_le. exact Hc.
Qed.

(** A turn in which the gate is due and accepts. *)
Lemma learn_body_accepts e ci wr (w w' : World) :
  learn_body e ci w = (Ok tt, w') ->
  past_due (args (self w)) ci = true ->
  Py.index (arena_winrates (env_vs_past e)) 0 = Some wr ->
  gate_rejects (args (self w)) wr (gating_counter (self w)) = false ->
  gating_counter (self w') = 0
  /\ current_iter (self w') = current_iter (self w) + 1
  /\ checkpoints (disk w') =
       <[current_iter (self w) := nnet (self w')]> (checkpoints (disk w)).
Proof.
  intros H Hdue Hwr Hacc.
  apply learn_body_returns in H as (w1 & w2 & Htr & Hgate & Hadv).
  rewrite Hdue in Hgate.
  destruct Htr as (Ha1 & Hi1 & Hc1 & Hk1).
  destruct Hadv as (Hi' & Hc' & Hn' & Hd').
  apply compareToPast_returns in Hgate
    as (wr' & pw & (_ & _ & Hwr' & _) & [[_ ->] | [Hrej _]]).
  - rewrite Hi', Hc', Hn', Hd'. simpl. rewrite Hi1, Hk1. auto.
  - rewrite Hwr in Hwr'. injection Hwr' as <-.
    rewrite Ha1, Hc1 in Hrej. congruence.
Qed.

(** A turn in which the gate is due and rejects. *)
Lemma learn_body_rejects e ci wr (w w' : World) :
  learn_body e ci w = (Ok tt, w') ->
  past_due (args (self w)) ci = true ->
  Py.index (arena_winrates (env_vs_past e)) 0 = Some wr ->
  gate_rejects (args (self w)) wr (gating_counter (self w)) = true ->
  let i := current_iter (self w) in
  let past := Z.max 0 (i - pastCompareFreq (args (self w))) in
  (past <> i -> checkpoints (disk w) !! past = Some (nnet (self w')))
  /\ checkpoints (disk w') = delete i (checkpoints (disk w))
  /\ current_iter (self w') = past + 1
  /\ gating_counter (self w') = gating_counter (self w) + 1.
Proof.
  intros H Hdue Hwr Hrej i past.
  apply learn_body_returns in H as (w1 & w2 & Htr & Hgate & Hadv).
  rewrite Hdue in Hgate.
  destruct Htr as (Ha1 & Hi1 & Hc1 & Hk1).
  destruct Hadv as (Hi' & Hc' & Hn' & Hd').
  apply compareToPast_returns in Hgate
    as (wr' & pw & (Hpw & _ & Hwr' & _) & [[Hacc _] | (_ & _ & ->)]).
  - rewrite Hwr in Hwr'. injection Hwr' as <-.
    rewrite Ha1, Hc1 in Hacc. congruence.
  - rewrite Hi', Hc', Hn', Hd'. simpl. rewrite Ha1, Hc1.
    rewrite Ha1, Hk1 in Hpw. fold i in Hpw |- *. fold past in Hpw.
    repeat split.
    + intros Hne. rewrite lookup_insert_ne in Hpw by congruence. exact Hpw.
    + rewrite Hk1. fold i. apply delete_insert_eq.
Qed.

(** C5. Whenever the win rate against the past network is at least
    [min_next_model_winrate], whatever the gating counter was: the gate
    alone returns having reset the counter to 0 and left the iteration
    counter alone (neither the live network nor the files are touched),
    and over the enclosing turn of [learn] the iteration counter goes up
    by exactly one. *)
Theorem gate_accepts_sufficient_winrate (e : Env) (wr : Q) :
  (forall i pw (w : World),
      gate_reached (env_vs_past e) i wr pw w ->
      (min_next_model_winrate (args (self w)) <= wr)%Q ->
      exists w2,
        compareToPast (env_vs_past e) i w = (Ok tt, w2)
        /\ gating_counter (self w2) = 0
        /\ current_iter (self w2) = current_iter (self w)
        /\ nnet (self w2) = nnet (self w)
        /\ disk w2 = disk w)
  /\ (forall ci (w w' : World),
      learn_body e ci w = (Ok tt, w') ->
      past_due (args (self w)) ci = true ->
      Py.index (arena_winrates (env_vs_past e)) 0 = Some wr ->
      (min_next_model_winrate (args (self w)) <= wr)%Q ->
      gating_counter (self w') = 0
      /\ current_iter (self w') = current_iter (self w) + 1).
Proof.
  split.
  - intros i pw w Hreach Hle. exists (accepted i wr pw w).
    split; [| simpl; auto].
    apply compareToPast_accepts; [exact Hreach |].
    apply gate_accepts_winrate. exact Hle.
  - intros ci w w' H Hdue Hwr Hle.
    eapply learn_body_accepts in H as (H0 & H1 & _); eauto.
    apply gate_accepts_winrate. exact Hle.
Qed.

(** C2, as the code has it. With gating on, a win rate below the
    threshold and [max_gating_iters = m], the gate force-accepts once the
    counter is beyond the bound ([m < gating_counter], so 4 for a bound of
    3): over the enclosing turn of [learn] the iteration counter goes up
    by one and the counter is reset to 0, and the checkpoint just written
    stays, holding the parameters of the live network. *)
Theorem gate_forced_beyond_bound (e : Env) (ci m : Z) (w w' : World) :
  learn_body e ci w = (Ok tt, w') ->
  past_due (args (self w)) ci = true ->
  max_gating_iters (args (self w)) = Some m ->
  m < gating_counter (self w) ->
  gating_counter (self w') = 0
  /\ current_iter (self w') = current_iter (self w) + 1
  /\ checkpoints (disk w') =
       <[current_iter (self w) := nnet (self w')]> (checkpoints (disk w)).
Proof.
  intros H Hdue Hm Hc.
  pose proof H as H0.
  apply learn_body_returns in H0 as (w1 & w2 & (Ha1 & _ & Hc1 & _) & Hgate & _).
  rewrite Hdue in Hgate.
  apply compareToPast_returns in Hgate as (wr & pw & (_ & _ & Hwr & _) & _).
  eapply learn_body_accepts; eauto.
  eapply gate_accepts_beyond_bound; eauto.
Qed.

(** C4. With gating on, a win rate below the threshold (0.40 against
    0.52), a counter within the bound (0 against 3) and
    [pastCompareFreq = 1], a turn of [learn] at an iteration [i >= 1]
    ends with the parameters of checkpoint [i - 1] in the live network,
    the checkpoint of [i] gone, the iteration counter where it was and
    the gating counter one higher. *)
Theorem gate_rejects_and_rolls_back (e : Env) (ci m : Z) (wr : Q)
    (w w' : World) :
  learn_body e ci w = (Ok tt, w') ->
  past_due (args (self w)) ci = true ->
  Py.index (arena_winrates (env_vs_past e)) 0 = Some wr ->
  model_gating (args (self w)) = true ->
  Py.lt wr (min_next_model_winrate (args (self w))) = true ->
  max_gating_iters (args (self w)) = Some m -> m <> 0 ->
  gating_counter (self w) <= m ->
  pastCompareFreq (args (self w)) = 1 ->
  1 <= current_iter (self w) ->
  let i := current_iter (self w) in
  checkpoints (disk w) !! (i - 1) = Some (nnet (self w'))
  /\ checkpoints (disk w') !! (i - 1) = Some (nnet (self w'))
  /\ checkpoints (disk w') !! i = None
  /\ checkpoints (disk w') = delete i (checkpoints (disk w))
  /\ current_iter (self w') = i
  /\ gating_counter (self w') = gating_counter (self w) + 1.
Proof.
  intros H Hdue Hwr Hg Hlt Hm Hm0 Hc Hf Hi i.
  eapply learn_body_rejects in H as (Hpast & Hdel & Hcur & Hcnt); eauto;
    [| eapply gate_rejects_within_bound; eauto].
  rewrite Hf in Hpast, Hcur. fold i in Hpast, Hcur, Hdel.
  replace (Z.max 0 (i - 1)) with (i - 1) in Hpast, Hcur by (subst i; lia).
  assert (Hold : checkpoints (disk w) !! (i - 1) = Some (nnet (self w')))
    by (apply Hpast; lia).
  repeat split.
  - exact Hold.
  - rewrite Hdel, lookup_delete_ne by lia. exact Hold.
  - rewrite Hdel. apply lookup_delete_eq.
  - exact Hdel.
  - lia.
  - exact Hcnt.
Qed.

(** C10. When [max_gating_iters] is falsy (0 or [None]) the gate never
    rejects: even with gating on and a win rate below the threshold,
    [compareToPast] returns having kept the new network (the live
    parameters, the files and the iteration counter are untouched, no
    checkpoint is loaded into the live network or removed) and reset the
    counter to 0. *)
Theorem falsy_bound_disables_gating arena i wr pw (w : World) :
  gate_reached arena i wr pw w ->
  model_gating (args (self w)) = true ->
  Py.lt wr (min_next_model_winrate (args (self w))) = true ->
  Py.truthy (max_gating_iters (args (self w))) = false ->
  exists w',
    compareToPast arena i w = (Ok tt, w')
    /\ gating_counter (self w') = 0
    /\ nnet (self w') = nnet (self w)
    /\ current_iter (self w') = current_iter (self w)
    /\ disk w' = disk w
    /\ log w' = log w ++ gate_calls (args (self w)) i wr.
Proof.
  intros Hreach _ _ Hfalsy. exists (accepted i wr pw w).
  split; [| simpl; auto 6].
  apply compareToPast_accepts; [exact Hreach |].
  apply gate_accepts_falsy_bound. exact Hfalsy.
Qed.

(** C1, what the code does. With the batched arena on and arena MCTS
    off, [compareToPast] forces [arenaMCTS] to true and then raises the
    warning as an exception: the call ends there, and no game of the
    arena is played. *)
Theorem misconfigured_arena_raises arena i pw (w : World) :
  checkpoints (disk w) !! Z.max 0 (i - pastCompareFreq (args (self w)))
    = Some pw ->
  arenaBatched (args (self w)) = true ->
  arenaMCTS (args (self w)) = false ->
  exists w',
    compareToPast arena i w = (Raise UserWarning, w')
    /\ arenaMCTS (args (self w')) = true
    /\ log w' = log w ++ [LoadCheckpoint Past
                  (Z.max 0 (i - pastCompareFreq (args (self w))))]
    /\ gating_counter (self w') = gating_counter (self w).
Proof.
  intros Hpw Hb Hm. eexists. split.
  - apply compareToPast_warns; eassumption.
  - simpl. auto.
Qed.

(** *** Every outcome of the gate *)

Ltac crunch :=
  repeat (simpl;
          match goal with
          | |- context [match ?x with _ => _ end] =>
              lazymatch x with
              | context [match _ with _ => _ end] => fail
              | _ => destruct x eqn:?
              end
          end).

Ltac no_removal :=
  let j := fresh "j" in
  let H := fresh "H" in
  intros j H; simpl in H;
  repeat (destruct H as [H | H]; [discriminate |]); exact H.

(** However [compareToPast] ends, either it has removed nothing and
    loaded nothing into the live network, or its last two calls were the
    load of the past checkpoint into the live network and then the
    removal of the checkpoint of the iteration. *)
Lemma compareToPast_outcomes arena i (w w' : World) r :
  compareToPast arena i w = (r, w') ->
  let past := Z.max 0 (i - pastCompareFreq (args (self w))) in
  max_gating_iters (args (self w')) = max_gating_iters (args (self w))
  /\ ((nnet (self w') = nnet (self w)
       /\ disk w' = disk w
       /\ (gating_counter (self w') = gating_counter (self w)
           \/ gating_counter (self w') = 0)
       /\ exists l, log w' = log w ++ l
                    /\ forall j, ~ In (RemoveCheckpoint j) l)
      \/ (exists wr l,
            gate_rejects (args (self w)) wr (gating_counter (self w)) = true
            /\ checkpoints (disk w) !! past = Some (nnet (self w'))
            /\ log w' = log w ++ l
                  ++ [LoadCheckpoint Live past; RemoveCheckpoint i]
            /\ (forall j, ~ In (RemoveCheckpoint j) l)
            /\ ((checkpoints (disk w') = delete i (checkpoints (disk w))
                 /\ gating_counter (self w') = gating_counter (self w) + 1)
                \/ (checkpoints (disk w') = checkpoints (disk w)
                    /\ gating_counter (self w')
                       = gating_counter (self w))))).
Proof.
  intros H past. subst past. revert H. run_gate. crunch.
  all: intros H; injection H as <- <-; simpl; (split; [reflexivity |]).
  all: rewrite <- ?app_assoc; simpl.
  all: try (left; repeat split; auto;
            eexists; split; [reflexivity | no_removal]; fail).
  all: right; eexists;
    match goal with
    | |- context [log _ ++ [?a; ?b; ?c; _; _] = _] => exists [a; b; c]
    end.
  all: split; [eassumption |].
  all: split; [congruence |].
  all: split; [reflexivity |].
  all: split; [no_removal | auto].
Qed.

(** C9. In [compareToPast], at an iteration [i >= 1] and with a nonzero
    [pastCompareFreq], a checkpoint is removed only as the last call, it
    is the checkpoint of [i], and the call just before it loads the past
    checkpoint, of index [max(0, i - pastCompareFreq)] (so [i - 1] for a
    frequency of 1), into the live network.  That index is not [i], and
    the checkpoint the live network was loaded from is still in the store
    afterwards. *)
Theorem rollback_precedes_removal arena i (w w' : World) r :
  1 <= i ->
  pastCompareFreq (args (self w)) <> 0 ->
  compareToPast arena i w = (r, w') ->
  let past := Z.max 0 (i - pastCompareFreq (args (self w))) in
  exists new,
    log w' = log w ++ new
    /\ forall j, In (RemoveCheckpoint j) new ->
         j = i
         /\ past <> i
         /\ (pastCompareFreq (args (self w)) = 1 -> past = i - 1)
         /\ (exists l, new = l ++ [LoadCheckpoint Live past; RemoveCheckpoint i]
                       /\ forall k, ~ In (RemoveCheckpoint k) l)
         /\ checkpoints (disk w) !! past = Some (nnet (self w'))
         /\ checkpoints (disk w') !! past = Some (nnet (self w')).
Proof.
  intros Hi Hf H past.
  apply compareToPast_outcomes in H as (_ & [H | H]).
  - destruct H as (_ & _ & _ & l & Hlog & Hno).
    exists l. split; [exact Hlog |]. intros j Hj. exfalso. eapply Hno, Hj.
  - destruct H as (wr & l & _ & Hpw & Hlog & Hno & Hdisk). fold past in Hpw, Hlog.
    exists (l ++ [LoadCheckpoint Live past; RemoveCheckpoint i]).
    split; [exact Hlog |]. intros j Hj.
    assert (Hne : past <> i) by (subst past; lia).
    apply in_app_or in Hj as [Hj | Hj]; [exfalso; eapply Hno, Hj |].
    simpl in Hj. destruct Hj as [Hj | [Hj | []]]; [discriminate |].
    injection Hj as <-.
    repeat split; try assumption.
    + intros H1. subst past. lia.
    + exists l. split; [reflexivity | exact Hno].
    + destruct Hdisk as [[-> _] | [-> _]]; [| exact Hpw].
      rewrite lookup_delete_ne by congruence. exact Hpw.
Qed.

(** *** The bound on the gating counter *)

Ltac bounded_world :=
  intros; unfold keeps_bounded, gate_bounded; simpl; tauto.

Ltac pres_bounded m :=
  repeat first
    [ apply (pres_ret _ (keeps_bounded_refl m))
    | apply (pres_raise _ (keeps_bounded_refl m))
    | apply (pres_block _ (keeps_bounded_refl m))
    | apply (pres_get _ (keeps_bounded_refl m))
    | apply (pres_or_raise _ (keeps_bounded_refl m))
    | apply pres_upd; bounded_world
    | apply pres_emit; bounded_world
    | solve [ auto with pres ]
    | apply (pres_bind _ (keeps_bounded_trans m)); [ | intros ]
    | match goal with
      | |- Pres _ (if ?b then _ else _) => destruct b
      end ].

Lemma bounded_of_frame (m : Z) {A} (p : M A) :
  Pres frame p -> Pres (keeps_bounded m) p.
Proof.
  apply pres_weaken. intros w w' H.
  apply gate_frame_keeps_bounded, frame_gate_frame, H.
Qed.

Lemma gate_frame_train f i : Pres gate_frame (train f i).
Proof.
  unfold train, data_loader, load_shard, save_checkpoint. pres_gate.
Qed.

Lemma bounded_train (m : Z) f i : Pres (keeps_bounded m) (train f i).
Proof.
  eapply pres_weaken; [| apply gate_frame_train].
  intros w w'. apply gate_frame_keeps_bounded.
Qed.

Lemma bounded_compareToPast (m : Z) arena i :
  0 <= m -> Pres (keeps_bounded m) (compareToPast arena i).
Proof.
  intros Hm w r w' H [Hmax Hc].
  apply compareToPast_outcomes in H as (Hmax' & [H | H]).
  - destruct H as (_ & _ & Hg & _). split; [congruence |].
    destruct Hg as [-> | ->]; lia.
  - destruct H as (wr & l & Hrej & _ & _ & _ & Hg).
    apply gate_rejects_bound in Hrej as (m' & Hm' & _ & Hle).
    assert (m' = m) as -> by congruence.
    split; [congruence |].
    destruct Hg as [[_ ->] | [_ ->]]; lia.
Qed.

Lemma bounded_learn_body (m : Z) e ci :
  0 <= m -> Pres (keeps_bounded m) (learn_body e ci).
Proof.
  intros Hm.
  pose proof (bounded_of_frame m _ frame_generateSelfPlayAgents).
  pose proof (bounded_of_frame m _ (frame_processSelfPlayBatches (env_turns e))).
  pose proof (bounded_of_frame m _ (frame_agents_emit e)).
  pose proof (fun i => bounded_of_frame m _ (frame_saveIterationSamples i)).
  pose proof (bounded_of_frame m _ (frame_processGameResults ci)).
  pose proof (bounded_of_frame m _ frame_killSelfPlayAgents).
  pose proof (fun a b => bounded_of_frame m _ (frame_divides a b)).
  pose proof (fun a i => bounded_of_frame m _ (frame_compareToRandom a i)).
  pose proof (fun a i => bounded_compareToPast m a i Hm).
  pose proof (bounded_train m).
  unfold learn_body. pres_bounded m.
Qed.

Lemma bounded_learn_from (m : Z) envs ci :
  0 <= m -> Pres (keeps_bounded m) (learn_from envs ci).
Proof.
  intros Hm. revert ci. induction envs as [| e envs IH]; intros ci; simpl.
  - pres_bounded m.
  - pose proof (bounded_learn_body m e ci Hm). pose proof (IH (ci + 1)).
    pres_bounded m.
Qed.

(** C3. With a bound [max_gating_iters = m >= 0]: from a counter of 0,
    however far [learn] gets and however it ends, the gating counter
    stays between 0 and [m + 1]; the gate increments the counter only
    from a value that is at most [m]; and once the counter is beyond [m]
    a gate that returns has reset it to 0, whatever the win rate. *)
Theorem gating_counter_bounded (m : Z) :
  0 <= m ->
  (forall envs (w w' : World) r,
      max_gating_iters (args (self w)) = Some m ->
      gating_counter (self w) = 0 ->
      learn envs w = (r, w') ->
      0 <= gating_counter (self w') <= m + 1)
  /\ (forall arena i (w w' : World) r,
      max_gating_iters (args (self w)) = Some m ->
      compareToPast arena i w = (r, w') ->
      gating_counter (self w') = gating_counter (self w) + 1 ->
      gating_counter (self w) <= m)
  /\ (forall arena i (w w' : World),
      max_gating_iters (args (self w)) = Some m ->
      m < gating_counter (self w) ->
      compareToPast arena i w = (Ok tt, w') ->
      gating_counter (self w') = 0).
Proof.
  intros Hm. split; [| split].
  - intros envs w w' r Hmax Hc H.
    unfold learn in H. simpl in H.
    apply (bounded_learn_from m envs _ Hm) in H.
    apply H. split; [exact Hmax | lia].
  - intros arena i w w' r Hmax H Hinc.
    apply compareToPast_outcomes in H as (_ & [H | H]).
    + destruct H as (_ & _ & [Hg | Hg] & _); lia.
    + destruct H as (wr & l & Hrej & _).
      apply gate_rejects_bound in Hrej as (m' & Hm' & _ & Hle).
      assert (m' = m) as -> by congruence. exact Hle.
  - intros arena i w w' Hmax Hc H.
    apply compareToPast_returns in H as (wr & pw & _ & [[_ ->] | [Hrej _]]).
    + reflexivity.
    + rewrite (gate_accepts_beyond_bound _ wr _ m Hmax Hc) in Hrej.
      discriminate.
Qed.

(** *** The training window *)

Lemma range_In (a b k : Z) : In k (Py.range a b) <-> a <= k < b.
Proof.
  unfold Py.range. rewrite in_map_iff. split.
  - intros (n & <- & Hn). apply in_seq in Hn. lia.
  - intros Hk. exists (Z.to_nat (k - a)). split; [lia |].
    apply in_seq. lia.
Qed.

Lemma range_nil (a b : Z) : b <= a -> Py.range a b = [].
Proof.
  intros H. unfold Py.range.
  replace (Z.to_nat (b - a)) with 0%nat by lia. reflexivity.
Qed.

Lemma range_cons (a b : Z) : a < b -> Py.range a b = a :: Py.range (a + 1) b.
Proof.
  intros H. unfold Py.range.
  replace (Z.to_nat (b - a)) with (S (Z.to_nat (b - (a + 1)))) by lia.
  simpl. f_equal; [lia |].
  rewrite <- seq_shift, map_map. apply map_ext. intros n. lia.
Qed.

Lemma range_sorted (a b : Z) : StronglySorted Z.lt (Py.range a b).
Proof.
  remember (Z.to_nat (b - a)) as n eqn:Hn. revert a Hn.
  induction n as [| n IH]; intros a Hn.
  - rewrite range_nil by lia. constructor.
  - rewrite range_cons by lia. constructor.
    + apply IH. lia.
    + apply List.Forall_forall. intros k Hk. apply range_In in Hk. lia.
Qed.

Lemma load_shard_on_disk i (w : World) :
  shard_on_disk (disk w) i ->
  exists ds,
    load_shard i w
    = (Ok ds, {| self := self w; disk := disk w;
                 log := log w ++ [LoadShard i] |}).
Proof.
  intros (dt & pt & vt & Hd & Hp & Hv & Hlp & Hlv).
  unfold load_shard, bind, emit, get_disk, or_raise, ret. simpl.
  rewrite Hd, Hp, Hv. simpl. rewrite <- Hlp, <- Hlv, Nat.eqb_refl. simpl.
  eexists. reflexivity.
Qed.

Lemma load_window_on_disk (l : list Z) (w : World) :
  (forall k, In k l -> shard_on_disk (disk w) k) ->
  exists dss,
    map_each l load_shard w
    = (Ok dss, {| self := self w; disk := disk w;
                  log := log w ++ map LoadShard l |})
    /\ length dss = length l.
Proof.
  revert w. induction l as [| i l IH]; intros w Hall; simpl.
  - exists []. split; [| reflexivity]. unfold ret. rewrite app_nil_r.
    destruct w; reflexivity.
  - destruct (load_shard_on_disk i w) as [ds Hds]; [apply Hall; simpl; auto |].
    destruct (IH {| self := self w; disk := disk w;
                    log := log w ++ [LoadShard i] |}) as (dss & Hdss & Hlen).
    { intros k Hk. simpl. apply Hall. simpl. auto. }
    exists (ds :: dss). split; [| simpl; congruence].
    rewrite (bind_ok _ _ _ _ _ Hds), (bind_ok _ _ _ _ _ Hdss).
    unfold ret. simpl. rewrite <- app_assoc. reflexivity.
Qed.

Lemma shard_loads_app (l1 l2 : list event) :
  shard_loads (l1 ++ l2) = shard_loads l1 ++ shard_loads l2.
Proof. unfold shard_loads. apply flat_map_app. Qed.

Lemma shard_loads_map (l : list Z) : shard_loads (map LoadShard l) = l.
Proof. induction l as [| i l IH]; simpl; [reflexivity | f_equal; exact IH]. Qed.

(** With its window on disk, [train] reads exactly its window, whether
    or not it goes on to train. *)
Lemma train_reads_window f i (w w' : World) r :
  (forall k, In k (train_window (args (self w)) i) ->
             shard_on_disk (disk w) k) ->
  train f i w = (r, w') ->
  shard_loads (log w')
  = shard_loads (log w) ++ train_window (args (self w)) i.
Proof.
  intros Hall. destruct (load_window_on_disk _ w Hall) as (dss & Hdss & _).
  unfold train. unfold bind at 1. unfold get at 1.
  rewrite (bind_ok _ _ _ _ _ Hdss).
  unfold data_loader, save_checkpoint, bind, get, upd, upd_disk, emit, raise,
    ret.
  crunch.
  all: intros H; injection H as <- <-; simpl.
  all: rewrite ?shard_loads_app, shard_loads_map; simpl.
  all: rewrite ?app_nil_r; reflexivity.
Qed.

Lemma load_shard_rows i (w : World) :
  shard_on_disk (disk w) i ->
  load_shard i w
  = (Ok (shard_rows (disk w) i),
     {| self := self w; disk := disk w; log := log w ++ [LoadShard i] |}).
Proof.
  intros (dt & pt & vt & Hd & Hp & Hv & Hlp & Hlv).
  unfold load_shard, shard_rows, bind, emit, get_disk, or_raise, ret. simpl.
  rewrite Hd, Hp, Hv. simpl. rewrite <- Hlp, <- Hlv, Nat.eqb_refl. simpl.
  reflexivity.
Qed.

Lemma load_window_rows (l : list Z) (w : World) :
  (forall k, In k l -> shard_on_disk (disk w) k) ->
  map_each l load_shard w
  = (Ok (map (shard_rows (disk w)) l),
     {| self := self w; disk := disk w; log := log w ++ map LoadShard l |}).
Proof.
  revert w. induction l as [| i l IH]; intros w Hall; simpl.
  - unfold ret. rewrite app_nil_r. destruct w; reflexivity.
  - rewrite (bind_ok _ _ _ _ _ (load_shard_rows i w (Hall i (or_introl eq_refl)))).
    rewrite (bind_ok _ _ _ _ _
               (IH {| self := self w; disk := disk w;
                      log := log w ++ [LoadShard i] |}
                   (fun k Hk => Hall k (or_intror Hk)))).
    unfold ret. simpl. rewrite <- app_assoc. reflexivity.
Qed.

(** With its window on disk, what [train] does is settled by the rows
    of the window. *)
Lemma train_on_window f i (w w' : World) r :
  let a := args (self w) in
  let rows := concat (map (shard_rows (disk w)) (train_window a i)) in
  (forall k, In k (train_window a i) -> shard_on_disk (disk w) k) ->
  train f i w = (r, w') ->
  (r = Ok tt ->
     nnet (self w') = fst (f (nnet (self w)) rows (train_steps_per_iteration a))
     /\ checkpoints (disk w') !! i = Some (nnet (self w')))
  /\ (r = Ok tt <-> rows <> [] /\ 0 <= workers a /\ 0 < train_batch_size a).
Proof.
  intros a rows Hall H. unfold train in H.
  rewrite bind_get in H. cbv beta in H. fold a in H.
  rewrite (bind_ok _ _ _ _ _ (load_window_rows _ w Hall)) in H.
  fold rows in H.
  destruct (train_window a i) as [| k ks] eqn:Hwin.
  - simpl in H. unfold bind, raise in H. injection H as <- _.
    split; [discriminate |]. split; [discriminate |].
    intros (Hrows & _). exfalso. apply Hrows. reflexivity.
  - change (length (map (shard_rows (disk w)) (k :: ks)) =? 0)%nat
      with false in H.
    rewrite (bind_ok _ _ _ _ _ (eq_refl : ret tt _ = (Ok tt, _))) in H.
    unfold data_loader in H.
    destruct (workers a <? 0) eqn:Hw; simpl in H.
    { unfold bind, raise in H. injection H as <- _.
      apply Z.ltb_lt in Hw.
      split; [discriminate |]. split; [discriminate |].
      intros (_ & Hw' & _). exfalso. lia. }
    destruct (train_batch_size a <=? 0) eqn:Hb; simpl in H.
    { unfold bind, raise in H. injection H as <- _.
      apply Z.leb_le in Hb.
      split; [discriminate |]. split; [discriminate |].
      intros (_ & _ & Hb'). exfalso. lia. }
    apply Z.ltb_ge in Hw. apply Z.leb_gt in Hb.
    destruct rows as [| x rows'] eqn:Hrows; simpl in H.
    { unfold bind, raise in H. injection H as <- _.
      split; [discriminate |]. split; [discriminate |].
      intros (Hne & _). exfalso. apply Hne. reflexivity. }
    revert H. unfold save_checkpoint, bind, get, upd, upd_disk, emit, ret.
    simpl.
    destruct (f (nnet (self w)) (x :: rows') (train_steps_per_iteration a))
      as [wt [l_pi l_v]] eqn:Hf.
    simpl. intros H. injection H as <- <-. simpl.
    split.
    + intros _. split; [reflexivity | apply lookup_insert_eq].
    + split; [intros _ | intros _; reflexivity].
      split; [discriminate | lia].
Qed.

(** C6. [train(i)] takes as window size
    [clamp(4, (i+4)//2, numItersForTrainExamplesHistory)], that is
    [min(max(4, (i+4)//2), numItersForTrainExamplesHistory)], and, the
    shards of iterations [max(1, i - size)] to [i] being on disk, loads
    exactly those, each once and in increasing order: what it trains the
    network on is the rows of those files, shard after shard, and when it
    returns the live network and the checkpoint of [i] hold what training
    on these rows gives.  It returns exactly when there is a row to
    train on and the loader takes the batch size and the number of
    workers.  For [i = 2] and a history of 10 the size is 4 and the
    shards loaded are those of iterations 1 and 2. *)
Theorem train_window_spec f i (w w' : World) r :
  let a := args (self w) in
  let n := numItersForTrainExamplesHistory a in
  let size := currentHistorySize a i in
  let rows :=
    concat (map (shard_rows (disk w))
                (Py.range (Z.max 1 (i - size)) (i + 1))) in
  (forall k, Z.max 1 (i - size) <= k <= i -> shard_on_disk (disk w) k) ->
  train f i w = (r, w') ->
  size = clamp 4 ((i + 4) / 2) n
  /\ (exists ks,
        shard_loads (log w') = shard_loads (log w) ++ ks
        /\ (forall k, In k ks <-> Z.max 1 (i - size) <= k <= i)
        /\ StronglySorted Z.lt ks
        /\ (i = 2 -> n = 10 -> size = 4 /\ ks = [1; 2]))
  /\ (r = Ok tt ->
        nnet (self w')
        = fst (f (nnet (self w)) rows (train_steps_per_iteration a))
        /\ checkpoints (disk w') !! i = Some (nnet (self w')))
  /\ (r = Ok tt <-> rows <> [] /\ 0 <= workers a /\ 0 < train_batch_size a).
Proof.
  intros a n size rows Hall H. split; [reflexivity |].
  assert (Hin : forall k, In k (train_window a i)
                          <-> Z.max 1 (i - size) <= k <= i).
  { intros k. unfold train_window. fold size. rewrite range_In. lia. }
  assert (Hwin : forall k, In k (train_window a i) ->
                           shard_on_disk (disk w) k).
  { intros k Hk. apply Hall, Hin, Hk. }
  split.
  - exists (train_window a i).
    split; [| split; [exact Hin | split]].
    + eapply train_reads_window; [exact Hwin | exact H].
    + apply range_sorted.
    + intros -> Hn. subst size. unfold train_window, currentHistorySize.
      fold n. rewrite Hn. split; reflexivity.
  - exact (train_on_window f i w w' r Hwin H).
Qed.

(** *** Writing a shard and reading it back *)

Lemma range_0_seq (n : nat) :
  Py.range 0 (Z.of_nat n) = map Z.of_nat (seq 0 n).
Proof.
  unfold Py.range. rewrite Z.sub_0_r, Nat2Z.id. reflexivity.
Qed.

Lemma store_in_range {A} (l : list A) (k : nat) (x : A) :
  (k < length l)%nat -> Py.store l (Z.of_nat k) x = Some (<[k := x]> l).
Proof.
  intros H. unfold Py.store.
  replace (0 <=? Z.of_nat k) with true by (symmetry; apply Z.leb_le; lia).
  replace (Z.of_nat k <? Z.of_nat (length l)) with true
    by (symmetry; apply Z.ltb_lt; lia).
  rewrite Nat2Z.id. reflexivity.
Qed.

Lemma take_insert_next {A} (l : list A) (k : nat) (x : A) :
  (k < length l)%nat -> take (S k) (<[k := x]> l) = take k l ++ [x].
Proof.
  intros H. rewrite (take_S_r _ _ x) by (apply list_lookup_insert_eq; exact H).
  rewrite take_insert_ge by lia. reflexivity.
Qed.

(** The filling loop of [saveIterationSamples], from row [k] on: the
    queue is emptied, in order, into the rows from [k]. *)
Lemma fill_rows (q : list sample) :
  forall (k : nat) (dt pt vt : list tensor) (w : World),
    file_queue (self w) = q ->
    length dt = (k + length q)%nat ->
    length pt = (k + length q)%nat ->
    length vt = (k + length q)%nat ->
    fold_each (map Z.of_nat (seq k (length q))) (dt, pt, vt)
      (fun '(dt, pt, vt) i =>
         bind file_queue_get (fun item =>
         let '(data, policy, value) := item in
         bind (or_raise IndexError (Py.store dt i (from_numpy_f32 data)))
           (fun dt' =>
         bind (or_raise IndexError (Py.store pt i (torch_tensor policy)))
           (fun pt' =>
         bind (or_raise IndexError (Py.store vt i (value_cell value)))
           (fun vt' => ret (dt', pt', vt')))))) w
    = (Ok (take k dt ++ map (fun s => fst (fst (stored s))) q,
           take k pt ++ map (fun s => snd (fst (stored s))) q,
           take k vt ++ map (fun s => snd (stored s)) q),
       {| self := with_file_queue [] (self w); disk := disk w;
          log := log w |}).
Proof.
  induction q as [| [[data policy] value] q IH]; intros k dt pt vt w Hq Hd Hp Hv.
  - simpl in *. unfold ret. rewrite !app_nil_r, Nat.add_0_r in *.
    rewrite <- Hd at 1. rewrite <- Hp at 1. rewrite <- Hv at 1.
    rewrite !firstn_all.
    destruct w as [c d l]. destruct c. simpl in *. subst. reflexivity.
  - simpl in Hd, Hp, Hv. simpl length. simpl seq. simpl map.
    match goal with |- fold_each _ _ ?b _ = _ => set (body := b) end.
    assert (Hbody :
      body (dt, pt, vt) (Z.of_nat k) w
      = (Ok (<[k := from_numpy_f32 data]> dt,
             <[k := torch_tensor policy]> pt,
             <[k := value_cell value]> vt),
         {| self := with_file_queue q (self w); disk := disk w;
            log := log w |})).
    { subst body. cbv beta iota delta [bind file_queue_get get upd ret].
      rewrite Hq. cbv beta iota. rewrite !store_in_range by lia.
      reflexivity. }
    simpl fold_each. rewrite (bind_ok _ _ _ _ _ Hbody). subst body.
    rewrite IH; simpl; rewrite ?length_insert; try lia; try reflexivity.
    rewrite !take_insert_next by lia.
    rewrite <- !app_assoc. reflexivity.
Qed.

Lemma map_lookup {A B} (f : A -> B) (l : list A) (k : nat) (x : A) :
  l !! k = Some x -> map f l !! k = Some (f x).
Proof. intros H. rewrite list_lookup_fmap, H. reflexivity. Qed.

Lemma zip_stored (q : list sample) :
  zip (zip (map (fun s => fst (fst (stored s))) q)
           (map (fun s => snd (fst (stored s))) q))
      (map (fun s => snd (stored s)) q)
  = map stored q.
Proof.
  induction q as [| s q IH]; simpl; [reflexivity |].
  rewrite IH. destruct (stored s) as [[d p] v]. reflexivity.
Qed.

Lemma saveIterationSamples_writes iteration (w : World) :
  let q := file_queue (self w) in
  saveIterationSamples iteration w
  = (Ok tt,
     {| self := with_file_queue [] (self w);
        disk :=
          {| checkpoints := checkpoints (disk w);
             data_files :=
               <[iteration := map (fun s => fst (fst (stored s))) q]>
                 (data_files (disk w));
             policy_files :=
               <[iteration := map (fun s => snd (fst (stored s))) q]>
                 (policy_files (disk w));
             value_files :=
               <[iteration := map (fun s => snd (stored s)) q]>
                 (value_files (disk w)) |};
        log := log w ++ [SaveShard iteration] |}).
Proof.
  intros q. unfold saveIterationSamples.
  unfold bind at 1. unfold get at 1. fold q.
  rewrite Nat2Z.id, range_0_seq.
  rewrite (bind_ok _ _ _ _ _
             (fill_rows q 0 _ _ _ w eq_refl
                (length_replicate _ _) (length_replicate _ _)
                (length_replicate _ _))).
  reflexivity.
Qed.

(** C8. [saveIterationSamples] returns, having emptied the sample queue
    into three arrays with as many rows as there were samples queued, row
    [k] of each array coming from the [k]-th sample; and reading the
    three arrays back as [train] does gives, row for row, the triples of
    the samples in the order they were queued. *)
Theorem shard_round_trip iteration (w : World) :
  let q := file_queue (self w) in
  exists dt pt vt w' w'',
    saveIterationSamples iteration w = (Ok tt, w')
    /\ file_queue (self w') = []
    /\ data_files (disk w') !! iteration = Some dt
    /\ policy_files (disk w') !! iteration = Some pt
    /\ value_files (disk w') !! iteration = Some vt
    /\ length dt = length q /\ length pt = length q /\ length vt = length q
    /\ (forall (k : nat) data policy value,
          q !! k = Some (data, policy, value) ->
          dt !! k = Some (from_numpy_f32 data)
          /\ pt !! k = Some (torch_tensor policy)
          /\ vt !! k = Some (value_cell value))
    /\ load_shard iteration w' = (Ok (zip (zip dt pt) vt), w'')
    /\ length (zip (zip dt pt) vt) = length q
    /\ (forall (k : nat) s,
          q !! k = Some s -> zip (zip dt pt) vt !! k = Some (stored s)).
Proof.
  intros q.
  exists (map (fun s => fst (fst (stored s))) q),
         (map (fun s => snd (fst (stored s))) q),
         (map (fun s => snd (stored s)) q).
  eexists. eexists.
  split; [apply saveIterationSamples_writes |]. fold q. simpl.
  rewrite !lookup_insert_eq, !length_map, zip_stored, length_map.
  repeat split.
  - apply (map_lookup (fun s => fst (fst (stored s))) _ _ _ H).
  - apply (map_lookup (fun s => snd (fst (stored s))) _ _ _ H).
  - apply (map_lookup (fun s => snd (stored s)) _ _ _ H).
  - unfold load_shard, bind, emit, get_disk, or_raise, ret. simpl.
    rewrite !lookup_insert_eq. simpl.
    rewrite !length_map, Nat.eqb_refl, zip_stored. simpl. reflexivity.
  - intros k s Hk. apply (map_lookup stored _ _ _ Hk).
Qed.

(** *** The batching loop *)

Lemma index_nonneg {A} (l : list A) (i : Z) :
  0 <= i -> Py.index l i = l !! Z.to_nat i.
Proof.
  intros H. unfold Py.index.
  replace (0 <=? i) with true by (symmetry; apply Z.leb_le; exact H).
  reflexivity.
Qed.

Lemma store_names_slot {A} (l : list A) (i : Z) (x : A) :
  0 <= i < Z.of_nat (length l) ->
  Py.store l i x = Some (<[Z.to_nat i := x]> l).
Proof.
  intros H. rewrite <- (Z2Nat.id i) at 1 by lia.
  apply store_in_range. lia.
Qed.

Lemma answered_has_slots (n : nat) (x : notification) (c : Coach) :
  has_slots n c -> has_slots n (answered x c).
Proof.
  unfold has_slots, answered.
  destruct (nnet_process (nnet c) (worker_input x)). simpl.
  rewrite !length_insert. tauto.
Qed.

Lemma answered_args (x : notification) (c : Coach) :
  args (answered x c) = args c.
Proof.
  unfold answered. destruct (nnet_process (nnet c) (worker_input x)).
  reflexivity.
Qed.

(** One notification, served. *)
Lemma serve_notification (n : nat) (x : notification) (w : World) :
  has_slots n (self w) -> names_slot n x ->
  bind (shared_write x) (fun _ => serve (worker_id x)) w
  = (Ok tt,
     {| self := answered x (self w); disk := disk w;
        log := log w ++ [NetEval (worker_id x); BatchReady (worker_id x)] |}).
Proof.
  intros (Hi & Hp & Hv & Hr) Hx. unfold names_slot in Hx.
  unfold shared_write, serve, answered.
  cbv beta iota delta [bind get upd emit ret].
  rewrite store_names_slot by lia. cbv beta iota. simpl.
  rewrite index_nonneg by lia.
  rewrite list_lookup_insert_eq by lia. simpl.
  destruct (nnet_process (nnet (self w)) (worker_input x)) as [policy value].
  rewrite !store_names_slot by lia. simpl.
  rewrite <- app_assoc. reflexivity.
Qed.

Lemma processSelfPlayBatches_serves (n : nat) (turns : list turn) :
  forall w : World,
    has_slots n (self w) ->
    Forall (names_slot n) (served (workers (args (self w))) turns) ->
    processSelfPlayBatches turns w
    = ((if finishes (workers (args (self w))) turns then Ok tt else Blocked),
       {| self := fold_left (fun c x => answered x c)
                    (served (workers (args (self w))) turns) (self w);
          disk := disk w;
          log := log w
                 ++ service_log (served (workers (args (self w))) turns) |}).
Proof.
  induction turns as [| t turns IH]; intros w Hs Hall.
  - simpl. unfold block. rewrite app_nil_r. destruct w; reflexivity.
  - simpl in *. unfold bind at 1. unfold get at 1.
    destruct (seen_completed t =? workers (args (self w))); simpl.
    + unfold ret. rewrite app_nil_r. destruct w; reflexivity.
    + destruct (popped t) as [x |].
      * inversion Hall as [| ? ? Hx Hrest]; subst.
        rewrite (bind_ok _ _ _ _ _ (serve_notification n x w Hs Hx)).
        rewrite IH; simpl; rewrite ?answered_args;
          [| apply answered_has_slots; exact Hs | exact Hrest].
        rewrite <- app_assoc. reflexivity.
      * unfold bind at 1. unfold ret at 1. apply IH; assumption.
Qed.

Lemma net_evals_app (l1 l2 : list event) :
  net_evals (l1 ++ l2) = net_evals l1 ++ net_evals l2.
Proof. unfold net_evals. apply flat_map_app. Qed.

Lemma signals_app (l1 l2 : list event) :
  signals (l1 ++ l2) = signals l1 ++ signals l2.
Proof. unfold signals. apply flat_map_app. Qed.

Lemma net_evals_service (ns : list (@notification tensor)) :
  net_evals (service_log ns) = map worker_id ns.
Proof. induction ns as [| x ns IH]; simpl; [reflexivity | f_equal; exact IH]. Qed.

Lemma signals_service (ns : list (@notification tensor)) :
  signals (service_log ns) = map worker_id ns.
Proof. induction ns as [| x ns IH]; simpl; [reflexivity | f_equal; exact IH]. Qed.

(** C7. With [n] slots and notifications that name one of them, the
    batching loop ends as soon as a turn sees the counter of finished
    workers equal to [workers], and only then; until then it evaluates
    the network exactly once per notification popped, on the input of
    the worker notified, stores the policy and the value in the tensors
    of that same worker and sets its event; a turn whose pop times out
    evaluates nothing and goes on to the next check of the counter. *)
Theorem batching_loop_serves_each_notification (n : nat) (turns : list turn)
    (w : World) :
  let total := workers (args (self w)) in
  let ns := served total turns in
  has_slots n (self w) ->
  Forall (names_slot n) ns ->
  exists w',
    processSelfPlayBatches turns w
    = ((if finishes total turns then Ok tt else Blocked), w')
    /\ net_evals (log w') = net_evals (log w) ++ map worker_id ns
    /\ signals (log w') = signals (log w) ++ map worker_id ns
    /\ self w' = fold_left (fun c x => answered x c) ns (self w)
    /\ (forall x c, has_slots n c -> names_slot n x ->
          let id := Z.to_nat (worker_id x) in
          let out := nnet_process (nnet c) (worker_input x) in
          input_tensors (answered x c) !! id = Some (worker_input x)
          /\ policy_tensors (answered x c) !! id = Some (fst out)
          /\ value_tensors (answered x c) !! id = Some (snd out)
          /\ batch_ready (answered x c) !! id = Some true)
    /\ (forall t rest (w0 : World),
          seen_completed t <> workers (args (self w0)) ->
          popped t = None ->
          processSelfPlayBatches (t :: rest) w0
          = processSelfPlayBatches rest w0)
    /\ (forall t rest (w0 : World),
          seen_completed t = workers (args (self w0)) ->
          processSelfPlayBatches (t :: rest) w0 = (Ok tt, w0)).
Proof.
  intros total ns Hs Hall. eexists.
  split; [apply (processSelfPlayBatches_serves n); assumption |].
  fold total. fold ns. simpl.
  rewrite net_evals_app, signals_app, net_evals_service, signals_service.
  repeat split.
  - unfold answered. destruct (nnet_process (nnet c) (worker_input x)). simpl.
    destruct H as (Hi & _). unfold names_slot in H0.
    apply list_lookup_insert_eq. lia.
  - unfold answered. destruct (nnet_process (nnet c) (worker_input x)). simpl.
    destruct H as (_ & Hp & _). unfold names_slot in H0.
    apply list_lookup_insert_eq. lia.
  - unfold answered. destruct (nnet_process (nnet c) (worker_input x)). simpl.
    destruct H as (_ & _ & Hv & _). unfold names_slot in H0.
    apply list_lookup_insert_eq. lia.
  - unfold answered. destruct (nnet_process (nnet c) (worker_input x)). simpl.
    destruct H as (_ & _ & _ & Hr). unfold names_slot in H0.
    apply list_lookup_insert_eq. lia.
  - intros t rest w0 Hne Hpop. simpl. unfold bind at 1. unfold get at 1.
    apply Z.eqb_neq in Hne. rewrite Hne, Hpop. reflexivity.
  - intros t rest w0 Heq. simpl. unfold bind at 1. unfold get at 1.
    apply Z.eqb_eq in Heq. rewrite Heq. reflexivity.
Qed.

(** ** Further properties of the code *)

(** *** The constructor *)

Ltac run_init :=
  unfold init, save_checkpoint, load_checkpoint, bind, get, get_disk, upd,
    upd_disk, emit, or_raise, ret, raise;
  simpl.

(** A coach built with [load_model] starts at an iteration of at least 1,
    which is the number of checkpoints found (1 when there was none),
    with the counter at 0 and the parameters of the checkpoint before
    that iteration in the live network. *)
Theorem init_resumes_after_last_checkpoint (w w' : World) :
  init true w = (Ok tt, w') ->
  current_iter (self w') = Z.max 1 (Z.of_nat (size (checkpoints (disk w))))
  /\ startIter (args (self w')) = current_iter (self w')
  /\ gating_counter (self w') = 0
  /\ warmup (self w') = false
  /\ checkpoints (disk w') !! (current_iter (self w') - 1)
     = Some (nnet (self w'))
  /\ has_slots 0 (self w')
  /\ file_queue (self w') = [] /\ result_queue (self w') = [].
Proof.
  run_init.
  destruct (Z.of_nat (size (checkpoints (disk w))) =? 0) eqn:Hn; simpl.
  - rewrite lookup_insert_eq. simpl.
    intros H. injection H as <-. simpl.
    apply Z.eqb_eq in Hn. rewrite Hn, lookup_insert_eq.
    unfold has_slots. simpl. auto 10.
  - destruct (checkpoints (disk w) !! (Z.of_nat (size (checkpoints (disk w))) - 1))
      as [cw |] eqn:Hc; simpl; [| discriminate].
    intros H. injection H as <-. simpl.
    apply Z.eqb_neq in Hn. rewrite Hc.
    unfold has_slots. simpl. repeat split; auto. lia.
Qed.

(** With no checkpoint stored, the constructor writes checkpoint 0 from
    the network it is given and starts at iteration 1. *)
Theorem init_bootstraps_empty_store (w : World) :
  checkpoints (disk w) = ∅ ->
  exists w',
    init true w = (Ok tt, w')
    /\ checkpoints (disk w') = {[0 := nnet (self w)]}
    /\ nnet (self w') = nnet (self w)
    /\ current_iter (self w') = 1
    /\ log w' = log w ++ [SaveCheckpoint 0; LoadCheckpoint Live 0].
Proof.
  intros He. run_init. rewrite He, map_size_empty. simpl.
  rewrite lookup_insert_eq. simpl. eexists. split; [reflexivity |].
  simpl. rewrite He, <- app_assoc. auto.
Qed.

(** The iteration to resume from is the number of checkpoints, not the
    highest index: when the checkpoint numbered one less than that count
    is not there, the constructor raises on loading it, with the files
    as they were. *)
Theorem init_counts_checkpoints (w : World) :
  let n := Z.of_nat (size (checkpoints (disk w))) in
  n <> 0 ->
  checkpoints (disk w) !! (n - 1) = None ->
  exists e w', init true w = (Raise e, w')
               /\ disk w' = disk w
               /\ log w' = log w ++ [LoadCheckpoint Live (n - 1)].
Proof.
  intros n Hn Hc. run_init. fold n.
  apply Z.eqb_neq in Hn. rewrite Hn. simpl. rewrite Hc. simpl.
  do 2 eexists. repeat split; reflexivity.
Qed.

(** *** The worker pool *)

Lemma for_each_raises_first {A} (x : A) (l : list A) (body : A -> M unit)
    (e : exn) (w w1 : World) :
  body x w = (Raise e, w1) -> for_each (x :: l) body w = (Raise e, w1).
Proof. intros H. simpl. unfold bind. rewrite H. reflexivity. Qed.

Lemma index_app_last {A} (l : list A) (x : A) :
  Py.index (l ++ [x]) (Z.of_nat (length l)) = Some x.
Proof.
  rewrite index_nonneg by lia. rewrite Nat2Z.id.
  rewrite lookup_app_r by lia. rewrite Nat.sub_diag. reflexivity.
Qed.

(** On a host with a CUDA device and for a batch size that is not
    negative, worker [k] gets its slot and is started when [k] slots are
    there already. *)
Lemma start_worker_next (k : nat) (w : World) :
  cuda_available = true ->
  0 <= process_batch_size (args (self w)) ->
  length (agents (self w)) = k ->
  has_slots k (self w) ->
  start_worker (Z.of_nat k) w
  = (Ok tt,
     {| self := with_slots (agents (self w) ++ [Z.of_nat k])
                  (input_tensors (self w) ++ [zeros_input])
                  (policy_tensors (self w) ++ [zeros_policy])
                  (value_tensors (self w) ++ [zeros_value])
                  (batch_ready (self w) ++ [false]) (self w);
        disk := disk w;
        log := log w ++ [StartAgent (Z.of_nat k)] |}).
Proof.
  intros Hcuda Hsize Ha (Hi & Hp & Hv & Hr).
  assert (E0 : (process_batch_size (args (self w)) <? 0) = false)
    by (apply Z.ltb_ge; exact Hsize).
  assert (E1 : Py.index (input_tensors (self w) ++ [zeros_input])
                 (Z.of_nat k) = Some zeros_input)
    by (rewrite <- Hi; apply index_app_last).
  assert (E2 : Py.index (policy_tensors (self w) ++ [zeros_policy])
                 (Z.of_nat k) = Some zeros_policy)
    by (rewrite <- Hp; apply index_app_last).
  assert (E3 : Py.index (value_tensors (self w) ++ [zeros_value])
                 (Z.of_nat k) = Some zeros_value)
    by (rewrite <- Hv; apply index_app_last).
  assert (E4 : Py.index (batch_ready (self w) ++ [false])
                 (Z.of_nat k) = Some false)
    by (rewrite <- Hr; apply index_app_last).
  assert (E5 : Py.index (agents (self w) ++ [Z.of_nat k])
                 (Z.of_nat k) = Some (Z.of_nat k))
    by (rewrite <- Ha at 2; apply index_app_last).
  unfold start_worker, torch_zeros, pin_memory. rewrite Hcuda.
  cbv beta iota zeta delta [bind get upd emit ret].
  simpl. rewrite E0. simpl. rewrite E1. simpl. rewrite E0. simpl.
  rewrite E2. simpl. rewrite E0. simpl. rewrite E3. simpl.
  rewrite E4. simpl. rewrite E5. reflexivity.
Qed.

(** The loop of [generateSelfPlayAgents] from worker [k] on, when [k]
    slots are there already. *)
Lemma generate_loop (n : nat) :
  forall (k : nat) (w : World),
    cuda_available = true ->
    0 <= process_batch_size (args (self w)) ->
    length (agents (self w)) = k ->
    has_slots k (self w) ->
    exists w',
      for_each (map Z.of_nat (seq k n)) start_worker w = (Ok tt, w')
      /\ self w' =
           with_slots
             (agents (self w) ++ map Z.of_nat (seq k n))
             (input_tensors (self w) ++ replicate n zeros_input)
             (policy_tensors (self w) ++ replicate n zeros_policy)
             (value_tensors (self w) ++ replicate n zeros_value)
             (batch_ready (self w) ++ replicate n false) (self w)
      /\ disk w' = disk w
      /\ log w' = log w ++ map (fun i => StartAgent (Z.of_nat i)) (seq k n).
Proof.
  induction n as [| n IH]; intros k w Hcuda Hsize Ha Hs.
  - exists w. simpl. rewrite !app_nil_r. repeat split.
    destruct w as [c d l]. destruct c. reflexivity.
  - simpl seq. simpl map.
    pose proof (start_worker_next k w Hcuda Hsize Ha Hs) as Hbody.
    destruct Hs as (Hi & Hp & Hv & Hr).
    destruct (IH (S k)
                {| self := with_slots (agents (self w) ++ [Z.of_nat k])
                             (input_tensors (self w) ++ [zeros_input])
                             (policy_tensors (self w) ++ [zeros_policy])
                             (value_tensors (self w) ++ [zeros_value])
                             (batch_ready (self w) ++ [false]) (self w);
                   disk := disk w;
                   log := log w ++ [StartAgent (Z.of_nat k)] |})
      as (w' & Hrun & Hself & Hdisk & Hlog).
    { exact Hcuda. }
    { exact Hsize. }
    { simpl. rewrite length_app. simpl. lia. }
    { unfold has_slots. simpl. rewrite !length_app. simpl. lia. }
    exists w'. split; [| split; [| split]].
    + simpl for_each. rewrite (bind_ok _ _ _ _ _ Hbody). exact Hrun.
    + rewrite Hself. simpl. rewrite <- !app_assoc. reflexivity.
    + rewrite Hdisk. reflexivity.
    + rewrite Hlog. simpl. rewrite <- app_assoc. reflexivity.
Qed.

Lemma generate_from_empty (w : World) :
  cuda_available = true ->
  0 <= process_batch_size (args (self w)) ->
  agents (self w) = [] -> has_slots 0 (self w) ->
  let n := Z.to_nat (workers (args (self w))) in
  exists w',
    generateSelfPlayAgents w = (Ok tt, w')
    /\ self w' =
         with_slots (Py.range 0 (workers (args (self w))))
           (replicate n zeros_input) (replicate n zeros_policy)
           (replicate n zeros_value) (replicate n false) (self w)
    /\ disk w' = disk w
    /\ log w'
       = log w ++ map StartAgent (Py.range 0 (workers (args (self w)))).
Proof.
  intros Hcuda Hsize Ha Hs n.
  destruct (generate_loop n 0 w) as (w' & Hrun & Hself & Hdisk & Hlog);
    [exact Hcuda | exact Hsize | rewrite Ha; reflexivity | exact Hs |].
  destruct Hs as (Hi & Hp & Hv & Hr).
  apply nil_length_inv in Hi, Hp, Hv, Hr.
  rewrite Ha, Hi, Hp, Hv, Hr in Hself. simpl in Hself.
  exists w'. split.
  - unfold generateSelfPlayAgents. unfold bind at 1. unfold get at 1.
    unfold Py.range. rewrite Z.sub_0_r. fold n.
    erewrite map_ext; [exact Hrun |]. intros k. simpl. reflexivity.
  - rewrite Hself, Hdisk, Hlog.
    unfold Py.range. rewrite Z.sub_0_r. fold n. rewrite map_map.
    repeat split; reflexivity.
Qed.

(** Without a CUDA device, or for a negative batch size, the first
    worker is not started. *)
Lemma start_worker_fails (w : World) :
  cuda_available = false \/ process_batch_size (args (self w)) < 0 ->
  input_tensors (self w) = [] ->
  exists w',
    start_worker 0 w = (Raise RuntimeError, w')
    /\ agents (self w') = agents (self w)
    /\ args (self w') = args (self w)
    /\ log w' = log w
    /\ disk w' = disk w.
Proof.
  intros Hhost Hi.
  unfold start_worker, torch_zeros, pin_memory.
  cbv beta iota zeta delta [bind get upd emit ret raise].
  destruct (process_batch_size (args (self w)) <? 0) eqn:Hsize.
  - eexists. split; [reflexivity |]. auto.
  - destruct Hhost as [Hcuda | Hneg]; [| apply Z.ltb_ge in Hsize; lia].
    rewrite Hcuda, Hi. simpl. eexists. split; [reflexivity |]. auto.
Qed.

(** From an empty pool, on a host with a CUDA device and for a batch
    size that is not negative, [generateSelfPlayAgents] returns: it has
    made one slot per worker, zeroed and not signalled, and started the
    agents 0 to [workers - 1] in order, agent [i] on slot [i].  Where
    there is a worker to start but no CUDA device to pin its tensors, or
    the batch size is negative, it raises [RuntimeError] before any
    agent is started. *)
Theorem generate_makes_one_slot_per_worker (w : World) :
  agents (self w) = [] -> has_slots 0 (self w) ->
  let n := Z.to_nat (workers (args (self w))) in
  (cuda_available = true ->
   0 <= process_batch_size (args (self w)) ->
   exists w',
     generateSelfPlayAgents w = (Ok tt, w')
     /\ has_slots n (self w')
     /\ length (agents (self w')) = n
     /\ (forall i : nat, (i < n)%nat ->
           agents (self w') !! i = Some (Z.of_nat i)
           /\ input_tensors (self w') !! i = Some zeros_input
           /\ policy_tensors (self w') !! i = Some zeros_policy
           /\ value_tensors (self w') !! i = Some zeros_value
           /\ batch_ready (self w') !! i = Some false)
     /\ args (self w') = args (self w)
     /\ disk w' = disk w
     /\ log w'
        = log w ++ map StartAgent (Py.range 0 (workers (args (self w)))))
  /\ (1 <= workers (args (self w)) ->
      cuda_available = false \/ process_batch_size (args (self w)) < 0 ->
      exists w',
        generateSelfPlayAgents w = (Raise RuntimeError, w')
        /\ agents (self w') = []
        /\ args (self w') = args (self w)
        /\ log w' = log w
        /\ disk w' = disk w).
Proof.
  intros Ha Hs n. split.
  - intros Hcuda Hsize.
    destruct (generate_from_empty w Hcuda Hsize Ha Hs)
      as (w' & Hrun & Hself & Hdisk & Hlog).
    fold n in Hself.
    exists w'. split; [exact Hrun |].
    rewrite Hself, Hdisk, Hlog. unfold has_slots. simpl.
    rewrite !length_replicate.
    assert (Hlen : length (Py.range 0 (workers (args (self w)))) = n).
    { unfold Py.range. rewrite length_map, length_seq. subst n. f_equal. lia. }
    repeat split; try reflexivity; try exact Hlen.
    + unfold Py.range. rewrite Z.sub_0_r. fold n.
      rewrite list_lookup_fmap, lookup_seq_lt by exact H. reflexivity.
    + apply lookup_replicate_2. exact H.
    + apply lookup_replicate_2. exact H.
    + apply lookup_replicate_2. exact H.
    + apply lookup_replicate_2. exact H.
  - intros Hw Hhost.
    destruct Hs as (Hi & _). apply nil_length_inv in Hi.
    destruct (start_worker_fails w Hhost Hi)
      as (w' & Hrun & Hag & Hargs & Hlog & Hdisk).
    exists w'. split; [| rewrite Hag; auto].
    unfold generateSelfPlayAgents. unfold bind at 1. unfold get at 1.
    rewrite range_cons by lia.
    apply for_each_raises_first. exact Hrun.
Qed.







Lemma net_evals_started (l : list Z) : net_evals (map StartAgent l) = [].
Proof. induction l as [| i l IH]; simpl; [reflexivity | exact IH]. Qed.

(** Once the pool is started, on a host with a CUDA device, a
    notification from any of the workers 0 to [workers - 1] finds its
    slot: the batching loop that follows [generateSelfPlayAgents] never
    raises, it returns when a turn sees every worker finished and waits
    otherwise. *)
Theorem started_pool_serves_every_worker (turns : list turn) (w : World) :
  agents (self w) = [] -> has_slots 0 (self w) ->
  cuda_available = true ->
  0 <= process_batch_size (args (self w)) ->
  Forall (fun x => 0 <= worker_id x < workers (args (self w)))
         (served (workers (args (self w))) turns) ->
  exists w',
    bind generateSelfPlayAgents
         (fun _ => processSelfPlayBatches turns) w
    = ((if finishes (workers (args (self w))) turns then Ok tt else Blocked),
       w')
    /\ net_evals (log w')
       = net_evals (log w)
         ++ map worker_id (served (workers (args (self w))) turns).
Proof.
  intros Ha Hs Hcuda Hsize Hall.
  destruct (generate_from_empty w Hcuda Hsize Ha Hs)
    as (w1 & Hgen & Hs1 & Hd1 & Hl1).
  set (n := Z.to_nat (workers (args (self w)))) in *.
  assert (Hw : workers (args (self w1)) = workers (args (self w)))
    by (rewrite Hs1; reflexivity).
  eexists. split.
  - rewrite (bind_ok _ _ _ _ _ Hgen).
    rewrite (processSelfPlayBatches_serves n); rewrite ?Hw.
    + reflexivity.
    + rewrite Hs1. unfold has_slots. simpl. rewrite !length_replicate. auto.
    + eapply Forall_impl; [exact Hall |]. intros x Hx. unfold names_slot.
      simpl in Hx. subst n. lia.
  - simpl. rewrite Hl1, !net_evals_app, net_evals_service.
    rewrite net_evals_started, app_nil_r. reflexivity.
Qed.

Lemma index_out_of_range {A} (l : list A) (i : Z) :
  Z.of_nat (length l) <= i \/ i < - Z.of_nat (length l) ->
  Py.index l i = None.
Proof.
  intros H. unfold Py.index.
  destruct (0 <=? i) eqn:H0.
  - apply Z.leb_le in H0. apply lookup_ge_None. lia.
  - apply Z.leb_gt in H0.
    replace (- Z.of_nat (length l) <=? i) with false; [reflexivity |].
    symmetry. apply Z.leb_gt. lia.
Qed.

Lemma store_out_of_range {A} (l : list A) (i : Z) (x : A) :
  Z.of_nat (length l) <= i \/ i < - Z.of_nat (length l) ->
  Py.store l i x = None.
Proof.
  intros H. unfold Py.store.
  destruct (0 <=? i) eqn:H0.
  - apply Z.leb_le in H0.
    replace (i <? Z.of_nat (length l)) with false; [reflexivity |].
    symmetry. apply Z.ltb_ge. lia.
  - apply Z.leb_gt in H0.
    replace (- Z.of_nat (length l) <=? i) with false; [reflexivity |].
    symmetry. apply Z.leb_gt. lia.
Qed.

(** A notification whose id names no slot makes the batching loop raise
    [IndexError] at once: nothing is evaluated, nothing is written, and
    the turns that follow are not looked at. *)
Theorem unknown_worker_aborts_batching (t : turn) (rest : list turn)
    (x : notification) (w : World) :
  seen_completed t <> workers (args (self w)) ->
  popped t = Some x ->
  Z.of_nat (length (input_tensors (self w))) <= worker_id x
  \/ worker_id x < - Z.of_nat (length (input_tensors (self w))) ->
  processSelfPlayBatches (t :: rest) w = (Raise IndexError, w).
Proof.
  intros Hne Hpop Hid. simpl.
  unfold bind at 1. unfold get at 1.
  apply Z.eqb_neq in Hne. rewrite Hne, Hpop. simpl.
  unfold shared_write, serve.
  cbv beta iota zeta delta [bind get upd emit ret].
  rewrite store_out_of_range by exact Hid. simpl.
  rewrite index_out_of_range by exact Hid. reflexivity.
Qed.

(** *** Game results *)


(** With no game outcome queued, [processGameResults] divides by zero:
    it raises [ZeroDivisionError] without recording any scalar, whatever
    the tally it is given. *)
Theorem no_finished_game_aborts_results (iteration : Z) (w : World) :
  result_queue (self w) = [] ->
  exists w',
    processGameResults iteration w = (Raise ZeroDivisionError, w')
    /\ log w' = log w
    /\ disk w' = disk w.
Proof.
  intros Hq. unfold processGameResults.
  unfold bind at 1. unfold get at 1. rewrite Hq. simpl.
  destruct (get_game_results []) as [wins draws].
  unfold bind at 1. unfold upd at 1.
  destruct wins as [| w0 wins].
  - simpl. eexists. split; [reflexivity |]. auto.
  - simpl length. rewrite Nat2Z.inj_succ, range_cons by lia.
    eexists. split.
    + unfold bind. erewrite for_each_raises_first; [reflexivity |].
      reflexivity.
    + auto.
Qed.

(** *** Training *)

(** However loading the shards of [l] ends, the calls made are loads of
    the first shards of [l], in order. *)
Lemma load_shard_logs i (w w' : World) r :
  load_shard i w = (r, w') -> log w' = log w ++ [LoadShard i].
Proof.
  unfold load_shard, bind, emit, get_disk, or_raise, ret, raise. crunch.
  all: intros H; injection H as <- <-; reflexivity.
Qed.

Lemma load_all_logs (l : list Z) (w w' : World) r :
  map_each l load_shard w = (r, w') ->
  exists ks rest, l = ks ++ rest /\ log w' = log w ++ map LoadShard ks.
Proof.
  revert w w' r. induction l as [| i l IH]; intros w w' r H; simpl in H.
  - unfold ret in H. injection H as <- <-.
    exists [], []. split; [reflexivity | symmetry; apply app_nil_r].
  - apply bind_inv in H as [(ds & w1 & H1 & H) | [(e & H1 & ->) | (H1 & ->)]].
    + apply load_shard_logs in H1.
      assert (Hrest : exists ks rest,
                l = ks ++ rest /\ log w' = log w1 ++ map LoadShard ks).
      { apply bind_inv in H
          as [(dss & w2 & H2 & H) | [(e & H2 & ->) | (H2 & ->)]].
        - unfold ret in H. injection H as <- <-. eapply IH. exact H2.
        - eapply IH. exact H2.
        - eapply IH. exact H2. }
      destruct Hrest as (ks & rest & -> & Hlog).
      exists (i :: ks), rest. split; [reflexivity |].
      rewrite Hlog, H1, <- app_assoc. reflexivity.
    + apply load_shard_logs in H1.
      exists [i], l. split; [reflexivity | exact H1].
    + apply load_shard_logs in H1.
      exists [i], l. split; [reflexivity | exact H1].
Qed.

(** A call of [train] that does not return has stopped before the
    network was trained: all it did was load the first shards of its
    window, and the live network, the checkpoints and the iteration and
    gating counters are as before, so no checkpoint has been written and
    no loss recorded. *)
Theorem failed_training_changes_nothing f i (w w' : World) r :
  train f i w = (r, w') ->
  r <> Ok tt ->
  frame w w'
  /\ disk w' = disk w
  /\ exists ks rest,
       train_window (args (self w)) i = ks ++ rest
       /\ log w' = log w ++ map LoadShard ks.
Proof.
  intros H Hr. unfold train in H.
  rewrite bind_get in H. cbv beta in H.
  apply bind_inv in H as [(dss & w1 & H1 & H) | [(e & H1 & ->) | (H1 & ->)]].
  - pose proof (frame_load_all _ _ _ _ H1) as Hf.
    assert (Hd : disk w1 = disk w).
    { revert H1. apply (pres_map_each (fun w w' => disk w' = disk w)).
      - reflexivity.
      - intros ? ? ? E1 E2. congruence.
      - intros k. unfold load_shard.
        pres_with (fun w : World => @eq_refl _ (disk w))
                  (fun (w1 w2 w3 : World) (E1 : disk w2 = disk w1)
                       (E2 : disk w3 = disk w2) => eq_trans E2 E1). }
    pose proof (load_all_logs _ _ _ _ H1) as Hlog.
    assert (Hstop : w' = w1).
    { apply bind_inv in H as [(u & w2 & H2 & H) | [(e & H2 & ->) | (H2 & ->)]].
      - assert (w2 = w1) as ->.
        { destruct (length dss =? 0)%nat; [discriminate |].
          unfold ret in H2. injection H2 as _ <-. reflexivity. }
        apply bind_inv in H as [(u' & w3 & H3 & H) | [(e & H3 & ->) | (H3 & ->)]].
        + exfalso. apply Hr. revert H.
          unfold save_checkpoint, bind, get, upd, upd_disk, emit, ret.
          destruct (f (nnet (self w3)) (concat dss)
                      (train_steps_per_iteration (args (self w))))
            as [wt [lp lv]].
          simpl. intros H. injection H as <- _. reflexivity.
        + unfold data_loader in H3.
          destruct ((workers (args (self w)) <? 0)
                    || (train_batch_size (args (self w)) <=? 0)
                    || (length (concat dss) =? 0)%nat);
            [| discriminate].
          unfold raise in H3. injection H3 as _ <-. reflexivity.
        + unfold data_loader in H3.
          destruct ((workers (args (self w)) <? 0)
                    || (train_batch_size (args (self w)) <=? 0)
                    || (length (concat dss) =? 0)%nat); discriminate.
      - destruct (length dss =? 0)%nat; [| discriminate].
        unfold raise in H2. injection H2 as _ <-. reflexivity.
      - destruct (length dss =? 0)%nat; discriminate. }
    subst w'. auto.
  - split; [eapply frame_load_all; exact H1 |]. split.
    + revert H1. apply (pres_map_each (fun w w' => disk w' = disk w)).
      * reflexivity.
      * intros ? ? ? E1 E2. congruence.
      * intros k. unfold load_shard.
        pres_with (fun w : World => @eq_refl _ (disk w))
                  (fun (w1 w2 w3 : World) (E1 : disk w2 = disk w1)
                       (E2 : disk w3 = disk w2) => eq_trans E2 E1).
    + eapply load_all_logs. exact H1.
  - split; [eapply frame_load_all; exact H1 |]. split.
    + revert H1. apply (pres_map_each (fun w w' => disk w' = disk w)).
      * reflexivity.
      * intros ? ? ? E1 E2. congruence.
      * intros k. unfold load_shard.
        pres_with (fun w : World => @eq_refl _ (disk w))
                  (fun (w1 w2 w3 : World) (E1 : disk w2 = disk w1)
                       (E2 : disk w3 = disk w2) => eq_trans E2 E1).
    + eapply load_all_logs. exact H1.
Qed.

(** An iteration below 1, or a negative [numItersForTrainExamplesHistory],
    leaves [train] an empty window: it raises [AssertionError] without
    reading a shard or touching anything. *)
Theorem empty_window_aborts_training f i (w : World) :
  i < 1 \/ numItersForTrainExamplesHistory (args (self w)) < 0 ->
  train f i w = (Raise AssertionError, w).
Proof.
  intros H. unfold train. unfold bind at 1. unfold get at 1.
  unfold train_window, currentHistorySize. rewrite range_nil by lia.
  reflexivity.
Qed.


(** *** The arena comparisons *)

(** The comparison with the random player is never batched and never
    forces a setting: for any configuration it plays its
    [arenaCompareRandom] games, the new network on MCTS or alone as
    [arenaMCTS] says, and it returns exactly when the arena reports a
    first player; networks, files, iteration and gating counter are the
    same whatever the outcome. *)
Theorem random_comparison_only_observes arena i (w w' : World) r :
  compareToRandom arena i w = (r, w') ->
  self w' = self w
  /\ disk w' = disk w
  /\ (exists after,
        log w' = log w
          ++ PlayGames (line_up ((if arenaMCTS (args (self w))
                                  then MCTSPlayer else NNPlayer) Live)
                          RandomPlayer)
               false (arenaCompareRandom (args (self w))) :: after)
  /\ (r = Ok tt <-> arena_winrates arena <> [] /\ arena_wins arena <> [])
  /\ (r <> Ok tt -> r = Raise IndexError).
Proof.
  unfold compareToRandom, play_games, bind, get, emit, or_raise, ret, raise.
  simpl. rewrite !index_0.
  destruct (arena_winrates arena) as [| wr wrs],
           (arena_wins arena) as [| x xs]; simpl.
  all: intros H; injection H as <- <-; simpl.
  all: rewrite <- ?app_assoc; simpl.
  all: repeat split; eauto; try congruence.
  all: try (intros [? ?]; congruence).
  all: try (destruct w as [c d l]; reflexivity).
Qed.

(** Without the checkpoint to compare with, [compareToPast] raises
    before any game is played, also when the arena is misconfigured:
    nothing but the log of the attempted load changes. *)
Theorem missing_past_checkpoint_aborts arena i (w : World) :
  let past := Z.max 0 (i - pastCompareFreq (args (self w))) in
  checkpoints (disk w) !! past = None ->
  exists e,
    compareToPast arena i w
    = (Raise e,
       {| self := self w; disk := disk w;
          log := log w ++ [LoadCheckpoint Past past] |}).
Proof.
  intros past Hnone. run_gate. fold past. rewrite Hnone.
  eexists. reflexivity.
Qed.

(** When the gate rejects but the checkpoint of the iteration is not on
    disk, [compareToPast] raises [FileNotFoundError] half way: the live
    network has already been rolled back to the past checkpoint, while
    the iteration counter and the gating counter are still as before. *)
Theorem rejection_without_checkpoint_stops_half_way arena i wr pw
    (w : World) :
  gate_reached arena i wr pw w ->
  gate_rejects (args (self w)) wr (gating_counter (self w)) = true ->
  checkpoints (disk w) !! i = None ->
  exists w',
    compareToPast arena i w = (Raise FileNotFoundError, w')
    /\ nnet (self w') = pw
    /\ current_iter (self w') = current_iter (self w)
    /\ gating_counter (self w') = gating_counter (self w)
    /\ disk w' = disk w.
Proof.
  intros (Hpw & Hcfg & Hwr & Hwins) Hgate Hnone.
  run_gate. rewrite Hpw. simpl.
  destruct (arenaBatched (args (self w))) eqn:Hb; simpl.
  - rewrite (Hcfg eq_refl). simpl. rewrite Hb, Hwr. simpl.
    rewrite index_0. destruct (arena_wins arena); [congruence |]. simpl.
    rewrite Hgate. simpl. rewrite Hpw. simpl. rewrite Hnone. simpl.
    eexists. split; [reflexivity |]. simpl. auto.
  - rewrite Hb, Hwr. simpl.
    rewrite index_0. destruct (arena_wins arena); [congruence |]. simpl.
    rewrite Hgate. simpl. rewrite Hpw. simpl. rewrite Hnone. simpl.
    eexists. split; [reflexivity |]. simpl. auto.
Qed.

(** With [model_gating] off the comparison is only a measurement: a
    returning [compareToPast] keeps the new network whatever the win
    rate, the bound and the counter, and resets the counter. *)
Theorem gating_off_only_measures arena i (w w' : World) :
  model_gating (args (self w)) = false ->
  compareToPast arena i w = (Ok tt, w') ->
  gating_counter (self w') = 0
  /\ nnet (self w') = nnet (self w)
  /\ current_iter (self w') = current_iter (self w)
  /\ disk w' = disk w.
Proof.
  intros Hoff H.
  apply compareToPast_returns in H as (wr & pw & _ & [[_ ->] | [Hrej _]]).
  - simpl. auto.
  - unfold gate_rejects in Hrej. rewrite Hoff in Hrej. discriminate.
Qed.

(** After a returning [compareToPast] the comparison network holds the
    past checkpoint, of index [max(0, i - pastCompareFreq)], and the live
    network holds either what it held or that same checkpoint. *)
Theorem comparison_network_holds_past arena i (w w' : World) :
  compareToPast arena i w = (Ok tt, w') ->
  let past := Z.max 0 (i - pastCompareFreq (args (self w))) in
  0 <= past
  /\ checkpoints (disk w) !! past = Some (pnet (self w'))
  /\ (nnet (self w') = nnet (self w) \/ nnet (self w') = pnet (self w')).
Proof.
  intros H past.
  apply compareToPast_returns in H
    as (wr & pw & (Hpw & _) & [[_ ->] | (_ & _ & ->)]); simpl.
  - split; [subst past; lia |]. auto.
  - split; [subst past; lia |]. auto.
Qed.

(** *** Turns of the outer loop *)

(** A turn in which the comparison with the past network does not take
    place (warmup, comparison disabled, or a turn off the comparison
    frequency) and that returns has trained and kept the iteration: its
    checkpoint holds the live parameters, the iteration counter is one
    higher and the gating counter is untouched. *)
Theorem turn_without_comparison_advances e ci (w w' : World) :
  learn_body e ci w = (Ok tt, w') ->
  past_due (args (self w)) ci = false ->
  current_iter (self w') = current_iter (self w) + 1
  /\ gating_counter (self w') = gating_counter (self w)
  /\ checkpoints (disk w')
     = <[current_iter (self w) := nnet (self w')]> (checkpoints (disk w)).
Proof.
  intros H Hdue.
  apply learn_body_returns in H as (w1 & w2 & Htr & Hgate & Hadv).
  rewrite Hdue in Hgate. subst w2.
  destruct Htr as (_ & Hi1 & Hc1 & Hk1).
  destruct Hadv as (Hi' & Hc' & Hn' & Hd').
  rewrite Hi', Hc', Hn', Hd', Hi1, Hc1, Hk1. auto.
Qed.

(** With a comparison every [f] iterations, a rejection at iteration
    [i >= f] sends the loop back to iteration [i - f + 1] with the
    parameters of checkpoint [i - f] in the live network: only the
    checkpoint of [i] is removed, those in between stay on disk. *)
Theorem rejection_rewinds_by_frequency e ci wr (w w' : World) :
  learn_body e ci w = (Ok tt, w') ->
  past_due (args (self w)) ci = true ->
  Py.index (arena_winrates (env_vs_past e)) 0 = Some wr ->
  gate_rejects (args (self w)) wr (gating_counter (self w)) = true ->
  let i := current_iter (self w) in
  let f := pastCompareFreq (args (self w)) in
  1 <= f <= i ->
  current_iter (self w') = i - f + 1
  /\ checkpoints (disk w) !! (i - f) = Some (nnet (self w'))
  /\ gating_counter (self w') = gating_counter (self w) + 1
  /\ (forall k, k <> i ->
        checkpoints (disk w') !! k = checkpoints (disk w) !! k)
  /\ checkpoints (disk w') !! i = None.
Proof.
  intros H Hdue Hwr Hrej i f Hf.
  eapply learn_body_rejects in H as (Hpast & Hdel & Hcur & Hcnt); eauto.
  fold i f in Hpast, Hdel, Hcur.
  replace (Z.max 0 (i - f)) with (i - f) in Hpast, Hcur by lia.
  repeat split.
  - exact Hcur.
  - apply Hpast. lia.
  - exact Hcnt.
  - intros k Hk. rewrite Hdel. apply lookup_delete_ne. congruence.
  - rewrite Hdel. apply lookup_delete_eq.
Qed.

(** With a comparison at every iteration the loop cannot stall: over any
    turn that returns, the pair of iteration counter and gating counter
    grows in the order given by
    [current_iter * (max_gating_iters + 2) + gating_counter], and the
    counter stays within its bound. *)
Theorem every_turn_makes_progress e ci (m : Z) (w w' : World) :
  learn_body e ci w = (Ok tt, w') ->
  pastCompareFreq (args (self w)) = 1 ->
  max_gating_iters (args (self w)) = Some m ->
  1 <= current_iter (self w) ->
  0 <= gating_counter (self w) <= m + 1 ->
  current_iter (self w) * (m + 2) + gating_counter (self w)
  < current_iter (self w') * (m + 2) + gating_counter (self w')
  /\ 0 <= gating_counter (self w') <= m + 1
  /\ current_iter (self w) <= current_iter (self w').
Proof.
  intros H Hf Hm Hi Hc.
  destruct (past_due (args (self w)) ci) eqn:Hdue.
  - pose proof H as H0.
    apply learn_body_returns in H0
      as (w1 & w2 & (Ha1 & _ & Hc1 & _) & Hgate & _).
    rewrite Hdue in Hgate.
    apply compareToPast_returns in Hgate
      as (wr & pw & (_ & _ & Hwr & _) & Hcase).
    rewrite Ha1, Hc1 in Hcase.
    destruct Hcase as [[Hacc _] | [Hrej _]].
    + eapply learn_body_accepts in H as (Hc' & Hi' & _); eauto.
      rewrite Hc', Hi'. lia.
    + pose proof (gate_rejects_bound _ _ _ Hrej) as (m' & Hm' & _ & Hle).
      assert (m' = m) as -> by congruence.
      eapply learn_body_rejects in H as (_ & _ & Hi' & Hc'); eauto.
      rewrite Hf in Hi'.
      replace (Z.max 0 (current_iter (self w) - 1))
        with (current_iter (self w) - 1) in Hi' by lia.
      rewrite Hc', Hi'. lia.
  - apply learn_body_returns in H as (w1 & w2 & Htr & Hgate & Hadv).
    rewrite Hdue in Hgate. subst w2.
    destruct Htr as (_ & Hi1 & Hc1 & _).
    destruct Hadv as (Hi' & Hc' & _).
    rewrite Hc', Hi', Hi1, Hc1. lia.
Qed.

Lemma learn_from_returns_beyond (envs : list Env) :
  forall ci (w w' : World),
    learn_from envs ci w = (Ok tt, w') ->
    numIters (args (self w')) < current_iter (self w').
Proof.
  induction envs as [| e envs IH]; intros ci w w' H; simpl in H.
  - unfold bind, get in H.
    destruct (current_iter (self w) <=? numIters (args (self w))) eqn:Hle.
    + discriminate.
    + unfold ret in H. injection H as <-. apply Z.leb_gt. exact Hle.
  - unfold bind at 1 2 in H. unfold get at 1 2 in H.
    destruct (current_iter (self w) <=? numIters (args (self w))) eqn:Hle.
    + apply bind_ok_inv in H as (u & w1 & _ & H). eapply IH. exact H.
    + unfold ret in H. injection H as <-. apply Z.leb_gt. exact Hle.
Qed.

(** [learn] returns only once the iteration counter is beyond [numIters]
    (until then it runs another turn), and when the counter is beyond
    [numIters] from the start it returns at once, having done nothing. *)
Theorem learn_runs_until_numIters (envs : list Env) (w : World) :
  (forall w', learn envs w = (Ok tt, w') ->
              numIters (args (self w')) < current_iter (self w'))
  /\ (numIters (args (self w)) < current_iter (self w) ->
      learn envs w = (Ok tt, w)).
Proof.
  split.
  - intros w' H. unfold learn in H. unfold bind at 1 in H.
    unfold get at 1 in H. eapply learn_from_returns_beyond. exact H.
  - intros Hgt. unfold learn. unfold bind at 1. unfold get at 1.
    apply Z.leb_gt in Hgt.
    destruct envs; simpl; unfold bind, get; rewrite Hgt; reflexivity.
Qed.

(** *** Shards on disk *)

(** Saving the samples of an iteration replaces the shard of that
    iteration, if there was one, and leaves the shards of the other
    iterations and every checkpoint as they were. *)
Theorem saving_a_shard_touches_one_iteration iteration (w : World) :
  exists w',
    saveIterationSamples iteration w = (Ok tt, w')
    /\ checkpoints (disk w') = checkpoints (disk w)
    /\ (forall k, k <> iteration ->
          data_files (disk w') !! k = data_files (disk w) !! k
          /\ policy_files (disk w') !! k = policy_files (disk w) !! k
          /\ value_files (disk w') !! k = value_files (disk w) !! k)
    /\ (forall old, data_files (disk w) !! iteration = Some old ->
          data_files (disk w') !! iteration
          = Some (map (fun s => fst (fst (stored s))) (file_queue (self w))))
    /\ shard_on_disk (disk w') iteration.
Proof.
  eexists. split; [apply saveIterationSamples_writes |]. simpl.
  split; [reflexivity |]. split; [| split].
  - intros k Hk. rewrite !lookup_insert_ne by congruence. auto.
  - intros old _. apply lookup_insert_eq.
  - unfold shard_on_disk. simpl. do 3 eexists.
    rewrite !lookup_insert_eq. repeat split; rewrite !length_map; reflexivity.
Qed.

(** *** The arguments *)

Lemma setattrs_other {value} (kwargs : list (string * value)) :
  forall (obj : gmap string value) (k : string),
    ~ In k (map fst kwargs) ->
    foldl (fun obj kv => <[fst kv := snd kv]> obj) obj kwargs !! k = obj !! k.
Proof.
  induction kwargs as [| [k' v'] kwargs IH]; intros obj k Hk; simpl.
  - reflexivity.
  - rewrite IH by (intros Hin; apply Hk; simpl; auto).
    apply lookup_insert_ne. intros ->. apply Hk. simpl. auto.
Qed.

Lemma setattrs_given {value} (kwargs : list (string * value)) :
  forall (obj : gmap string value) (k : string) (v : value),
    NoDup (map fst kwargs) -> In (k, v) kwargs ->
    foldl (fun obj kv => <[fst kv := snd kv]> obj) obj kwargs !! k = Some v.
Proof.
  induction kwargs as [| [k' v'] kwargs IH]; intros obj k v Hnd Hin; simpl.
  - destruct Hin.
  - simpl in Hnd. apply NoDup_cons in Hnd as [Hk' Hnd].
    destruct Hin as [Heq | Hin].
    + injection Heq as -> ->.
      rewrite setattrs_other by (rewrite <- list_elem_of_In; exact Hk').
      apply lookup_insert_eq.
    + apply IH; assumption.
Qed.

(** A keyword given to [get_args] is set on [DEFAULT_ARGS] itself: the
    object returned has it, [DEFAULT_ARGS] has it afterwards, and so has
    the object a later call returns when that call does not give the
    keyword again.  Attributes that are not given keep what
    [DEFAULT_ARGS] held. *)
Theorem get_args_overrides_persist {value} (kwargs : list (string * value))
    (defaults : gmap string value) (k : string) (v : value) :
  NoDup (map fst kwargs) -> In (k, v) kwargs ->
  fst (get_args kwargs defaults) !! k = Some v
  /\ snd (get_args kwargs defaults) !! k = Some v
  /\ (forall later,
        ~ In k (map fst later) ->
        fst (get_args later (snd (get_args kwargs defaults))) !! k = Some v)
  /\ (forall k', ~ In k' (map fst kwargs) ->
        fst (get_args kwargs defaults) !! k' = defaults !! k').
Proof.
  intros Hnd Hin. unfold get_args. simpl.
  pose proof (setattrs_given kwargs defaults k v Hnd Hin) as Hset.
  repeat split; try exact Hset.
  - intros later Hk. rewrite setattrs_other by exact Hk. exact Hset.
  - intros k' Hk'. apply setattrs_other. exact Hk'.
Qed.

(** *** Turns that skip self-play *)

Lemma no_selfplay_refl (w : World) : no_selfplay w w.
Proof. exists []. split; [symmetry; apply app_nil_r | reflexivity]. Qed.

Lemma no_selfplay_trans (w1 w2 w3 : World) :
  no_selfplay w1 w2 -> no_selfplay w2 w3 -> no_selfplay w1 w3.
Proof.
  intros (l1 & H1 & F1) (l2 & H2 & F2). exists (l1 ++ l2). split.
  - rewrite H2, H1. symmetry. apply app_assoc.
  - rewrite forallb_app, F1, F2. reflexivity.
Qed.

Ltac quiet_world :=
  intros; first
    [ exists []; split; [simpl; symmetry; apply app_nil_r | reflexivity]
    | eexists [_]; split; reflexivity ].

Ltac pres_quiet :=
  repeat first
    [ apply (pres_ret _ no_selfplay_refl)
    | apply (pres_raise _ no_selfplay_refl)
    | apply (pres_block _ no_selfplay_refl)
    | apply (pres_get _ no_selfplay_refl)
    | apply (pres_get_disk _ no_selfplay_refl)
    | apply (pres_or_raise _ no_selfplay_refl)
    | apply pres_upd; quiet_world
    | apply pres_upd_disk; quiet_world
    | apply pres_emit; quiet_world
    | solve [ auto with pres ]
    | apply (pres_bind _ no_selfplay_trans); [ | intros ]
    | apply (pres_map_each _ no_selfplay_refl no_selfplay_trans); intros
    | match goal with
      | |- Pres _ (if ?b then _ else _) => destruct b
      | |- Pres _ (match ?x with _ => _ end) => destruct x
      end ].

Lemma quiet_train f i : Pres no_selfplay (train f i).
Proof.
  unfold train, data_loader, load_shard, save_checkpoint. pres_quiet.
Qed.

Lemma quiet_compareToRandom arena i :
  Pres no_selfplay (compareToRandom arena i).
Proof. unfold compareToRandom, play_games. pres_quiet. Qed.

Lemma quiet_compareToPast arena i : Pres no_selfplay (compareToPast arena i).
Proof.
  unfold compareToPast, load_checkpoint, os_remove, play_games. pres_quiet.
Qed.

(** In a turn whose [const_i] is not beyond [skipSelfPlayIters], however
    the turn ends, no agent is started or joined, no batch is evaluated
    and no shard is written: [learn] only trains on the shards that are
    on disk and compares. *)
Theorem skipped_selfplay_starts_nothing e ci (w w' : World) r :
  learn_body e ci w = (r, w') ->
  ci <= skipSelfPlayIters (args (self w)) ->
  exists l,
    log w' = log w ++ l
    /\ forall ev, In ev l -> is_selfplay ev = false.
Proof.
  intros H Hskip.
  assert (Hq : no_selfplay w w').
  { unfold learn_body in H. rewrite !bind_get in H. cbv beta in H.
    apply Z.ltb_ge in Hskip.
    remember (args (self w)) as a eqn:Ea.
    remember (current_iter (self w)) as i eqn:Ei.
    rewrite Hskip in H. clear Ea Ei Hskip.
    pose proof (quiet_train (env_train e) i).
    pose proof (quiet_compareToRandom (env_vs_random e) i).
    pose proof (quiet_compareToPast (env_vs_past e) i).
    revert H.
    match goal with
    | |- ?p w = _ -> _ => assert (Hp : Pres no_selfplay p)
    end.
    { unfold divides. pres_quiet. }
    apply Hp. }
  destruct Hq as (l & Hl & Hf). exists l. split; [exact Hl |].
  intros ev Hev. rewrite forallb_forall in Hf.
  apply Hf in Hev. apply negb_true_iff in Hev. exact Hev.
Qed.

(** *** Divisions by a setting *)

(** The frequencies are divisors: past the warmup, a comparison that is
    switched on with a frequency of 0 makes the turn raise instead of
    skipping the comparison.  The turn never returns, and it ends with
    the iteration counter and the gating counter where they were. *)
Theorem zero_frequency_stops_the_turn e ci (w w' : World) r :
  learn_body e ci w = (r, w') ->
  numWarmupIters (args (self w)) < ci ->
  (compareWithRandom (args (self w)) = true
   /\ randomCompareFreq (args (self w)) = 0)
  \/ (compareWithPast (args (self w)) = true
      /\ pastCompareFreq (args (self w)) = 0) ->
  r <> Ok tt
  /\ current_iter (self w') = current_iter (self w)
  /\ gating_counter (self w') = gating_counter (self w).
Proof.
  intros H Hci Hz. unfold learn_body in H.
  rewrite !bind_get in H. cbv beta in H.
  apply Z.leb_gt in Hci. rewrite Hci in H.
  assert (Hwarm : exists w0 : World,
            bind (get warmup) (fun wu : bool =>
              if wu then upd (with_warmup false) else ret tt) w = (Ok tt, w0)
            /\ current_iter (self w0) = current_iter (self w)
            /\ gating_counter (self w0) = gating_counter (self w)
            /\ warmup (self w0) = false).
  { unfold bind, get, upd, ret.
    destruct (warmup (self w)) eqn:Hwu; eexists; (split; [reflexivity |]);
      simpl; auto. }
  destruct Hwarm as (w0 & Hrun & Hi0 & Hc0 & Hwu0).
  rewrite (bind_ok _ _ _ _ _ Hrun) in H. clear Hrun.
  assert (Hplay : forall (r1 : result unit) (wx : World),
            (if skipSelfPlayIters (args (self w)) <? ci
             then
               bind generateSelfPlayAgents (fun _ =>
               bind (processSelfPlayBatches (env_turns e)) (fun _ =>
               bind (agents_emit e) (fun _ =>
               bind (saveIterationSamples (current_iter (self w))) (fun _ =>
               bind (processGameResults ci) (fun _ => killSelfPlayAgents)))))
             else ret tt) w0 = (r1, wx) -> frame w0 wx).
  { intros r1 wx Hp. destruct (skipSelfPlayIters (args (self w)) <? ci).
    - eapply frame_selfplay. exact Hp.
    - unfold ret in Hp. injection Hp as _ <-. apply frame_refl. }
  apply bind_inv in H as [(u1 & w1 & H1 & H) | [(ex & H1 & ->) | (H1 & ->)]];
    apply Hplay in H1 as [(Ha1 & Hi1 & Hc1 & Hwu1) _];
    [| split; [discriminate | split; congruence] ..].
  apply bind_inv in H as [(u2 & w2 & H2 & H) | [(ex & H2 & ->) | (H2 & ->)]];
    apply gate_frame_train in H2 as (Ha2 & Hi2 & Hc2 & Hwu2);
    [| split; [discriminate | split; congruence] ..].
  rewrite bind_get in H. cbv beta in H.
  assert (Hcold : warmup (self w2) = false) by congruence.
  rewrite Hcold in H. simpl negb in H. rewrite andb_true_l in H.
  destruct Hz as [[Hon Hzero] | [Hon Hzero]].
  - rewrite Hon, Hzero in H. unfold divides in H. simpl in H.
    unfold bind, raise in H. injection H as <- <-.
    split; [discriminate | split; congruence].
  - apply bind_inv in H as [(due & w3 & H3 & H) | [(ex & H3 & ->) | (H3 & ->)]].
    2,3: assert (Hf : frame w2 w')
      by (destruct (compareWithRandom (args (self w)));
          [eapply frame_divides; exact H3
          | unfold ret in H3; discriminate]);
      destruct Hf as [(_ & Hi3 & Hc3 & _) _];
      split; [discriminate | split; congruence].
    assert (Hf3 : frame w2 w3).
    { destruct (compareWithRandom (args (self w))).
      - eapply frame_divides. exact H3.
      - unfold ret in H3. injection H3 as _ <-. apply frame_refl. }
    destruct Hf3 as [(_ & Hi3 & Hc3 & Hwu3) _]. clear H3.
    assert (Hrand : forall (r1 : result unit) (wx : World),
              (if due
               then compareToRandom (env_vs_random e) (current_iter (self w))
               else ret tt) w3 = (r1, wx) -> frame w3 wx).
    { intros r1 wx Hp. destruct due.
      - eapply frame_compareToRandom. exact Hp.
      - unfold ret in Hp. injection Hp as _ <-. apply frame_refl. }
    apply bind_inv in H as [(u4 & w4 & H4 & H) | [(ex & H4 & ->) | (H4 & ->)]];
      apply Hrand in H4 as [(_ & Hi4 & Hc4 & Hwu4) _];
      [| split; [discriminate | split; congruence] ..].
    rewrite bind_get in H. cbv beta in H.
    assert (Hcold4 : warmup (self w4) = false) by congruence.
    rewrite Hcold4, Hon, Hzero in H. unfold divides in H. simpl in H.
    unfold bind, raise in H. injection H as <- <-.
    split; [discriminate | split; congruence].
Qed.

(** At the end of every turn [learn] divides by
    [expertValueWeight.iterations]: when that is 0 no turn returns,
    whatever the rest of the configuration and whatever the
    collaborators do. *)
Theorem zero_expert_iterations_stops_the_turn e ci (w w' : World) r :
  evw_iterations (expertValueWeight (args (self w))) = 0 ->
  learn_body e ci w = (r, w') ->
  r <> Ok tt.
Proof.
  intros Hz H ->. unfold learn_body in H.
  inv_bind H as i w0 Hi. inv_get Hi.
  inv_bind H as a w0 Ha. inv_get Ha.
  inv_bind H as u0 w0 Hwarm.
  assert (Ha0 : args (self w0) = args (self w)).
  { revert Hwarm. unfold bind, get, upd, ret.
    destruct (ci <=? numWarmupIters (args (self w)));
      [| destruct (warmup (self w))];
      intros Hwarm; injection Hwarm as _ <-; reflexivity. }
  clear Hwarm.
  inv_bind H as u1 w1 Hplay.
  assert (Hw1 : frame w0 w1).
  { destruct (skipSelfPlayIters (args (self w)) <? ci).
    - eapply frame_selfplay. eassumption.
    - inv_get Hplay. apply frame_refl. }
  destruct Hw1 as [(Ha1 & _) _]. clear Hplay.
  inv_bind H as u2 w2 Htrain.
  apply gate_frame_train in Htrain as (Ha2 & _).
  inv_bind H as wu w3 Hwu. inv_get Hwu.
  inv_bind H as due w3 Hdue.
  assert (Hf3 : frame w2 w3).
  { destruct (negb (warmup (self w2)) && compareWithRandom (args (self w))).
    - eapply frame_divides. exact Hdue.
    - inv_get Hdue. apply frame_refl. }
  destruct Hf3 as [(Ha3 & _) _]. clear Hdue.
  inv_bind H as u3 w4 Hrand.
  assert (Hw4 : frame w3 w4).
  { destruct due.
    - eapply frame_compareToRandom. eassumption.
    - inv_get Hrand. apply frame_refl. }
  destruct Hw4 as [(Ha4 & _) _]. clear Hrand.
  inv_bind H as wu' w5 Hwu. inv_get Hwu.
  inv_bind H as due' w5 Hdue'.
  assert (Hf5 : frame w4 w5).
  { destruct (negb (warmup (self w4)) && compareWithPast (args (self w))).
    - eapply frame_divides. exact Hdue'.
    - inv_get Hdue'. apply frame_refl. }
  destruct Hf5 as [(Ha5 & _) _]. clear Hdue'.
  inv_bind H as u4 w6 Hgate. destruct u4.
  assert (Ha6 : args (self w6) = args (self w5)).
  { destruct due'.
    - apply compareToPast_returns in Hgate
        as (wr & pw & _ & [[_ ->] | (_ & _ & ->)]); reflexivity.
    - unfold ret in Hgate. injection Hgate as <-. reflexivity. }
  clear Hgate. revert H. unfold bind, get, upd, emit, raise.
  replace (args (self w6)) with (args (self w)) by congruence.
  rewrite Hz. simpl. discriminate.
Qed.

End CoachProofs.

(** ** The concrete run, against the theorems *)

Lemma misconfigured_arena_raises_witness :
  exists w',
    compareToPast (Demo.vs_past (40 # 100)) 2
      (Demo.world (Demo.config false (Some 3)) 0)
    = (Raise UserWarning, w')
    /\ arenaMCTS (args (self w')) = true
    /\ log w' = [LoadCheckpoint Past 1]
    /\ gating_counter (self w') = 0.
Proof.
  apply (misconfigured_arena_raises (Demo.vs_past (40 # 100)) 2 101
           (Demo.world (Demo.config false (Some 3)) 0));
    reflexivity.
Defined.

Lemma gate_forced_beyond_bound_witness :
  gating_counter (self (Demo.after_turn 4 (40 # 100))) = 0
  /\ current_iter (self (Demo.after_turn 4 (40 # 100))) = 2 + 1
  /\ checkpoints (disk (Demo.after_turn 4 (40 # 100)))
     = <[2 := nnet (self (Demo.after_turn 4 (40 # 100)))]>
         (checkpoints Demo.files).
Proof.
  apply (gate_forced_beyond_bound (Demo.env (40 # 100)) 2 3
           (Demo.world Demo.defaults 4) (Demo.after_turn 4 (40 # 100))).
  - vm_compute. reflexivity.
  - reflexivity.
  - reflexivity.
  - simpl. lia.
Defined.

(** At a counter of 3 with a bound of 3 the gate still rejects: the
    counter goes to 4 and the iteration stays at 2. *)
Lemma gate_at_bound_still_rejects :
  fst (learn_body (Demo.env (40 # 100)) 2 (Demo.world Demo.defaults 3))
  = Ok tt
  /\ gating_counter (self (Demo.after_turn 3 (40 # 100))) = 4
  /\ current_iter (self (Demo.after_turn 3 (40 # 100))) = 2
  /\ ~ (gating_counter (self (Demo.after_turn 3 (40 # 100))) = 0
        /\ current_iter (self (Demo.after_turn 3 (40 # 100))) = 2 + 1).
Proof.
  repeat split; try (vm_compute; reflexivity).
  intros [H _]. vm_compute in H. discriminate.
Qed.

Lemma gating_counter_bounded_witness :
  0 <= gating_counter
         (self (snd (learn [Demo.env (40 # 100); Demo.env (40 # 100);
                            Demo.env (60 # 100)]
                       (Demo.world Demo.defaults 0)))) <= 3 + 1
  /\ 0 <= 3
  /\ gating_counter
       (self (snd (compareToPast (Demo.vs_past (40 # 100)) 2
                     (Demo.world_trained Demo.defaults 4)))) = 0.
Proof.
  destruct (gating_counter_bounded (weights := Z) (tensor := Z) (data_t := Z)
              (policy_t := Z) (value_t := Z) (outcome := bool) 3)
    as (Hlearn & Hstep & Hforce); [lia |].
  split; [| split].
  - apply (Hlearn [Demo.env (40 # 100); Demo.env (40 # 100);
                   Demo.env (60 # 100)]
             (Demo.world Demo.defaults 0) _
             (fst (learn [Demo.env (40 # 100); Demo.env (40 # 100);
                          Demo.env (60 # 100)]
                     (Demo.world Demo.defaults 0))));
      [reflexivity | reflexivity | vm_compute; reflexivity].
  - apply (Hstep (Demo.vs_past (40 # 100)) 2
             (Demo.world_trained Demo.defaults 0)
             (snd (compareToPast (Demo.vs_past (40 # 100)) 2
                     (Demo.world_trained Demo.defaults 0)))
             (Ok tt));
      [reflexivity | vm_compute; reflexivity | vm_compute; reflexivity].
  - apply (Hforce (Demo.vs_past (40 # 100)) 2
             (Demo.world_trained Demo.defaults 4));
      [reflexivity | simpl; lia | vm_compute; reflexivity].
Defined.

Lemma gate_rejects_and_rolls_back_witness :
  checkpoints Demo.files !! (2 - 1)
  = Some (nnet (self (Demo.after_turn 0 (40 # 100))))
  /\ checkpoints (disk (Demo.after_turn 0 (40 # 100))) !! (2 - 1)
     = Some (nnet (self (Demo.after_turn 0 (40 # 100))))
  /\ checkpoints (disk (Demo.after_turn 0 (40 # 100))) !! 2 = None
  /\ checkpoints (disk (Demo.after_turn 0 (40 # 100)))
     = delete 2 (checkpoints Demo.files)
  /\ current_iter (self (Demo.after_turn 0 (40 # 100))) = 2
  /\ gating_counter (self (Demo.after_turn 0 (40 # 100))) = 0 + 1.
Proof.
  apply (gate_rejects_and_rolls_back (Demo.env (40 # 100)) 2 3 (40 # 100)
           (Demo.world Demo.defaults 0) (Demo.after_turn 0 (40 # 100))).
  - vm_compute. reflexivity.
  - reflexivity.
  - reflexivity.
  - reflexivity.
  - reflexivity.
  - reflexivity.
  - lia.
  - simpl. lia.
  - reflexivity.
  - simpl. lia.
Defined.

Lemma gate_accepts_sufficient_winrate_witness :
  (exists w2,
      compareToPast (Demo.vs_past (60 # 100)) 2
        (Demo.world_trained Demo.defaults 2) = (Ok tt, w2)
      /\ gating_counter (self w2) = 0
      /\ current_iter (self w2) = 2
      /\ nnet (self w2) = 102
      /\ disk w2 = Demo.files_trained)
  /\ gating_counter (self (Demo.after_turn 2 (60 # 100))) = 0
  /\ current_iter (self (Demo.after_turn 2 (60 # 100))) = 2 + 1.
Proof.
  destruct (gate_accepts_sufficient_winrate (Demo.env (60 # 100)) (60 # 100))
    as [Hgate Hturn].
  split.
  - apply (Hgate 2 101 (Demo.world_trained Demo.defaults 2)).
    + repeat split; try reflexivity. discriminate.
    + vm_compute. discriminate.
  - apply (Hturn 2 (Demo.world Demo.defaults 2)).
    + vm_compute. reflexivity.
    + reflexivity.
    + reflexivity.
    + vm_compute. discriminate.
Defined.

Lemma falsy_bound_disables_gating_witness :
  exists w',
    compareToPast (Demo.vs_past (40 # 100)) 2
      (Demo.world_trained (Demo.config true (Some 0)) 0) = (Ok tt, w')
    /\ gating_counter (self w') = 0
    /\ nnet (self w') = 102
    /\ current_iter (self w') = 2
    /\ disk w' = Demo.files_trained
    /\ log w' = gate_calls (Demo.config true (Some 0)) 2 (40 # 100).
Proof.
  apply (falsy_bound_disables_gating (Demo.vs_past (40 # 100)) 2 (40 # 100)
           101 (Demo.world_trained (Demo.config true (Some 0)) 0)).
  - repeat split; try reflexivity. discriminate.
  - reflexivity.
  - reflexivity.
  - reflexivity.
Defined.

Lemma rollback_precedes_removal_witness :
  exists new,
    log (snd (compareToPast (Demo.vs_past (40 # 100)) 2
                (Demo.world_trained Demo.defaults 0))) = [] ++ new
    /\ forall j, In (RemoveCheckpoint j) new ->
         j = 2
         /\ Z.max 0 (2 - 1) <> 2
         /\ (1 = 1 -> Z.max 0 (2 - 1) = 2 - 1)
         /\ (exists l,
               new = l ++ [LoadCheckpoint Live (Z.max 0 (2 - 1));
                           RemoveCheckpoint 2]
               /\ forall k, ~ In (RemoveCheckpoint k) l)
         /\ checkpoints Demo.files_trained !! Z.max 0 (2 - 1)
            = Some (nnet (self (snd (compareToPast (Demo.vs_past (40 # 100)) 2
                                       (Demo.world_trained Demo.defaults 0)))))
         /\ checkpoints
              (disk (snd (compareToPast (Demo.vs_past (40 # 100)) 2
                            (Demo.world_trained Demo.defaults 0))))
            !! Z.max 0 (2 - 1)
            = Some (nnet (self (snd (compareToPast (Demo.vs_past (40 # 100)) 2
                                       (Demo.world_trained Demo.defaults 0))))).
Proof.
  apply (rollback_precedes_removal (Demo.vs_past (40 # 100)) 2
           (Demo.world_trained Demo.defaults 0) _ (Ok tt)).
  - lia.
  - simpl. lia.
  - vm_compute. reflexivity.
Defined.

Lemma train_window_spec_witness :
  currentHistorySize Demo.defaults 2 = clamp 4 ((2 + 4) / 2) 10
  /\ (exists ks,
        shard_loads
          (log (snd (train Demo.train_on_rows 2
                       (Demo.world_trained Demo.defaults 0))))
        = shard_loads [] ++ ks
        /\ (forall k, In k ks
              <-> Z.max 1 (2 - currentHistorySize Demo.defaults 2) <= k <= 2)
        /\ StronglySorted Z.lt ks
        /\ (2 = 2 -> 10 = 10 ->
            currentHistorySize Demo.defaults 2 = 4 /\ ks = [1; 2]))
  /\ (@Ok unit tt = Ok tt ->
        nnet (self (snd (train Demo.train_on_rows 2
                           (Demo.world_trained Demo.defaults 0))))
        = fst (Demo.train_on_rows 102
                 [(7, 17, 1); (8, 18, -1); (1, 2, 3); (4, 5, 6); (7, 8, 9)]
                 512)
        /\ checkpoints
             (disk (snd (train Demo.train_on_rows 2
                           (Demo.world_trained Demo.defaults 0)))) !! 2
           = Some (nnet (self (snd (train Demo.train_on_rows 2
                                      (Demo.world_trained Demo.defaults 0))))))
  /\ (@Ok unit tt = Ok tt
      <-> [(7, 17, 1); (8, 18, -1); (1, 2, 3); (4, 5, 6); (7, 8, 9)] <> []
          /\ 0 <= 2 /\ 0 < 512).
Proof.
  assert (Hrows :
    concat (map (shard_rows Demo.files_trained)
                (Py.range (Z.max 1 (2 - currentHistorySize Demo.defaults 2))
                          (2 + 1)))
    = [(7, 17, 1); (8, 18, -1); (1, 2, 3); (4, 5, 6); (7, 8, 9)])
    by (vm_compute; reflexivity).
  rewrite <- Hrows.
  apply (train_window_spec Demo.train_on_rows 2
           (Demo.world_trained Demo.defaults 0) _ (Ok tt)).
  - intros k Hk. change (1 <= k <= 2) in Hk.
    assert (Hcases : k = 1 \/ k = 2) by lia.
    destruct Hcases as [-> | ->].
    + exists [7; 8], [17; 18], [1; -1]. repeat split; reflexivity.
    + exists [1; 4; 7], [2; 5; 8], [3; 6; 9]. repeat split; reflexivity.
  - vm_compute. reflexivity.
Defined.

Lemma batching_loop_serves_each_notification_witness :
  exists w',
    processSelfPlayBatches Demo.turns Demo.world_playing
    = ((if finishes 2 Demo.turns then Ok tt else Blocked), w')
    /\ net_evals (log w') = net_evals [] ++ map worker_id (served 2 Demo.turns)
    /\ signals (log w') = signals [] ++ map worker_id (served 2 Demo.turns)
    /\ self w'
       = fold_left (fun c x => answered x c) (served 2 Demo.turns)
           (self Demo.world_playing)
    /\ (forall x (c : @Coach Z Z Z Z Z bool),
          has_slots 2 c -> names_slot 2 x ->
          let id := Z.to_nat (worker_id x) in
          let out := nnet_process (nnet c) (worker_input x) in
          input_tensors (answered x c) !! id = Some (worker_input x)
          /\ policy_tensors (answered x c) !! id = Some (fst out)
          /\ value_tensors (answered x c) !! id = Some (snd out)
          /\ batch_ready (answered x c) !! id = Some true)
    /\ (forall t rest (w0 : @World Z Z Z Z Z bool),
          seen_completed t <> workers (args (self w0)) ->
          popped t = None ->
          processSelfPlayBatches (t :: rest) w0
          = processSelfPlayBatches rest w0)
    /\ (forall t rest (w0 : @World Z Z Z Z Z bool),
          seen_completed t = workers (args (self w0)) ->
          processSelfPlayBatches (t :: rest) w0 = (Ok tt, w0)).
Proof.
  apply (batching_loop_serves_each_notification 2 Demo.turns
           Demo.world_playing).
  - repeat split; reflexivity.
  - repeat constructor; simpl; lia.
Defined.

(** ** The concrete run, against the further properties *)

Lemma init_resumes_after_last_checkpoint_witness :
  current_iter (self (snd (init true (Demo.world_over Demo.files))))
  = Z.max 1 (Z.of_nat (size (checkpoints Demo.files)))
  /\ startIter (args (self (snd (init true (Demo.world_over Demo.files)))))
     = current_iter (self (snd (init true (Demo.world_over Demo.files))))
  /\ gating_counter (self (snd (init true (Demo.world_over Demo.files)))) = 0
  /\ warmup (self (snd (init true (Demo.world_over Demo.files)))) = false
  /\ checkpoints (disk (snd (init true (Demo.world_over Demo.files))))
       !! (current_iter (self (snd (init true (Demo.world_over Demo.files))))
           - 1)
     = Some (nnet (self (snd (init true (Demo.world_over Demo.files)))))
  /\ has_slots 0 (self (snd (init true (Demo.world_over Demo.files))))
  /\ file_queue (self (snd (init true (Demo.world_over Demo.files)))) = []
  /\ result_queue (self (snd (init true (Demo.world_over Demo.files)))) = [].
Proof.
  apply (init_resumes_after_last_checkpoint (Demo.world_over Demo.files)).
  vm_compute. reflexivity.
Defined.

Lemma init_bootstraps_empty_store_witness :
  exists w',
    init true (Demo.world_over Demo.files_empty) = (Ok tt, w')
    /\ checkpoints (disk w') = {[0 := 101]}
    /\ nnet (self w') = 101
    /\ current_iter (self w') = 1
    /\ log w' = [] ++ [SaveCheckpoint 0; LoadCheckpoint Live 0].
Proof.
  apply (init_bootstraps_empty_store (Demo.world_over Demo.files_empty)).
  reflexivity.
Defined.

Lemma init_counts_checkpoints_witness :
  exists e w',
    init true (Demo.world_over Demo.files_gap) = (Raise e, w')
    /\ disk w' = Demo.files_gap
    /\ log w'
       = [] ++ [LoadCheckpoint Live
                  (Z.of_nat (size (checkpoints Demo.files_gap)) - 1)].
Proof.
  apply (init_counts_checkpoints (Demo.world_over Demo.files_gap)).
  - vm_compute. discriminate.
  - vm_compute. reflexivity.
Defined.

Lemma generate_makes_one_slot_per_worker_witness :
  (exists w',
     generateSelfPlayAgents (Demo.world Demo.defaults 0) = (Ok tt, w')
     /\ has_slots 2 (self w')
     /\ length (agents (self w')) = 2%nat
     /\ (forall i : nat, (i < 2)%nat ->
           agents (self w') !! i = Some (Z.of_nat i)
           /\ input_tensors (self w') !! i = Some 0
           /\ policy_tensors (self w') !! i = Some 0
           /\ value_tensors (self w') !! i = Some 0
           /\ batch_ready (self w') !! i = Some false)
     /\ args (self w') = Demo.defaults
     /\ disk w' = Demo.files
     /\ log w' = [] ++ map StartAgent (Py.range 0 2))
  /\ (exists w',
        generateSelfPlayAgents (K := Demo.cpu_only)
          (Demo.world Demo.defaults 0)
        = (Raise RuntimeError, w')
        /\ agents (self w') = []
        /\ args (self w') = Demo.defaults
        /\ log w' = []
        /\ disk w' = Demo.files).
Proof.
  assert (Hslots : has_slots 0 (self (Demo.world Demo.defaults 0)))
    by (repeat split; reflexivity).
  split.
  - destruct (generate_makes_one_slot_per_worker
                (Demo.world Demo.defaults 0) eq_refl Hslots) as [Hgpu _].
    apply Hgpu; [reflexivity | simpl; lia].
  - destruct (generate_makes_one_slot_per_worker (K := Demo.cpu_only)
                (Demo.world Demo.defaults 0) eq_refl Hslots) as [_ Hcpu].
    apply Hcpu; [simpl; lia | left; reflexivity].
Defined.


Lemma started_pool_serves_every_worker_witness :
  exists w',
    bind generateSelfPlayAgents (fun _ => processSelfPlayBatches Demo.turns)
      (Demo.world Demo.defaults 0)
    = ((if finishes 2 Demo.turns then Ok tt else Blocked), w')
    /\ net_evals (log w')
       = net_evals [] ++ map worker_id (served 2 Demo.turns).
Proof.
  apply (started_pool_serves_every_worker Demo.turns
           (Demo.world Demo.defaults 0)).
  - reflexivity.
  - repeat split; reflexivity.
  - reflexivity.
  - simpl. lia.
  - repeat constructor; simpl; lia.
Defined.

Lemma unknown_worker_aborts_batching_witness :
  processSelfPlayBatches
    ({| seen_completed := 0;
        popped := Some {| worker_id := 5; worker_input := 1 |};
        seen_games_played := 0 |} :: Demo.turns)
    Demo.world_playing
  = (Raise IndexError, Demo.world_playing).
Proof.
  apply (unknown_worker_aborts_batching _ Demo.turns
           {| worker_id := 5; worker_input := 1 |} Demo.world_playing).
  - simpl. lia.
  - reflexivity.
  - left. simpl. lia.
Defined.

Lemma no_finished_game_aborts_results_witness :
  exists w',
    processGameResults 2 (Demo.world Demo.defaults 0)
    = (Raise ZeroDivisionError, w')
    /\ log w' = []
    /\ disk w' = Demo.files.
Proof.
  apply (no_finished_game_aborts_results 2 (Demo.world Demo.defaults 0)).
  reflexivity.
Defined.

Lemma failed_training_changes_nothing_witness :
  frame (Demo.world Demo.defaults 0)
    (snd (train (env_train (Demo.env (40 # 100))) 2
            (Demo.world Demo.defaults 0)))
  /\ disk (snd (train (env_train (Demo.env (40 # 100))) 2
                  (Demo.world Demo.defaults 0)))
     = Demo.files
  /\ exists ks rest,
       train_window Demo.defaults 2 = ks ++ rest
       /\ log (snd (train (env_train (Demo.env (40 # 100))) 2
                      (Demo.world Demo.defaults 0)))
          = [] ++ map LoadShard ks.
Proof.
  apply (failed_training_changes_nothing (env_train (Demo.env (40 # 100))) 2
           (Demo.world Demo.defaults 0) _ (Raise FileNotFoundError)).
  - vm_compute. reflexivity.
  - discriminate.
Defined.

Lemma empty_window_aborts_training_witness :
  train (env_train (Demo.env (40 # 100))) 0 (Demo.world Demo.defaults 0)
  = (Raise AssertionError, Demo.world Demo.defaults 0).
Proof.
  apply (empty_window_aborts_training (env_train (Demo.env (40 # 100))) 0
           (Demo.world Demo.defaults 0)).
  left. lia.
Defined.


Lemma random_comparison_only_observes_witness :
  self (snd (compareToRandom (env_vs_random (Demo.env (40 # 100))) 2
               (Demo.world_trained Demo.defaults 0)))
  = self (Demo.world_trained Demo.defaults 0)
  /\ disk (snd (compareToRandom (env_vs_random (Demo.env (40 # 100))) 2
                  (Demo.world_trained Demo.defaults 0)))
     = Demo.files_trained
  /\ (exists after,
        log (snd (compareToRandom (env_vs_random (Demo.env (40 # 100))) 2
                    (Demo.world_trained Demo.defaults 0)))
        = [] ++ PlayGames (line_up (MCTSPlayer Live) RandomPlayer) false 16
                :: after)
  /\ (@Ok unit tt = Ok tt
      <-> arena_winrates (env_vs_random (Demo.env (40 # 100))) <> []
          /\ arena_wins (env_vs_random (Demo.env (40 # 100))) <> [])
  /\ (@Ok unit tt <> Ok tt -> @Ok unit tt = Raise IndexError).
Proof.
  apply (random_comparison_only_observes
           (env_vs_random (Demo.env (40 # 100))) 2
           (Demo.world_trained Demo.defaults 0) _ (Ok tt)).
  vm_compute. reflexivity.
Defined.

Lemma missing_past_checkpoint_aborts_witness :
  exists e,
    compareToPast (Demo.vs_past (40 # 100)) 5 (Demo.world Demo.defaults 0)
    = (Raise e,
       {| self := Demo.coach Demo.defaults 0; disk := Demo.files;
          log := [] ++ [LoadCheckpoint Past (Z.max 0 (5 - 1))] |}).
Proof.
  apply (missing_past_checkpoint_aborts (Demo.vs_past (40 # 100)) 5
           (Demo.world Demo.defaults 0)).
  reflexivity.
Defined.

Lemma rejection_without_checkpoint_stops_half_way_witness :
  exists w',
    compareToPast (Demo.vs_past (40 # 100)) 2 (Demo.world Demo.defaults 0)
    = (Raise FileNotFoundError, w')
    /\ nnet (self w') = 101
    /\ current_iter (self w') = 2
    /\ gating_counter (self w') = 0
    /\ disk w' = Demo.files.
Proof.
  apply (rejection_without_checkpoint_stops_half_way
           (Demo.vs_past (40 # 100)) 2 (40 # 100) 101
           (Demo.world Demo.defaults 0)).
  - repeat split; try reflexivity. discriminate.
  - reflexivity.
  - reflexivity.
Defined.

Lemma gating_off_only_measures_witness :
  gating_counter
    (self (snd (compareToPast (Demo.vs_past (40 # 100)) 2
                  (Demo.world_trained (Demo.config_with false 1 1000 0) 2))))
  = 0
  /\ nnet (self (snd (compareToPast (Demo.vs_past (40 # 100)) 2
                        (Demo.world_trained
                           (Demo.config_with false 1 1000 0) 2)))) = 102
  /\ current_iter
       (self (snd (compareToPast (Demo.vs_past (40 # 100)) 2
                     (Demo.world_trained
                        (Demo.config_with false 1 1000 0) 2)))) = 2
  /\ disk (snd (compareToPast (Demo.vs_past (40 # 100)) 2
                  (Demo.world_trained (Demo.config_with false 1 1000 0) 2)))
     = Demo.files_trained.
Proof.
  apply (gating_off_only_measures (Demo.vs_past (40 # 100)) 2
           (Demo.world_trained (Demo.config_with false 1 1000 0) 2)).
  - reflexivity.
  - vm_compute. reflexivity.
Defined.

Lemma comparison_network_holds_past_witness :
  0 <= Z.max 0 (2 - 1)
  /\ checkpoints Demo.files_trained !! Z.max 0 (2 - 1)
     = Some (pnet (self (snd (compareToPast (Demo.vs_past (40 # 100)) 2
                                (Demo.world_trained Demo.defaults 0)))))
  /\ (nnet (self (snd (compareToPast (Demo.vs_past (40 # 100)) 2
                         (Demo.world_trained Demo.defaults 0)))) = 102
      \/ nnet (self (snd (compareToPast (Demo.vs_past (40 # 100)) 2
                            (Demo.world_trained Demo.defaults 0))))
         = pnet (self (snd (compareToPast (Demo.vs_past (40 # 100)) 2
                              (Demo.world_trained Demo.defaults 0))))).
Proof.
  apply (comparison_network_holds_past (Demo.vs_past (40 # 100)) 2
           (Demo.world_trained Demo.defaults 0)).
  vm_compute. reflexivity.
Defined.

Lemma turn_without_comparison_advances_witness :
  current_iter
    (self (snd (learn_body (Demo.env (40 # 100)) 1
                  (Demo.world Demo.defaults 0)))) = 2 + 1
  /\ gating_counter
       (self (snd (learn_body (Demo.env (40 # 100)) 1
                     (Demo.world Demo.defaults 0)))) = 0
  /\ checkpoints
       (disk (snd (learn_body (Demo.env (40 # 100)) 1
                     (Demo.world Demo.defaults 0))))
     = <[2 := nnet (self (snd (learn_body (Demo.env (40 # 100)) 1
                                 (Demo.world Demo.defaults 0))))]>
         (checkpoints Demo.files).
Proof.
  apply (turn_without_comparison_advances (Demo.env (40 # 100)) 1
           (Demo.world Demo.defaults 0)).
  - vm_compute. reflexivity.
  - reflexivity.
Defined.

Lemma rejection_rewinds_by_frequency_witness :
  current_iter
    (self (snd (learn_body (Demo.env (40 # 100)) 3
                  (Demo.world (Demo.config_with true 2 1000 0) 0))))
  = 2 - 2 + 1
  /\ checkpoints Demo.files !! (2 - 2)
     = Some (nnet (self (snd (learn_body (Demo.env (40 # 100)) 3
                                (Demo.world
                                   (Demo.config_with true 2 1000 0) 0)))))
  /\ gating_counter
       (self (snd (learn_body (Demo.env (40 # 100)) 3
                     (Demo.world (Demo.config_with true 2 1000 0) 0))))
     = 0 + 1
  /\ (forall k, k <> 2 ->
        checkpoints
          (disk (snd (learn_body (Demo.env (40 # 100)) 3
                        (Demo.world (Demo.config_with true 2 1000 0) 0))))
          !! k
        = checkpoints Demo.files !! k)
  /\ checkpoints
       (disk (snd (learn_body (Demo.env (40 # 100)) 3
                     (Demo.world (Demo.config_with true 2 1000 0) 0))))
       !! 2 = None.
Proof.
  apply (rejection_rewinds_by_frequency (Demo.env (40 # 100)) 3 (40 # 100)
           (Demo.world (Demo.config_with true 2 1000 0) 0)).
  - vm_compute. reflexivity.
  - reflexivity.
  - reflexivity.
  - reflexivity.
  - simpl. lia.
Defined.

Lemma every_turn_makes_progress_witness :
  2 * (3 + 2) + 0
  < current_iter (self (Demo.after_turn 0 (40 # 100))) * (3 + 2)
    + gating_counter (self (Demo.after_turn 0 (40 # 100)))
  /\ 0 <= gating_counter (self (Demo.after_turn 0 (40 # 100))) <= 3 + 1
  /\ 2 <= current_iter (self (Demo.after_turn 0 (40 # 100))).
Proof.
  apply (every_turn_makes_progress (Demo.env (40 # 100)) 2 3
           (Demo.world Demo.defaults 0) (Demo.after_turn 0 (40 # 100))).
  - vm_compute. reflexivity.
  - reflexivity.
  - reflexivity.
  - simpl. lia.
  - simpl. lia.
Defined.

Lemma learn_runs_until_numIters_witness :
  numIters
    (args (self (snd (learn [Demo.env (60 # 100)]
                        (Demo.world (Demo.config_with true 1 2 0) 0)))))
  < current_iter
      (self (snd (learn [Demo.env (60 # 100)]
                    (Demo.world (Demo.config_with true 1 2 0) 0))))
  /\ learn [Demo.env (60 # 100)] (Demo.world (Demo.config_with true 1 1 0) 0)
     = (Ok tt, Demo.world (Demo.config_with true 1 1 0) 0).
Proof.
  split.
  - apply (learn_runs_until_numIters [Demo.env (60 # 100)]
             (Demo.world (Demo.config_with true 1 2 0) 0)).
    vm_compute. reflexivity.
  - apply (learn_runs_until_numIters [Demo.env (60 # 100)]
             (Demo.world (Demo.config_with true 1 1 0) 0)).
    simpl. lia.
Defined.

Lemma get_args_overrides_persist_witness :
  fst (get_args [("workers"%string, 4); ("numIters"%string, 10)]
         (<["workers"%string := 8]> (<["lr"%string := 1]> ∅)))
    !! "workers"%string = Some 4
  /\ snd (get_args [("workers"%string, 4); ("numIters"%string, 10)]
            (<["workers"%string := 8]> (<["lr"%string := 1]> ∅)))
       !! "workers"%string = Some 4
  /\ (forall later,
        ~ In "workers"%string (map fst later) ->
        fst (get_args later
               (snd (get_args
                       [("workers"%string, 4); ("numIters"%string, 10)]
                       (<["workers"%string := 8]>
                          (<["lr"%string := 1]> ∅)))))
          !! "workers"%string = Some 4)
  /\ (forall k',
        ~ In k' (map fst [("workers"%string, 4); ("numIters"%string, 10)]) ->
        fst (get_args [("workers"%string, 4); ("numIters"%string, 10)]
               (<["workers"%string := 8]> (<["lr"%string := 1]> ∅)))
          !! k'
        = (<["workers"%string := 8]> (<["lr"%string := 1]> ∅) : gmap string Z)
            !! k').
Proof.
  apply (get_args_overrides_persist
           [("workers"%string, 4); ("numIters"%string, 10)]
           (<["workers"%string := 8]> (<["lr"%string := 1]> ∅))
           "workers"%string 4).
  - apply (bool_decide_unpack _). vm_compute. reflexivity.
  - simpl. auto.
Defined.

Lemma skipped_selfplay_starts_nothing_witness :
  exists l,
    log (snd (learn_body (Demo.env (40 # 100)) 2
                (Demo.world_trained (Demo.config_with true 1 1000 5) 0)))
    = [] ++ l
    /\ forall ev, In ev l -> is_selfplay ev = false.
Proof.
  apply (skipped_selfplay_starts_nothing (Demo.env (40 # 100)) 2
           (Demo.world_trained (Demo.config_with true 1 1000 5) 0) _
           (Ok tt)).
  - vm_compute. reflexivity.
  - simpl. lia.
Defined.

Lemma zero_frequency_stops_the_turn_witness :
  @Raise unit ZeroDivisionError <> Ok tt
  /\ current_iter
       (self (snd (learn_body (Demo.env (40 # 100)) 2
                     (Demo.world (Demo.config_with true 0 1000 0) 0)))) = 2
  /\ gating_counter
       (self (snd (learn_body (Demo.env (40 # 100)) 2
                     (Demo.world (Demo.config_with true 0 1000 0) 0)))) = 0.
Proof.
  apply (zero_frequency_stops_the_turn (Demo.env (40 # 100)) 2
           (Demo.world (Demo.config_with true 0 1000 0) 0) _
           (Raise ZeroDivisionError)).
  - vm_compute. reflexivity.
  - simpl. lia.
  - right. split; reflexivity.
Defined.

Lemma zero_expert_iterations_stops_the_turn_witness :
  @Raise unit ZeroDivisionError <> Ok tt.
Proof.
  apply (zero_expert_iterations_stops_the_turn (Demo.env (60 # 100)) 2
           (Demo.world Demo.config_unscheduled 0)
           (snd (learn_body (Demo.env (60 # 100)) 2
                   (Demo.world Demo.config_unscheduled 0)))
           (Raise ZeroDivisionError)).
  - reflexivity.
  - vm_compute. reflexivity.
Defined.
